(* ===================================================================== *)
(* Azhagappar Academy backend: entitlement, progression, payment and     *)
(* media-delivery handlers, embedded shallowly and checked against the   *)
(* platform specification.                                               *)
(*                                                                       *)
(* Sources embedded here:                                                *)
(*   routes/progress  (checkCourseAccess, ensureProgress,                *)
(*                     POST /progress/level-complete)                    *)
(*   routes/payments  (GET /payments/course/:courseId/status,            *)
(*                     POST /payments)                                   *)
(*   routes/quizzes   (POST /quizzes/:id/submit)                         *)
(*   routes/levels    (GET /levels/course/:courseId, GET /levels/:id,    *)
(*                     GET /levels/:id/stream)                           *)
(*   models/Progress  (calculateProgress, schema validators)             *)
(*                                                                       *)
(* Conventions.  A Mongo collection with a unique compound index on      *)
(* (userId, courseId) is a gmap keyed by that pair; collections looked   *)
(* up by _id are gmaps keyed by the id; the Level collection, which is   *)
(* also enumerated and sorted, is a list of documents.  Date.now() is an *)
(* explicit argument [now], read once per request.  A handler is a       *)
(* function from the database and the request to a reply and the         *)
(* database after the request.  Of the exceptions a handler catches,     *)
(* the ones that its own data decide are modelled (schema validation on  *)
(* save, a read stream that cannot be opened, a failed upload); a lost   *)
(* database connection is not.  Notifications and the removal of stored  *)
(* files have no effect on the database and are left out.                *)
(* JavaScript numbers that the handlers only compare, add or store are   *)
(* integers (Z); the two percentages the code computes with a division   *)
(* are evaluated in binary64, as the engine does.                        *)
(* ===================================================================== *)

From Stdlib Require Import ZArith String Ascii List Lia Bool PrimFloat.
From stdpp Require Import base option gmap strings list pretty.

Local Open Scope string_scope.
Local Open Scope Z_scope.

(* --------------------------------------------------------------------- *)
(* 1. Data model                                                         *)
(* --------------------------------------------------------------------- *)

(** ObjectIds. *)
Definition oid := nat.

(** USER_ROLES = ['student', 'admin']. *)
Inductive role := admin | student.

Record User := { user_id : oid; user_role : role }.

Definition is_admin (r : role) : bool :=
  match r with admin => true | student => false end.

(** Course.status enum. *)
Inductive course_status := draft | published | archived.

Definition is_published (s : course_status) : bool :=
  match s with published => true | _ => false end.

(** A Course document; its _id is the key it is stored under. *)
Record Course := {
  course_price : Z;
  course_state : course_status
}.

(** Payment.status enum. *)
Inductive payment_status := pending | approved | rejected.

Definition payment_status_eqb (a b : payment_status) : bool :=
  match a, b with
  | pending, pending | approved, approved | rejected, rejected => true
  | _, _ => false
  end.

Definition payment_status_name (s : payment_status) : string :=
  match s with
  | pending => "pending"
  | approved => "approved"
  | rejected => "rejected"
  end.

(** A Payment document.  Its userId and courseId are the pair it is stored
    under (the unique compound index). *)
Record Payment := {
  payment_id : oid;
  transactionId : string;
  proofImage : string;
  amount : Z;
  payment_state : payment_status;
  verifiedBy : option oid;
  verifiedAt : option Z;
  rejectionReason : string;
  notes : string
}.

(** levelProgressSchema (sub-document of Progress.completedLevels). *)
Record LevelProgress := {
  lp_levelId : oid;
  completed : bool;
  completedAt : option Z;
  quizScore : Z;
  quizPassed : bool;
  quizAttempts : Z;
  videoWatchedPercent : Z
}.

(** A Progress document.  Its userId and courseId are the pair it is stored
    under (the unique compound index). *)
Record Progress := {
  progress_id : oid;
  completedLevels : list LevelProgress;
  currentLevel : Z;
  totalProgress : Z;
  courseCompleted : bool;
  courseCompletedAt : option Z;
  lastAccessedAt : Z
}.

Inductive active_status := active | inactive.

Definition is_active (s : active_status) : bool :=
  match s with active => true | inactive => false end.

Record Level := {
  level_id : oid;
  level_courseId : oid;
  levelNumber : Z;
  level_title : string;
  level_description : string;
  videoPath : option string;
  videoDuration : Z;
  quizId : option oid;
  quizEnabled : bool;
  level_order : Z;
  level_state : active_status
}.

Record Question := {
  question_id : oid;
  question_text : string;
  options : list string;
  correctAnswer : Z;
  explanation : string
}.

Record Quiz := {
  quiz_id : oid;
  quiz_levelId : oid;
  quiz_courseId : oid;
  questions : list Question;
  passingScore : Z;
  maxAttempts : Z;
  quiz_state : active_status
}.

(** The database: one field per collection, and the next fresh ObjectId. *)
Record Db := {
  courses : gmap oid Course;
  levels : list Level;
  payments : gmap (oid * oid) Payment;
  progresses : gmap (oid * oid) Progress;
  quizzes : gmap oid Quiz;
  nextId : oid
}.

Definition set_payments (db : Db) (ps : gmap (oid * oid) Payment) : Db :=
  {| courses := courses db; levels := levels db; payments := ps;
     progresses := progresses db; quizzes := quizzes db; nextId := nextId db |}.

Definition set_progresses (db : Db) (ps : gmap (oid * oid) Progress) : Db :=
  {| courses := courses db; levels := levels db; payments := payments db;
     progresses := ps; quizzes := quizzes db; nextId := nextId db |}.

Definition bump_nextId (db : Db) : Db :=
  {| courses := courses db; levels := levels db; payments := payments db;
     progresses := progresses db; quizzes := quizzes db; nextId := S (nextId db) |}.

(** What a handler sends: [Reply code payload] for res.status(code).json(payload)
    on the success path, [Fail code message] for
    res.status(code).json({ message }). *)
Inductive reply (A : Type) :=
| Reply (code : Z) (payload : A)
| Fail (code : Z) (message : string).
Arguments Reply {A} code payload.
Arguments Fail {A} code message.

Definition reply_code {A} (r : reply A) : Z :=
  match r with Reply c _ => c | Fail c _ => c end.

(* --------------------------------------------------------------------- *)
(* 2. Collection queries                                                 *)
(* --------------------------------------------------------------------- *)

(** Payment.findOne({ userId, courseId }) *)
Definition Payment_findOne (db : Db) (userId courseId : oid) : option Payment :=
  payments db !! (userId, courseId).

(** Payment.findOne({ userId, courseId, status: 'approved' }) *)
Definition Payment_findOne_approved (db : Db) (userId courseId : oid) : option Payment :=
  match payments db !! (userId, courseId) with
  | Some p => if payment_status_eqb (payment_state p) approved then Some p else None
  | None => None
  end.

(** Progress.findOne({ userId, courseId }) *)
Definition Progress_findOne (db : Db) (userId courseId : oid) : option Progress :=
  progresses db !! (userId, courseId).

(** Level.findById *)
Definition Level_findById (db : Db) (id : oid) : option Level :=
  List.find (fun l => Nat.eqb (level_id l) id) (levels db).

(** Level.countDocuments({ courseId }) *)
Definition Level_countDocuments (db : Db) (courseId : oid) : Z :=
  Z.of_nat (length (List.filter (fun l => Nat.eqb (level_courseId l) courseId) (levels db))).

(** Progress.create({ userId, courseId, completedLevels: [], currentLevel: 1 })
    with the schema defaults (totalProgress 0, courseCompleted false,
    courseCompletedAt null, lastAccessedAt Date.now). *)
Definition Progress_create (db : Db) (userId courseId : oid) (now : Z) : Progress * Db :=
  let p := {| progress_id := nextId db; completedLevels := [];
              currentLevel := 1; totalProgress := 0; courseCompleted := false;
              courseCompletedAt := None; lastAccessedAt := now |} in
  (p, bump_nextId (set_progresses db (<[(userId, courseId) := p]> (progresses db)))).

(** ensureProgress (routes/progress and routes/payments). *)
Definition ensureProgress (db : Db) (userId courseId : oid) (now : Z) : Progress * Db :=
  match Progress_findOne db userId courseId with
  | Some p => (p, db)
  | None => Progress_create db userId courseId now
  end.

(** JavaScript's [x || 1] on a number: 0 (and NaN) are falsy. *)
Definition or1 (x : Z) : Z := if x =? 0 then 1 else x.

(* --------------------------------------------------------------------- *)
(* 3. Entitlement                                                        *)
(* --------------------------------------------------------------------- *)

(** checkCourseAccess (routes/progress): the course as the caller may see
    it, and the access decision. *)
Definition checkCourseAccess (db : Db) (user : User) (courseId : oid)
  : option Course * bool :=
  match courses db !! courseId with
  | None => (None, false)
  | Some course =>
      if negb (is_admin (user_role user)) && negb (is_published (course_state course))
      then (None, false)
      else
        let isFree := course_price course =? 0 in
        if is_admin (user_role user) || isFree then (Some course, true)
        else (Some course, bool_decide (is_Some (Payment_findOne_approved db (user_id user) courseId)))
  end.

(** The rule of the specification, as a proposition on the stored data. *)
Definition entitled (db : Db) (user : User) (courseId : oid) (course : Course) : Prop :=
  user_role user = admin
  ∨ course_price course = 0
  ∨ ∃ p, Payment_findOne db (user_id user) courseId = Some p
         ∧ payment_state p = approved.

(** Body of GET /payments/course/:courseId/status. *)
Record CourseStatus := {
  cs_status : string;
  cs_hasAccess : bool;
  cs_progress : Z;
  cs_currentLevel : Z
}.

(** GET /payments/course/:courseId/status *)
Definition getCourseStatus (db : Db) (user : User) (courseId : oid) : reply CourseStatus :=
  match courses db !! courseId with
  | None => Fail 404 "Course not found"
  | Some course =>
      if negb (is_admin (user_role user)) && negb (is_published (course_state course))
      then Fail 404 "Course not found"
      else
        let payment := Payment_findOne db (user_id user) courseId in
        let progress := Progress_findOne db (user_id user) courseId in
        let isFree := course_price course =? 0 in
        Reply 200
          {| cs_status :=
               match payment with
               | Some p => payment_status_name (payment_state p)
               | None => if isFree then "free" else "unpaid"
               end;
             cs_hasAccess :=
               isFree ||
               match payment with
               | Some p => payment_status_eqb (payment_state p) approved
               | None => false
               end;
             cs_progress :=
               match progress with Some p => totalProgress p | None => 0 end;
             cs_currentLevel :=
               match progress with Some p => currentLevel p | None => 0 end |}
  end.

(* --------------------------------------------------------------------- *)
(* 4. Percentages: Math.round((count / total) * 100) in binary64         *)
(* --------------------------------------------------------------------- *)

(** An integer as a JavaScript number.  Exact below 2^53. *)
Fixpoint float_of_pos (p : positive) : float :=
  match p with
  | xH => 1%float
  | xO q => (2 * float_of_pos q)%float
  | xI q => (2 * float_of_pos q + 1)%float
  end.

Definition float_of_Z (z : Z) : float :=
  match z with
  | Z0 => 0%float
  | Zpos p => float_of_pos p
  | Zneg p => (- float_of_pos p)%float
  end.

(** Math.round on a number x with 0 <= x < 2^52: the greatest integer n
    with n - 0.5 <= x, found bit by bit from the top.  The comparisons are
    exact, because n - 0.5 is a binary64 number for every such n.  The
    handlers call it on (count / total) * 100 with count >= 0 and
    total >= 1 only. *)
Fixpoint round_bits (k : nat) (x : float) (acc : Z) : Z :=
  match k with
  | O => acc
  | S k' =>
      let cand := acc + 2 ^ Z.of_nat k' in
      if PrimFloat.leb (float_of_Z cand - 0.5)%float x
      then round_bits k' x cand
      else round_bits k' x acc
  end.

Definition Math_round (x : float) : Z := round_bits 52 x 0.

(** Math.round((count / total) * 100) *)
Definition js_percent (count total : Z) : Z :=
  Math_round ((float_of_Z count / float_of_Z total) * 100)%float.

(** Rounding 100 * count / total to the nearest integer, a tie going up, in
    exact arithmetic: the reading of round(100 * count / total). *)
Definition round_half_up_percent (count total : Z) : Z :=
  (200 * count + total) / (2 * total).

(** [f c t = g c t] for every 1 <= t <= n and 0 <= c <= t, as a boolean. *)
Definition agree_upto (f g : nat → nat → Z) (n : nat) : bool :=
  forallb (fun t => forallb (fun c => f c t =? g c t) (seq 0 (S t))) (seq 1 n).

(* --------------------------------------------------------------------- *)
(* 5. Progress documents                                                 *)
(* --------------------------------------------------------------------- *)

Definition with_completedLevels (p : Progress) (ls : list LevelProgress) : Progress :=
  {| progress_id := progress_id p; completedLevels := ls;
     currentLevel := currentLevel p; totalProgress := totalProgress p;
     courseCompleted := courseCompleted p; courseCompletedAt := courseCompletedAt p;
     lastAccessedAt := lastAccessedAt p |}.

Definition with_currentLevel (p : Progress) (n : Z) : Progress :=
  {| progress_id := progress_id p; completedLevels := completedLevels p;
     currentLevel := n; totalProgress := totalProgress p;
     courseCompleted := courseCompleted p; courseCompletedAt := courseCompletedAt p;
     lastAccessedAt := lastAccessedAt p |}.

Definition with_totalProgress (p : Progress) (n : Z) : Progress :=
  {| progress_id := progress_id p; completedLevels := completedLevels p;
     currentLevel := currentLevel p; totalProgress := n;
     courseCompleted := courseCompleted p; courseCompletedAt := courseCompletedAt p;
     lastAccessedAt := lastAccessedAt p |}.

Definition with_lastAccessedAt (p : Progress) (t : Z) : Progress :=
  {| progress_id := progress_id p; completedLevels := completedLevels p;
     currentLevel := currentLevel p; totalProgress := totalProgress p;
     courseCompleted := courseCompleted p; courseCompletedAt := courseCompletedAt p;
     lastAccessedAt := t |}.

(** progressSchema.methods.calculateProgress *)
Definition calculateProgress (p : Progress) (totalLevels : Z) : Progress :=
  if totalLevels =? 0 then p
  else
    let completedCount := Z.of_nat (length (List.filter completed (completedLevels p))) in
    with_totalProgress p (js_percent completedCount totalLevels).

(** The block both mutating handlers run after calculateProgress:
      if (progress.currentLevel > totalLevels) {
        progress.courseCompleted = true;
        progress.courseCompletedAt = Date.now();
        progress.totalProgress = 100;
      } *)
Definition markCourseCompleted (p : Progress) (totalLevels now : Z) : Progress :=
  if currentLevel p >? totalLevels then
    {| progress_id := progress_id p; completedLevels := completedLevels p;
       currentLevel := currentLevel p; totalProgress := 100;
       courseCompleted := true; courseCompletedAt := Some now;
       lastAccessedAt := lastAccessedAt p |}
  else p.

(** progress.currentLevel = Math.max(progress.currentLevel || 1, levelNumber + 1) *)
Definition unlockNext (p : Progress) (n : Z) : Progress :=
  with_currentLevel p (Z.max (or1 (currentLevel p)) (n + 1)).

(** The schema validators that run on save: videoWatchedPercent and
    totalProgress both have min 0 and max 100.  The whole document is
    checked here; the entries a handler does not touch were accepted by the
    same validators when they were stored. *)
Definition Progress_valid (p : Progress) : bool :=
  forallb (fun l => (0 <=? videoWatchedPercent l) && (videoWatchedPercent l <=? 100))
          (completedLevels p)
  && (0 <=? totalProgress p) && (totalProgress p <=? 100).

(** progress.save(): [None] when validation rejects the document (the
    handler's catch block then answers 500). *)
Definition Progress_save (db : Db) (userId courseId : oid) (p : Progress) : option Db :=
  if Progress_valid p
  then Some (set_progresses db (<[(userId, courseId) := p]> (progresses db)))
  else None.

(** Array.prototype.findIndex, [None] for -1. *)
Fixpoint findIndex {A} (f : A → bool) (l : list A) : option nat :=
  match l with
  | [] => None
  | x :: l' => if f x then Some O else S <$> findIndex f l'
  end.

(** completedLevels.findIndex(l => l.levelId.toString() === levelId) and the
    entry found there. *)
Definition levelIndex (p : Progress) (levelId : oid) : option nat :=
  findIndex (fun l => Nat.eqb (lp_levelId l) levelId) (completedLevels p).

Definition existingEntry (p : Progress) (levelId : oid) : option LevelProgress :=
  match levelIndex p levelId with
  | Some i => completedLevels p !! i
  | None => None
  end.

(** progress.completedLevels[levelIndex] = entry, or push(entry). *)
Definition putEntry (p : Progress) (levelId : oid) (entry : LevelProgress) : Progress :=
  match levelIndex p levelId with
  | Some i => with_completedLevels p (<[i := entry]> (completedLevels p))
  | None => with_completedLevels p (completedLevels p ++ [entry])
  end.

(** The learner's stored attempt counter for a level: 0 when there is no
    Progress document or no entry for the level. *)
Definition storedAttempts (db : Db) (userId courseId levelId : oid) : Z :=
  match Progress_findOne db userId courseId with
  | Some p =>
      match existingEntry p levelId with
      | Some e => quizAttempts e
      | None => 0
      end
  | None => 0
  end.

(* --------------------------------------------------------------------- *)
(* 6. POST /progress/level-complete                                      *)
(* --------------------------------------------------------------------- *)

(** req.body.  [lc_videoWatchedPercent] is Number(videoWatchedPercent),
    [None] when that is NaN. *)
Record LevelCompleteReq := {
  lc_courseId : oid;
  lc_levelId : oid;
  lc_videoWatchedPercent : option Z;
  lc_quizScore : Z;
  lc_quizPassed : bool
}.

Definition levelComplete (db : Db) (user : User) (req : LevelCompleteReq) (now : Z)
  : reply Progress * Db :=
  match Level_findById db (lc_levelId req) with
  | None => (Fail 404 "Level not found for this course", db)
  | Some level =>
      if negb (Nat.eqb (level_courseId level) (lc_courseId req))
      then (Fail 404 "Level not found for this course", db)
      else
        match checkCourseAccess db user (lc_courseId req) with
        | (None, _) => (Fail 404 "Course not found", db)
        | (Some _, false) => (Fail 403 "Course locked until payment is approved", db)
        | (Some _, true) =>
            let '(progress, db1) := ensureProgress db (user_id user) (lc_courseId req) now in
            (* Enforce sequential learning *)
            if levelNumber level >? or1 (currentLevel progress)
            then (Fail 403 "Please complete previous levels first", db1)
            else
              let videoPercent := Z.min 100 (default 0 (lc_videoWatchedPercent req)) in
              let isVideoComplete := videoPercent >=? 90 in
              let levelCompleted :=
                if quizEnabled level then lc_quizPassed req else isVideoComplete in
              let levelData :=
                {| lp_levelId := lc_levelId req;
                   completed := levelCompleted;
                   completedAt := if levelCompleted then Some now else None;
                   videoWatchedPercent := videoPercent;
                   quizScore := lc_quizScore req;
                   quizPassed := lc_quizPassed req;
                   quizAttempts :=
                     match existingEntry progress (lc_levelId req) with
                     | Some e => quizAttempts e
                     | None => 0
                     end |} in
              let p1 := putEntry progress (lc_levelId req) levelData in
              (* Unlock next level automatically if quiz not required *)
              let p2 :=
                if negb (quizEnabled level) && isVideoComplete
                then unlockNext p1 (levelNumber level) else p1 in
              let totalLevels := Level_countDocuments db1 (lc_courseId req) in
              let p3 := calculateProgress p2 totalLevels in
              let p4 := markCourseCompleted p3 totalLevels now in
              let p5 := with_lastAccessedAt p4 now in
              match Progress_save db1 (user_id user) (lc_courseId req) p5 with
              | Some db2 => (Reply 200 p5, db2)
              | None => (Fail 500 "Server error", db1)
              end
        end
  end.

(* --------------------------------------------------------------------- *)
(* 7. POST /quizzes/:id/submit                                           *)
(* --------------------------------------------------------------------- *)

(** One element of req.body.answers.  [ans_questionId] is
    item?.questionId?.toString?.(), [None] when that is falsy;
    [ans_selected] is Number(item?.selectedAnswer) when Number.isInteger
    accepts it, [None] otherwise. *)
Record AnswerItem := {
  ans_questionId : option oid;
  ans_selected : option Z
}.

(** The loop that fills answerMap; a later item for the same question
    replaces an earlier one, as Map.prototype.set does. *)
Definition buildAnswerMap (answers : list AnswerItem) : gmap oid Z :=
  fold_left
    (fun m item =>
       match ans_questionId item with
       | None => m
       | Some q => <[q := default (-1) (ans_selected item)]> m
       end)
    answers ∅.

(** selectedAnswer = Number.isInteger(mapped) && mapped >= 0 ? mapped : null *)
Definition selectedAnswerOf (answerMap : gmap oid Z) (q : Question) : option Z :=
  match answerMap !! question_id q with
  | Some a => if 0 <=? a then Some a else None
  | None => None
  end.

(** isCorrect = selectedAnswer !== null && selectedAnswer === question.correctAnswer *)
Definition isCorrect (answerMap : gmap oid Z) (q : Question) : bool :=
  match selectedAnswerOf answerMap q with
  | Some a => a =? correctAnswer q
  | None => false
  end.

Record QuestionResult := {
  qr_questionId : oid;
  qr_question : string;
  qr_options : list string;
  qr_selectedAnswer : option Z;
  qr_correctAnswer : Z;
  qr_isCorrect : bool;
  qr_explanation : string
}.

Definition gradeQuestion (answerMap : gmap oid Z) (q : Question) : QuestionResult :=
  {| qr_questionId := question_id q;
     qr_question := question_text q;
     qr_options := options q;
     qr_selectedAnswer := selectedAnswerOf answerMap q;
     qr_correctAnswer := correctAnswer q;
     qr_isCorrect := isCorrect answerMap q;
     qr_explanation := explanation q |}.

(** correctCount after the map over quiz.questions. *)
Definition correctCountOf (answerMap : gmap oid Z) (qs : list Question) : Z :=
  Z.of_nat (length (List.filter (isCorrect answerMap) qs)).

Record QuizOutcome := {
  qo_score : Z;
  qo_passed : bool;
  qo_passingScore : Z;
  qo_correctAnswers : Z;
  qo_totalQuestions : Z;
  qo_attemptsUsed : Z;
  qo_maxAttempts : Z;
  qo_canRetry : bool;
  qo_results : list QuestionResult;
  qo_progress : Progress
}.

(** The checks of the handler up to and including the access control; on
    success the quiz, its level and its course. *)
Definition quizSubmitGuards (db : Db) (user : User) (quizId : oid)
  : reply (Quiz * Level * Course) :=
  match quizzes db !! quizId with
  | None => Fail 404 "Quiz not found"
  | Some quiz =>
      if negb (is_active (quiz_state quiz)) && negb (is_admin (user_role user))
      then Fail 403 "Quiz is not active"
      else if (length (questions quiz) =? 0)%nat
      then Fail 400 "Quiz has no questions configured"
      else
        match Level_findById db (quiz_levelId quiz) with
        | None => Fail 404 "Level not found"
        | Some level =>
            match courses db !! quiz_courseId quiz with
            | None => Fail 404 "Course not found"
            | Some course =>
                if negb (is_admin (user_role user))
                   && negb (is_published (course_state course))
                then Fail 404 "Course not found"
                else
                  let isFree := course_price course =? 0 in
                  if negb (is_admin (user_role user)) && negb isFree
                     && negb (bool_decide (is_Some
                          (Payment_findOne_approved db (user_id user) (quiz_courseId quiz))))
                  then Fail 403 "Course locked until payment is approved"
                  else Reply 200 (quiz, level, course)
            end
        end
  end.

(** The part of the handler after the attempt check: grade, update the
    Progress document, save, answer. *)
Definition quizSubmitGrade (db1 : Db) (user : User) (quiz : Quiz) (level : Level)
    (progress : Progress) (answers : list AnswerItem) (now : Z)
  : reply QuizOutcome * Db :=
  let existing := existingEntry progress (level_id level) in
  let attemptsUsedBefore :=
    match existing with Some e => quizAttempts e | None => 0 end in
  let answerMap := buildAnswerMap answers in
  let results := List.map (gradeQuestion answerMap) (questions quiz) in
  let correctCount := correctCountOf answerMap (questions quiz) in
  let totalQuestions := Z.of_nat (length (questions quiz)) in
  let score := js_percent correctCount totalQuestions in
  let passed := score >=? passingScore quiz in
  let watchedEnough :=
    match existing with Some e => videoWatchedPercent e >=? 90 | None => false end in
  let completed' := passed && watchedEnough in
  let attemptsUsed := attemptsUsedBefore + 1 in
  let levelProgress :=
    {| lp_levelId := level_id level;
       completed := completed';
       completedAt :=
         if completed' then Some now
         else match existing with Some e => completedAt e | None => None end;
       videoWatchedPercent :=
         match existing with Some e => videoWatchedPercent e | None => 0 end;
       quizScore := score;
       quizPassed := passed;
       quizAttempts := attemptsUsed |} in
  let p1 := putEntry progress (level_id level) levelProgress in
  let p2 := if completed' then unlockNext p1 (levelNumber level) else p1 in
  let totalLevels := Level_countDocuments db1 (quiz_courseId quiz) in
  let p3 := calculateProgress p2 totalLevels in
  let p4 := markCourseCompleted p3 totalLevels now in
  match Progress_save db1 (user_id user) (quiz_courseId quiz) p4 with
  | None => (Fail 500 "Server error", db1)
  | Some db2 =>
      (Reply 200
         {| qo_score := score;
            qo_passed := passed;
            qo_passingScore := passingScore quiz;
            qo_correctAnswers := correctCount;
            qo_totalQuestions := totalQuestions;
            qo_attemptsUsed := attemptsUsed;
            qo_maxAttempts := maxAttempts quiz;
            qo_canRetry := negb passed && (attemptsUsed <? maxAttempts quiz);
            qo_results := results;
            qo_progress := p4 |},
       db2)
  end.

Definition quizSubmit (db : Db) (user : User) (quizId : oid)
    (answers : list AnswerItem) (now : Z) : reply QuizOutcome * Db :=
  match quizSubmitGuards db user quizId with
  | Fail code msg => (Fail code msg, db)
  | Reply _ (quiz, level, course) =>
      (* Update progress with quiz result *)
      let '(progress, db1) := ensureProgress db (user_id user) (quiz_courseId quiz) now in
      let attemptsUsedBefore :=
        match existingEntry progress (level_id level) with
        | Some e => quizAttempts e
        | None => 0
        end in
      if negb (is_admin (user_role user)) && (attemptsUsedBefore >=? maxAttempts quiz)
      then
        (* the body also repeats attemptsUsed and maxAttempts *)
        (Fail 400 "Maximum attempts reached for this quiz", db1)
      else quizSubmitGrade db1 user quiz level progress answers now
  end.


(* --------------------------------------------------------------------- *)
(* 8. String primitives of the runtime used by the handlers              *)
(* --------------------------------------------------------------------- *)

(** White space as String.prototype.trim and parseInt skip it (the ASCII
    part: TAB, LF, VT, FF, CR, SP). *)
Definition is_space (a : ascii) : bool :=
  let n := nat_of_ascii a in
  ((9 <=? n) && (n <=? 13))%nat || (n =? 32)%nat.

Fixpoint trimStart (s : string) : string :=
  match s with
  | String a s' => if is_space a then trimStart s' else s
  | EmptyString => EmptyString
  end.

Fixpoint string_rev_onto (s acc : string) : string :=
  match s with
  | String a s' => string_rev_onto s' (String a acc)
  | EmptyString => acc
  end.

Definition string_rev (s : string) : string := string_rev_onto s EmptyString.

(** String.prototype.trim *)
Definition trim (s : string) : string :=
  string_rev (trimStart (string_rev (trimStart s))).

Definition toLowerAscii (a : ascii) : ascii :=
  let n := nat_of_ascii a in
  if ((65 <=? n) && (n <=? 90))%nat then ascii_of_nat (n + 32) else a.

(** String.prototype.toLowerCase on ASCII text. *)
Fixpoint toLowerCase (s : string) : string :=
  match s with
  | String a s' => String (toLowerAscii a) (toLowerCase s')
  | EmptyString => EmptyString
  end.

(** [stripPrefix p s] is the rest of [s] after the prefix [p], if [s]
    starts with [p]. *)
Fixpoint stripPrefix (p s : string) : option string :=
  match p, s with
  | EmptyString, _ => Some s
  | String a p', String b s' => if Ascii.eqb a b then stripPrefix p' s' else None
  | String _ _, EmptyString => None
  end.

Definition startsWith (s p : string) : bool :=
  match stripPrefix p s with Some _ => true | None => false end.

Definition endsWith (s p : string) : bool :=
  startsWith (string_rev s) (string_rev p).

(** s.replace(/pat/, "") for a pattern without metacharacters: the first
    occurrence of [pat] is removed. *)
Fixpoint removeFirst (pat s : string) : string :=
  match stripPrefix pat s with
  | Some rest => rest
  | None =>
      match s with
      | String a s' => String a (removeFirst pat s')
      | EmptyString => EmptyString
      end
  end.

(** s.split(c) for a one-character separator. *)
Fixpoint split (c : ascii) (s : string) : list string :=
  match s with
  | EmptyString => [EmptyString]
  | String a s' =>
      if Ascii.eqb a c then EmptyString :: split c s'
      else
        match split c s' with
        | h :: t => String a h :: t
        | [] => [String a EmptyString]
        end
  end.

Definition is_digit (a : ascii) : bool :=
  let n := nat_of_ascii a in ((48 <=? n) && (n <=? 57))%nat.

Definition digit_value (a : ascii) : Z := Z.of_nat (nat_of_ascii a) - 48.

(** The value of the longest prefix of decimal digits, [acc] when there is
    none left. *)
Fixpoint digitsPrefix (s : string) (acc : option Z) : option Z :=
  match s with
  | String a s' =>
      if is_digit a
      then digitsPrefix s' (Some (10 * default 0 acc + digit_value a))
      else acc
  | EmptyString => acc
  end.

(** parseInt(s, 10); [None] is NaN.  The value is the integer the digits
    denote; JavaScript gives the nearest binary64 number, which is that
    integer up to 2^53. *)
Definition parseInt (s : string) : option Z :=
  match trimStart s with
  | String a r =>
      if Ascii.eqb a "-" then Z.opp <$> digitsPrefix r None
      else if Ascii.eqb a "+" then digitsPrefix r None
      else digitsPrefix (String a r) None
  | EmptyString => None
  end.

(** Every character of [s] satisfies [P]. *)
Fixpoint string_forallb (P : ascii → bool) (s : string) : bool :=
  match s with
  | String a s' => P a && string_forallb P s'
  | EmptyString => true
  end.

Definition notDash (a : ascii) : bool := negb (Ascii.eqb a "-").

(** A string in a boolean position. *)
Definition truthy (s : string) : bool :=
  match s with EmptyString => false | _ => true end.

(* --------------------------------------------------------------------- *)
(* 9. POST /payments                                                     *)
(* --------------------------------------------------------------------- *)

(** req.body.courseId after toString().trim(): missing or empty, rejected by
    mongoose.Types.ObjectId.isValid, or an ObjectId. *)
Inductive CourseIdField :=
| CourseIdMissing
| CourseIdInvalid
| CourseIdValid (id : oid).

(** req.body.amount: undefined or '', a value Number() does not turn into a
    finite number, or a number. *)
Inductive AmountField :=
| AmountOmitted
| AmountNotFinite
| AmountNumber (z : Z).

(** How persistUploadedFile ends: the local path is kept, the cloud upload
    returns a URL, or it throws. *)
Inductive Storage :=
| StoreLocal
| StoreCloud (url : string)
| StoreThrows.

Record PaymentReq := {
  pr_filename : option string;          (* getProofFile(req.files)?.filename *)
  pr_courseId : CourseIdField;
  pr_transactionId : option string;     (* req.body.transactionId *)
  pr_amount : AmountField;
  pr_storage : Storage
}.

Record PaymentSubmitted := {
  sub_payment : Payment;
  sub_message : option string
}.

Definition persistUploadedFile (st : Storage) (localPath : string) : option string :=
  match st with
  | StoreLocal => Some localPath
  | StoreCloud url => Some url
  | StoreThrows => None
  end.

(** The overwrite of a rejected record (routes/payments, resubmission). *)
Definition resubmit (existing : Payment) (txn : string) (amt : Z) (proof : string)
  : Payment :=
  {| payment_id := payment_id existing;
     transactionId := txn;
     amount := amt;
     proofImage := proof;
     payment_state := pending;
     rejectionReason := "";
     notes := "";
     verifiedBy := None;
     verifiedAt := None |}.

(** amount = req.body.amount !== undefined && req.body.amount !== ''
             ? Number(req.body.amount) : course.price,
    [None] when Number.isFinite(amount) is false. *)
Definition requestedAmount (a : AmountField) (price : Z) : option Z :=
  match a with
  | AmountOmitted => Some price
  | AmountNotFinite => None
  | AmountNumber z => Some z
  end.

Definition submitPayment (db : Db) (user : User) (req : PaymentReq)
  : reply PaymentSubmitted * Db :=
  match pr_filename req with
  | None => (Fail 400 "Proof of payment image is required", db)
  | Some filename =>
  match pr_courseId req with
  | CourseIdMissing => (Fail 400 "Course ID is required", db)
  | CourseIdInvalid => (Fail 400 "Invalid course ID", db)
  | CourseIdValid courseId =>
  let txn := trim (default "" (pr_transactionId req)) in
  if negb (truthy txn) then (Fail 400 "Transaction ID is required", db) else
  match courses db !! courseId with
  | None => (Fail 404 "Course not found", db)
  | Some course =>
  if negb (is_admin (user_role user)) && negb (is_published (course_state course))
  then (Fail 404 "Course not found", db)
  else if course_price course =? 0
  then (Fail 400 "This course is free. Payment is not required.", db)
  else
  match requestedAmount (pr_amount req) (course_price course) with
  | None => (Fail 400 "Invalid payment amount", db)
  | Some amt =>
  if amt <=? 0 then (Fail 400 "Invalid payment amount", db) else
  let existingPayment := Payment_findOne db (user_id user) courseId in
  if match existingPayment with
     | Some e => payment_status_eqb (payment_state e) approved
                 || payment_status_eqb (payment_state e) pending
     | None => false
     end
  then (Fail 400 "You have already submitted a payment for this course", db)
  else
  match persistUploadedFile (pr_storage req) ("/uploads/payment-proofs/" +:+ filename) with
  | None => (Fail 500 "Server error", db)
  | Some proof =>
      (* schema: proofImage is required *)
      if negb (truthy proof) then (Fail 400 "Payment proof is required", db) else
      match existingPayment with
      | Some e =>
          if payment_status_eqb (payment_state e) rejected then
            let e' := resubmit e txn amt proof in
            (Reply 200 {| sub_payment := e';
                          sub_message := Some "Payment proof resubmitted successfully" |},
             set_payments db (<[(user_id user, courseId) := e']> (payments db)))
          else
            (* Payment.create on an indexed pair: duplicate key, code 11000 *)
            (Fail 400 ("A payment record already exists for this course. " +:+
                       "Please wait for verification or contact admin."), db)
      | None =>
          let p := {| payment_id := nextId db;
                      transactionId := txn;
                      amount := amt;
                      proofImage := proof;
                      payment_state := pending;
                      rejectionReason := "";
                      notes := "";
                      verifiedBy := None;
                      verifiedAt := None |} in
          (Reply 201 {| sub_payment := p; sub_message := None |},
           bump_nextId (set_payments db (<[(user_id user, courseId) := p]> (payments db))))
      end
  end end end end end.

(* --------------------------------------------------------------------- *)
(* 10. GET /levels/:id/stream                                            *)
(* --------------------------------------------------------------------- *)

(** !level.videoPath || level.videoPath === 'pending' is false, which is
    also Boolean(obj.videoPath && obj.videoPath !== 'pending'). *)
Definition hasVideoRef (v : option string) : bool :=
  match v with
  | Some s => truthy s && negb (String.eqb s "pending")
  | None => false
  end.

(** isRemoteUrl (utils/mediaStorage): /^https?:\/\//i.test(value.trim()) *)
Definition isRemoteUrl (v : string) : bool :=
  let s := toLowerCase (trim v) in
  startsWith s "http://" || startsWith s "https://".

(** The checks of the handler before any byte is looked up: on success the
    level whose video is to be served.  The database after the checks has
    the learner's Progress document created when it was missing, and its
    lastAccessedAt set when the checks pass. *)
Definition streamAuthorize (db : Db) (user : User) (levelId : oid) (now : Z)
  : reply Level * Db :=
  match Level_findById db levelId with
  | None => (Fail 404 "Video not uploaded yet", db)
  | Some level =>
      if negb (hasVideoRef (videoPath level))
      then (Fail 404 "Video not uploaded yet", db)
      else
        match courses db !! level_courseId level with
        | None => (Fail 404 "Course not found", db)
        | Some course =>
            if negb (is_admin (user_role user))
               && negb (is_published (course_state course))
            then (Fail 404 "Course not found", db)
            else
              let approvedPayment :=
                Payment_findOne_approved db (user_id user) (level_courseId level) in
              let hasAccess :=
                is_admin (user_role user) || (course_price course =? 0)
                || bool_decide (is_Some approvedPayment) in
              if negb hasAccess
              then (Fail 403 "Course locked until payment is approved", db)
              else if is_admin (user_role user)
              then (Reply 200 level, db)
              else
                (* Ensure sequential access for students only. *)
                let '(progress, db1) :=
                  ensureProgress db (user_id user) (level_courseId level) now in
                if levelNumber level >? or1 (currentLevel progress)
                then (Fail 403 "You must complete previous levels first", db1)
                else
                  (* Update last access timestamp *)
                  let progress' := with_lastAccessedAt progress now in
                  (Reply 200 level,
                   set_progresses db1
                     (<[(user_id user, level_courseId level) := progress']> (progresses db1)))
        end
  end.

(** The learner's unlock frontier as the handlers read it: the Progress
    document is created with currentLevel 1 when it is missing, and the
    comparison is against (progress.currentLevel || 1). *)
Definition unlockFrontier (db : Db) (userId courseId : oid) : Z :=
  or1 (match Progress_findOne db userId courseId with
       | Some p => currentLevel p
       | None => 1
       end).

(** What the streaming handler sends. *)
Inductive StreamReply :=
| StreamFail (code : Z) (message : string)
| StreamRemote (url : string) (range : option string)
    (* handed over to normalizeExternalVideoUrl / proxyRemoteVideo *)
| RangeNotSatisfiable (contentRange : string)
    (* 416, Content-Range header, .end() without a body *)
| PartialContent (contentRange acceptRanges : string) (contentLength : Z)
    (contentType : string) (body : list Byte.byte)
    (* 206 *)
| FullContent (contentLength : Z) (contentType : string) (body : list Byte.byte).
    (* 200 *)

Definition stream_status (r : StreamReply) : option Z :=
  match r with
  | StreamFail c _ => Some c
  | StreamRemote _ _ => None
  | RangeNotSatisfiable _ => Some 416
  | PartialContent _ _ _ _ _ => Some 206
  | FullContent _ _ _ => Some 200
  end.

(** The extension of the last path component, lower-cased, as
    path.extname(p).toLowerCase() gives it. *)
Fixpoint lastComponent (s : string) (acc : string) : string :=
  match s with
  | String a s' =>
      if Ascii.eqb a "/" then lastComponent s' EmptyString
      else lastComponent s' (acc +:+ String a EmptyString)
  | EmptyString => acc
  end.

Fixpoint lastDotSuffix (s : string) (found : option string) : option string :=
  match s with
  | String a s' =>
      if Ascii.eqb a "." then lastDotSuffix s' (Some s) else lastDotSuffix s' found
  | EmptyString => found
  end.

Definition extname (p : string) : string :=
  match lastComponent p EmptyString with
  | String a rest => default "" (lastDotSuffix rest None)
  | EmptyString => ""
  end.

Definition contentTypeOf (p : string) : string :=
  let ext := toLowerCase (extname p) in
  if String.eqb ext ".webm" then "video/webm"
  else if String.eqb ext ".ogg" || String.eqb ext ".ogv" then "video/ogg"
  else if String.eqb ext ".mov" then "video/quicktime"
  else "video/mp4".

(** fs.createReadStream(path, { start, end }) on a file with the given
    bytes: the constructor throws ([None]) when an option is not an integer
    or start > end; the stream then yields the bytes from [start] through
    [end] inclusive, stopping at the end of the file.  Node also refuses an
    offset above Number.MAX_SAFE_INTEGER; that bound is not part of the
    definition, which describes Node for offsets up to 2^53 - 1. *)
Definition createReadStream (file : list Byte.byte) (start : Z) (end_ : option Z)
  : option (list Byte.byte) :=
  match end_ with
  | None => None
  | Some e =>
      if (start <? 0) || (e <? 0) || (e <? start) then None
      else Some (take (Z.to_nat (e - start + 1)) (drop (Z.to_nat start) file))
  end.

(** parts = range.replace(/bytes=/, "").split("-");
    start = parseInt(parts[0], 10);
    end = parts[1] ? parseInt(parts[1], 10) : fileSize - 1 *)
Definition rangeParts (range : string) : list string :=
  split "-" (removeFirst "bytes=" range).

Definition rangeStart (range : string) : option Z :=
  match rangeParts range with
  | p0 :: _ => parseInt p0
  | [] => None
  end.

Definition rangeEnd (range : string) (fileSize : Z) : option Z :=
  match rangeParts range with
  | _ :: p1 :: _ => if truthy p1 then parseInt p1 else Some (fileSize - 1)
  | _ => Some (fileSize - 1)
  end.

(** The branch [if (range) { ... }] of the handler for a local file. *)
Definition serveRange (file : list Byte.byte) (contentType range : string)
  : StreamReply :=
  let fileSize := Z.of_nat (length file) in
  let start := rangeStart range in
  let end_ := rangeEnd range fileSize in
  match start with
  | None => RangeNotSatisfiable ("bytes */" +:+ pretty fileSize)
  | Some s =>
      if s >=? fileSize then RangeNotSatisfiable ("bytes */" +:+ pretty fileSize)
      else
        match createReadStream file s end_, end_ with
        | Some body, Some e =>
            PartialContent
              ("bytes " +:+ pretty s +:+ "-" +:+ pretty e +:+ "/" +:+ pretty fileSize)
              "bytes" (e - s + 1) contentType body
        | _, _ => StreamFail 500 "Server error"
        end
  end.

(** The local branch: the stored path without its leading '/', looked up
    under the application root. *)
Definition serveLocal (files : gmap string (list Byte.byte)) (path : string)
    (range : option string) : StreamReply :=
  let normalizedPath := default path (stripPrefix "/" path) in
  match files !! normalizedPath with
  | None => StreamFail 404 "Video file missing on server"
  | Some file =>
      let contentType := contentTypeOf normalizedPath in
      match range with
      | Some r =>
          if truthy r then serveRange file contentType r
          else FullContent (Z.of_nat (length file)) contentType file
      | None => FullContent (Z.of_nat (length file)) contentType file
      end
  end.

Definition streamLevel (db : Db) (files : gmap string (list Byte.byte))
    (user : User) (levelId : oid) (range : option string) (now : Z)
  : StreamReply * Db :=
  match streamAuthorize db user levelId now with
  | (Fail code msg, db1) => (StreamFail code msg, db1)
  | (Reply _ level, db1) =>
      let path := default "" (videoPath level) in
      if isRemoteUrl path then (StreamRemote path range, db1)
      else (serveLocal files path range, db1)
  end.

(* --------------------------------------------------------------------- *)
(* 11. Level metadata: GET /levels/course/:courseId and GET /levels/:id  *)
(* --------------------------------------------------------------------- *)

(** Values of a JSON object. *)
Inductive jsval :=
| JNull
| JBool (b : bool)
| JNum (z : Z)
| JStr (s : string)
| JOid (o : oid).

Definition active_status_name (s : active_status) : string :=
  match s with active => "active" | inactive => "inactive" end.

(** level.toObject(): the document as a plain object, a map from property
    names to values (the two timestamps are left out). *)
Definition Level_toObject (l : Level) : gmap string jsval :=
  list_to_map
    [ ("_id", JOid (level_id l));
      ("courseId", JOid (level_courseId l));
      ("levelNumber", JNum (levelNumber l));
      ("title", JStr (level_title l));
      ("description", JStr (level_description l));
      ("videoPath", match videoPath l with Some s => JStr s | None => JNull end);
      ("videoDuration", JNum (videoDuration l));
      ("quizId", match quizId l with Some q => JOid q | None => JNull end);
      ("quizEnabled", JBool (quizEnabled l));
      ("order", JNum (level_order l));
      ("status", JStr (active_status_name (level_state l))) ].

(** Two Level documents that agree on every stored field except the
    video reference, and whose references give the same hasVideo. *)
Definition sameExceptVideo (l1 l2 : Level) : Prop :=
  level_id l1 = level_id l2
  ∧ level_courseId l1 = level_courseId l2
  ∧ levelNumber l1 = levelNumber l2
  ∧ level_title l1 = level_title l2
  ∧ level_description l1 = level_description l2
  ∧ videoDuration l1 = videoDuration l2
  ∧ quizId l1 = quizId l2
  ∧ quizEnabled l1 = quizEnabled l2
  ∧ level_order l1 = level_order l2
  ∧ level_state l1 = level_state l2
  ∧ hasVideoRef (videoPath l1) = hasVideoRef (videoPath l2).

(** obj after
      const hasVideo = Boolean(obj.videoPath && obj.videoPath !== 'pending');
      if (req.userRole !== 'admin') delete obj.videoPath;
    and { ...obj, hasVideo }. *)
Definition levelView (r : role) (l : Level) : gmap string jsval :=
  let obj := Level_toObject l in
  let hasVideo := hasVideoRef (videoPath l) in
  let obj' := if is_admin r then obj else delete "videoPath" obj in
  <["hasVideo" := JBool hasVideo]> obj'.

(** { ...obj, hasVideo, locked: l.levelNumber > unlockedLevelNumber } *)
Definition levelViewWithLock (r : role) (unlockedLevelNumber : Z) (l : Level)
  : gmap string jsval :=
  <["locked" := JBool (levelNumber l >? unlockedLevelNumber)]> (levelView r l).

(** .sort({ levelNumber: 1 }) *)
Fixpoint insertByNumber (l : Level) (ls : list Level) : list Level :=
  match ls with
  | [] => [l]
  | x :: ls' =>
      if levelNumber l <? levelNumber x then l :: ls
      else x :: insertByNumber l ls'
  end.

Fixpoint sortByNumber (ls : list Level) : list Level :=
  match ls with
  | [] => []
  | x :: ls' => insertByNumber x (sortByNumber ls')
  end.

(** Level.find({ courseId }).sort({ levelNumber: 1 }) *)
Definition Level_find_sorted (db : Db) (courseId : oid) : list Level :=
  sortByNumber (List.filter (fun l => Nat.eqb (level_courseId l) courseId) (levels db)).

Definition MAX_SAFE_INTEGER : Z := 2 ^ 53 - 1.

Record LevelList := {
  ll_levels : list (gmap string jsval);
  ll_unlockedLevelNumber : Z;
  ll_hasAccess : bool
}.

(** GET /levels/course/:courseId.  [ll_hasAccess] is the truth value of the
    hasAccess expression. *)
Definition getCourseLevels (db : Db) (user : User) (courseId : oid) : reply LevelList :=
  match courses db !! courseId with
  | None => Fail 404 "Course not found"
  | Some course =>
      if negb (is_admin (user_role user)) && negb (is_published (course_state course))
      then Fail 404 "Course not found"
      else
        let levels' := Level_find_sorted db courseId in
        let payment := Payment_findOne db (user_id user) courseId in
        let progress := Progress_findOne db (user_id user) courseId in
        let isFree := course_price course =? 0 in
        let hasAccess :=
          is_admin (user_role user) || isFree ||
          match payment with
          | Some p => payment_status_eqb (payment_state p) approved
          | None => false
          end in
        let unlockedLevelNumber :=
          if is_admin (user_role user) then MAX_SAFE_INTEGER
          else if hasAccess
               then or1 (match progress with Some p => currentLevel p | None => 0 end)
               else 0 in
        Reply 200
          {| ll_levels :=
               List.map (levelViewWithLock (user_role user) unlockedLevelNumber) levels';
             ll_unlockedLevelNumber := unlockedLevelNumber;
             ll_hasAccess := hasAccess |}
  end.

(** GET /levels/:id *)
Definition getLevel (db : Db) (user : User) (levelId : oid)
  : reply (gmap string jsval) :=
  match Level_findById db levelId with
  | None => Fail 404 "Level not found"
  | Some level =>
      if negb (is_admin (user_role user))
         && negb (match courses db !! level_courseId level with
                  | Some course => is_published (course_state course)
                  | None => false
                  end)
      then Fail 404 "Level not found"
      else Reply 200 (levelView (user_role user) level)
  end.

(* --------------------------------------------------------------------- *)
(* 12. Sample data                                                       *)
(* --------------------------------------------------------------------- *)

Definition anAdmin : User := {| user_id := 1%nat; user_role := admin |}.
Definition aStudent : User := {| user_id := 2%nat; user_role := student |}.

Definition paidCourse : Course := {| course_price := 500; course_state := published |}.
Definition freeCourse : Course := {| course_price := 0; course_state := published |}.

(** One published paid course (id 10), no payment, no progress. *)
Definition paidOnlyDb : Db :=
  {| courses := {[ 10%nat := paidCourse ]}; levels := []; payments := ∅;
     progresses := ∅; quizzes := ∅; nextId := 100%nat |}.

Definition mkLevel (id courseId : oid) (n : Z) (quiz : bool) (video : option string)
  : Level :=
  {| level_id := id; level_courseId := courseId; levelNumber := n;
     level_title := "Level"; level_description := ""; videoPath := video;
     videoDuration := 0; quizId := None; quizEnabled := quiz; level_order := 0;
     level_state := active |}.

Definition freshProgress : Progress :=
  {| progress_id := 90%nat; completedLevels := []; currentLevel := 1;
     totalProgress := 0; courseCompleted := false; courseCompletedAt := None;
     lastAccessedAt := 0 |}.

(** A free published course (id 20) with three levels; level 3 (id 33) has a
    one-question quiz (id 50); the student is at currentLevel 1. *)
Definition oneQuestion : Question :=
  {| question_id := 71%nat; question_text := "2 + 2 ?"; options := ["4"; "5"];
     correctAnswer := 0; explanation := "" |}.

Definition quizOnLevel3 : Quiz :=
  {| quiz_id := 50%nat; quiz_levelId := 33%nat; quiz_courseId := 20%nat;
     questions := [oneQuestion]; passingScore := 70; maxAttempts := 3;
     quiz_state := active |}.

Definition seqDb : Db :=
  {| courses := {[ 20%nat := freeCourse ]};
     levels := [ mkLevel 31%nat 20%nat 1 false (Some "/uploads/videos/one.mp4");
                 mkLevel 32%nat 20%nat 2 false (Some "/uploads/videos/two.mp4");
                 mkLevel 33%nat 20%nat 3 true (Some "/uploads/videos/three.mp4") ];
     payments := ∅;
     progresses := {[ (2%nat, 20%nat) := freshProgress ]};
     quizzes := {[ 50%nat := quizOnLevel3 ]};
     nextId := 100%nat |}.

Definition level3Req : LevelCompleteReq :=
  {| lc_courseId := 20%nat; lc_levelId := 33%nat; lc_videoWatchedPercent := Some 100;
     lc_quizScore := 0; lc_quizPassed := false |}.

Definition rightAnswer : list AnswerItem :=
  [ {| ans_questionId := Some 71%nat; ans_selected := Some 0 |} ].

(** A free published course (id 20) whose only level (id 41) has a quiz of
    forty questions (ids 1..40, option 0 correct) with passing score 58; the
    student has watched 95% of the video.  The answers pick option 0 for
    questions 1..23 and option 1 for the others. *)
Definition fortyQuestions : list Question :=
  List.map
    (fun i => {| question_id := i; question_text := ""; options := ["a"; "b"];
                 correctAnswer := 0; explanation := "" |})
    (seq 1 40).

Definition fortyQuiz : Quiz :=
  {| quiz_id := 60%nat; quiz_levelId := 41%nat; quiz_courseId := 20%nat;
     questions := fortyQuestions; passingScore := 58; maxAttempts := 3;
     quiz_state := active |}.

Definition watchedProgress : Progress :=
  {| progress_id := 91%nat;
     completedLevels :=
       [ {| lp_levelId := 41%nat; completed := false; completedAt := None;
            quizScore := 0; quizPassed := false; quizAttempts := 0;
            videoWatchedPercent := 95 |} ];
     currentLevel := 1; totalProgress := 0; courseCompleted := false;
     courseCompletedAt := None; lastAccessedAt := 0 |}.

Definition fortyDb : Db :=
  {| courses := {[ 20%nat := freeCourse ]};
     levels := [ mkLevel 41%nat 20%nat 1 true (Some "/uploads/videos/one.mp4") ];
     payments := ∅;
     progresses := {[ (2%nat, 20%nat) := watchedProgress ]};
     quizzes := {[ 60%nat := fortyQuiz ]};
     nextId := 100%nat |}.

Definition answers23 : list AnswerItem :=
  List.map
    (fun i => {| ans_questionId := Some i;
                 ans_selected := Some (if (i <=? 23)%nat then 0 else 1) |})
    (seq 1 40).

(** A free published course (id 20) with a single level (id 31, no quiz)
    that the student completed at time 1000. *)
Definition doneProgress : Progress :=
  {| progress_id := 92%nat;
     completedLevels :=
       [ {| lp_levelId := 31%nat; completed := true; completedAt := Some 1000;
            quizScore := 0; quizPassed := false; quizAttempts := 0;
            videoWatchedPercent := 100 |} ];
     currentLevel := 2; totalProgress := 100; courseCompleted := true;
     courseCompletedAt := Some 1000; lastAccessedAt := 1000 |}.

Definition doneDb : Db :=
  {| courses := {[ 20%nat := freeCourse ]};
     levels := [ mkLevel 31%nat 20%nat 1 false (Some "/uploads/videos/one.mp4") ];
     payments := ∅;
     progresses := {[ (2%nat, 20%nat) := doneProgress ]};
     quizzes := ∅;
     nextId := 100%nat |}.

Definition level1Req : LevelCompleteReq :=
  {| lc_courseId := 20%nat; lc_levelId := 31%nat; lc_videoWatchedPercent := Some 100;
     lc_quizScore := 0; lc_quizPassed := false |}.

(** The student's payment for course 10 was rejected by administrator 1. *)
Definition rejectedPayment : Payment :=
  {| payment_id := 80%nat; transactionId := "TXN-1"; proofImage := "/uploads/payment-proofs/old.png";
     amount := 400; payment_state := rejected; verifiedBy := Some 1%nat;
     verifiedAt := Some 900; rejectionReason := "Amount mismatch"; notes := "see receipt" |}.

Definition rejectedDb : Db :=
  {| courses := {[ 10%nat := paidCourse ]}; levels := [];
     payments := {[ (2%nat, 10%nat) := rejectedPayment ]};
     progresses := ∅; quizzes := ∅; nextId := 100%nat |}.

Definition paymentReq : PaymentReq :=
  {| pr_filename := Some "new.png"; pr_courseId := CourseIdValid 10%nat;
     pr_transactionId := Some " TXN-2 "; pr_amount := AmountNumber 500;
     pr_storage := StoreLocal |}.

(** Local video files: one of 1000 bytes and one of 100 bytes. *)
Definition file1000 : list Byte.byte :=
  List.map (fun i => if Nat.even i then Byte.x00 else Byte.xff) (seq 0 1000).

Definition file100 : list Byte.byte := repeat Byte.x2a 100.

(** [seqDb] with other video references behind the same levels: a local
    file, a Drive link and a Cloudinary link. *)
Definition seqDbOtherVideos : Db :=
  {| courses := courses seqDb;
     levels := [ mkLevel 31%nat 20%nat 1 false (Some "/uploads/videos/other.webm");
                 mkLevel 32%nat 20%nat 2 false
                   (Some "https://drive.google.com/uc?export=download&id=abcdefghijklmnopqrstuvwxyz");
                 mkLevel 33%nat 20%nat 3 true
                   (Some "https://res.cloudinary.com/demo/video/upload/three.mp4") ];
     payments := payments seqDb;
     progresses := progresses seqDb;
     quizzes := quizzes seqDb;
     nextId := nextId seqDb |}.

(* --------------------------------------------------------------------- *)
(* 13. PUT /payments/:id/status (and its alias POST /payments/:id/verify) *)
(* --------------------------------------------------------------------- *)

(** Payment.findById: the document with the given _id, with the pair it is
    stored under (its userId and courseId). *)
Definition Payment_findById (db : Db) (id : oid) : option ((oid * oid) * Payment) :=
  List.find (fun kp => Nat.eqb (payment_id (snd kp)) id) (map_to_list (payments db)).

(** ['approved', 'rejected', 'pending'].includes(status) *)
Definition parseStatus (s : string) : option payment_status :=
  if String.eqb s "approved" then Some approved
  else if String.eqb s "rejected" then Some rejected
  else if String.eqb s "pending" then Some pending
  else None.

(** req.body of the status update. *)
Record StatusReq := {
  sr_status : string;
  sr_rejectionReason : option string;
  sr_notes : option string
}.

(** The assignments of updatePaymentStatus to the payment document. *)
Definition applyStatus (payment : Payment) (st : payment_status) (verifier : oid)
    (req : StatusReq) (now : Z) : Payment :=
  {| payment_id := payment_id payment;
     transactionId := transactionId payment;
     proofImage := proofImage payment;
     amount := amount payment;
     payment_state := st;
     verifiedBy := Some verifier;
     verifiedAt := Some now;
     notes := default "" (sr_notes req);
     rejectionReason :=
       match st with
       | rejected => default "" (sr_rejectionReason req)
       | _ => rejectionReason payment
       end |}.

(** The schema validators on the two strings the handler writes (maxlength
    500). *)
Definition statusFields_valid (p : Payment) : bool :=
  (String.length (rejectionReason p) <=? 500)%nat
  && (String.length (notes p) <=? 500)%nat.

(** updatePaymentStatus behind authenticate and requireAdmin. *)
Definition updatePaymentStatus (db : Db) (user : User) (paymentId : oid)
    (req : StatusReq) (now : Z) : reply Payment * Db :=
  if negb (is_admin (user_role user))
  then (Fail 403 "Access denied. Admin privileges required.", db)
  else
    match parseStatus (sr_status req) with
    | None => (Fail 400 "Invalid status", db)
    | Some st =>
        match Payment_findById db paymentId with
        | None => (Fail 404 "Payment not found", db)
        | Some ((userId, courseId), payment) =>
            let payment' := applyStatus payment st (user_id user) req now in
            let db1 :=
              match st with
              | approved => snd (ensureProgress db userId courseId now)
              | _ => db
              end in
            if statusFields_valid payment'
            then (Reply 200 payment',
                  set_payments db1 (<[(userId, courseId) := payment']> (payments db1)))
            else (Fail 500 "Server error", db1)
        end
    end.

(* --------------------------------------------------------------------- *)
(* 14. GET /progress/course/:courseId and .../next-level                 *)
(* --------------------------------------------------------------------- *)

(** GET /progress/course/:courseId *)
Definition getCourseProgress (db : Db) (user : User) (courseId : oid) (now : Z)
  : reply Progress * Db :=
  match checkCourseAccess db user courseId with
  | (None, _) => (Fail 404 "Course not found", db)
  | (Some _, false) => (Fail 403 "Course locked until payment is approved", db)
  | (Some _, true) =>
      let '(progress, db1) := ensureProgress db (user_id user) courseId now in
      (Reply 200 progress, db1)
  end.

(** Level.findOne({ courseId, levelNumber }) *)
Definition Level_findOne_number (db : Db) (courseId : oid) (n : Z) : option Level :=
  List.find (fun l => Nat.eqb (level_courseId l) courseId && (levelNumber l =? n))
            (levels db).

(** GET /progress/course/:courseId/next-level *)
Definition getNextLevel (db : Db) (user : User) (courseId : oid) (now : Z)
  : reply Level * Db :=
  match checkCourseAccess db user courseId with
  | (None, _) => (Fail 404 "Course not found", db)
  | (Some _, false) => (Fail 403 "Course locked until payment is approved", db)
  | (Some _, true) =>
      let '(progress, db1) := ensureProgress db (user_id user) courseId now in
      let nextLevelNumber := or1 (currentLevel progress) in
      match Level_findOne_number db1 courseId nextLevelNumber with
      | None => (Fail 404 "No next level found", db1)
      | Some nextLevel => (Reply 200 nextLevel, db1)
      end
  end.

(* --------------------------------------------------------------------- *)
(* 15. External video hosts (routes/levels) and stored paths             *)
(* --------------------------------------------------------------------- *)

(** EXTRA_ALLOWED_VIDEO_HOSTS from the text of ALLOWED_EXTERNAL_VIDEO_HOSTS:
    split(',').map(item => item.trim().toLowerCase()).filter(Boolean) *)
Definition extraAllowedHosts (env : string) : list string :=
  List.filter truthy (List.map (fun item => toLowerCase (trim item)) (split "," env)).

Definition builtinVideoHosts : list string :=
  [ "drive.google.com"; "docs.google.com"; "drive.usercontent.google.com";
    "res.cloudinary.com" ].

(** allowedHost.slice(1) *)
Definition slice1 (s : string) : string :=
  match s with String _ r => r | EmptyString => EmptyString end.

(** The callback of EXTRA_ALLOWED_VIDEO_HOSTS.some(...). *)
Definition matchesExtraHost (host allowedHost : string) : bool :=
  if negb (truthy allowedHost) then false
  else if startsWith allowedHost "*." then endsWith host (slice1 allowedHost)
  else if startsWith allowedHost "." then endsWith host allowedHost
  else String.eqb host allowedHost.

(** isAllowedExternalVideoHost; [extra] is EXTRA_ALLOWED_VIDEO_HOSTS, and
    ALLOWED_EXTERNAL_VIDEO_HOSTS is the built-in names followed by it. *)
Definition isAllowedExternalVideoHost (extra : list string) (hostname : string) : bool :=
  let host := toLowerCase hostname in
  if negb (truthy host) then false
  else if endsWith host ".googleusercontent.com" then true
  else if existsb (String.eqb host) (builtinVideoHosts ++ extra) then true
  else existsb (matchesExtraHost host) extra.

(** isLocalUploadPath (utils/mediaStorage): value.trim().startsWith('/uploads/') *)
Definition isLocalUploadPath (v : string) : bool := startsWith (trim v) "/uploads/".

(* --------------------------------------------------------------------- *)
(* 16. Relations between two states of the database                     *)
(* --------------------------------------------------------------------- *)

(** The database without the Course document [courseId]. *)
Definition without_course (db : Db) (courseId : oid) : Db :=
  {| courses := delete courseId (courses db); levels := levels db;
     payments := payments db; progresses := progresses db;
     quizzes := quizzes db; nextId := nextId db |}.

(** No stored Progress document has lost ground from [db] to [db']: it is
    still there, its currentLevel has not decreased and a set
    courseCompleted flag is still set. *)
Definition progress_kept (db db' : Db) : Prop :=
  ∀ k p, progresses db !! k = Some p →
    ∃ p', progresses db' !! k = Some p'
          ∧ currentLevel p ≤ currentLevel p'
          ∧ (courseCompleted p = true → courseCompleted p' = true).

(** Everything but the Progress collection and the id counter is the same. *)
Definition only_progress_changed (db db' : Db) : Prop :=
  courses db' = courses db ∧ levels db' = levels db
  ∧ payments db' = payments db ∧ quizzes db' = quizzes db.

(* --------------------------------------------------------------------- *)
(* 17. Grading, read from the request                                    *)
(* --------------------------------------------------------------------- *)

(** The last item of req.body.answers that names question [q]. *)
Definition lastAnswerFor (q : oid) (answers : list AnswerItem) : option AnswerItem :=
  List.find
    (fun item => match ans_questionId item with
                 | Some q' => Nat.eqb q' q
                 | None => false
                 end)
    (rev answers).

(** The last item naming the question selects a non-negative integer equal
    to the stored correct option. *)
Definition answeredCorrectly (answers : list AnswerItem) (q : Question) : bool :=
  match lastAnswerFor (question_id q) answers with
  | Some item =>
      match ans_selected item with
      | Some a => (0 <=? a) && (a =? correctAnswer q)
      | None => false
      end
  | None => false
  end.

(** [seqDb] with a second course (id 30), free and still a draft, that has
    one level (id 35) with a video. *)
Definition draftDb : Db :=
  {| courses := <[30%nat := {| course_price := 0; course_state := draft |}]> (courses seqDb);
     levels := levels seqDb ++ [ mkLevel 35%nat 30%nat 1 false (Some "/uploads/videos/draft.mp4") ];
     payments := payments seqDb;
     progresses := progresses seqDb;
     quizzes := quizzes seqDb;
     nextId := nextId seqDb |}.

(* --------------------------------------------------------------------- *)
(* 18. GET /quizzes/level/:levelId                                       *)
(* --------------------------------------------------------------------- *)

(** The fields of a Quiz document that grading does not read; description
    has no default and may be absent. *)
Record QuizText := {
  quiz_title : string;
  quiz_description : option string;
  timeLimit : Z
}.

Record StudentQuestion := {
  sq_id : oid;
  sq_question : string;
  sq_options : list string
}.

Record StudentQuizView := {
  sv_id : oid;
  sv_levelId : oid;
  sv_courseId : oid;
  sv_title : string;
  sv_description : option string;
  sv_passingScore : Z;
  sv_timeLimit : Z;
  sv_maxAttempts : Z;
  sv_status : active_status;
  sv_questions : list StudentQuestion
}.

(** buildStudentQuizView (routes/quizzes) *)
Definition buildStudentQuizView (quiz : Quiz) (text : QuizText) : StudentQuizView :=
  {| sv_id := quiz_id quiz;
     sv_levelId := quiz_levelId quiz;
     sv_courseId := quiz_courseId quiz;
     sv_title := quiz_title text;
     sv_description := quiz_description text;
     sv_passingScore := passingScore quiz;
     sv_timeLimit := timeLimit text;
     sv_maxAttempts := maxAttempts quiz;
     sv_status := quiz_state quiz;
     sv_questions :=
       List.map (fun question =>
                   {| sq_id := question_id question;
                      sq_question := question_text question;
                      sq_options := options question |})
                (questions quiz) |}.

(** The body of the answer: { quiz: null }, { quiz } with the stored
    document, or { quiz: buildStudentQuizView(quiz) }. *)
Inductive QuizBody :=
| QuizNull
| QuizDocument (quiz : Quiz) (text : QuizText)
| QuizForStudent (view : StudentQuizView).

(** Quiz.findOne({ levelId }): the first match in the order of the
    collection. *)
Definition Quiz_findOne_levelId (db : Db) (levelId : oid) : option Quiz :=
  snd <$> List.find (fun kq => Nat.eqb (quiz_levelId (snd kq)) levelId)
                    (map_to_list (quizzes db)).

(** GET /quizzes/level/:levelId; [texts] gives the title, description and
    time limit of the Quiz document with a given _id. *)
Definition getQuizForLevel (db : Db) (texts : oid → QuizText) (user : User)
    (levelId : oid) : reply QuizBody :=
  match Quiz_findOne_levelId db levelId with
  | None =>
      if is_admin (user_role user) then Reply 200 QuizNull
      else Fail 404 "Quiz not found"
  | Some quiz =>
      if negb (is_admin (user_role user)) && negb (is_active (quiz_state quiz))
      then Fail 404 "Quiz not found"
      else if is_admin (user_role user)
      then Reply 200 (QuizDocument quiz (texts (quiz_id quiz)))
      else
        (* Student access control: only for published courses with access. *)
        match courses db !! quiz_courseId quiz with
        | None => Fail 404 "Quiz not found"
        | Some course =>
            if negb (is_published (course_state course))
            then Fail 404 "Quiz not found"
            else if negb (course_price course =? 0)
                    && negb (bool_decide
                               (is_Some (Payment_findOne_approved db (user_id user)
                                           (quiz_courseId quiz))))
            then Fail 403 "Course locked until payment is approved"
            else Reply 200 (QuizForStudent (buildStudentQuizView quiz (texts (quiz_id quiz))))
        end
  end.

Definition set_quizzes (db : Db) (qs : gmap oid Quiz) : Db :=
  {| courses := courses db; levels := levels db; payments := payments db;
     progresses := progresses db; quizzes := qs; nextId := nextId db |}.

(** The quiz with the correct option and the explanation of every question
    replaced by what [g] gives for it. *)
Definition overwriteAnswers (g : Question → Z * string) (quiz : Quiz) : Quiz :=
  {| quiz_id := quiz_id quiz;
     quiz_levelId := quiz_levelId quiz;
     quiz_courseId := quiz_courseId quiz;
     questions :=
       List.map (fun q => {| question_id := question_id q;
                             question_text := question_text q;
                             options := options q;
                             correctAnswer := fst (g q);
                             explanation := snd (g q) |})
                (questions quiz);
     passingScore := passingScore quiz;
     maxAttempts := maxAttempts quiz;
     quiz_state := quiz_state quiz |}.

Definition plainText : oid → QuizText :=
  fun _ => {| quiz_title := "Quiz"; quiz_description := None; timeLimit := 0 |}.

(* --------------------------------------------------------------------- *)
(* 19. Sample data for the attempt limit                                 *)
(* --------------------------------------------------------------------- *)






(* ===================================================================== *)
(* Theorems                                                              *)
(* ===================================================================== *)

(* --------------------------------------------------------------------- *)
(* Entitlement (C1, C10)                                                 *)
(* --------------------------------------------------------------------- *)

Lemma payment_status_eqb_eq a b : payment_status_eqb a b = true ↔ a = b.
Proof. destruct a, b; simpl; split; congruence. Qed.

Lemma findOne_approved_is_Some db u c :
  is_Some (Payment_findOne_approved db u c)
  ↔ ∃ p, Payment_findOne db u c = Some p ∧ payment_state p = approved.
Proof.
  unfold Payment_findOne_approved, Payment_findOne.
  destruct (payments db !! (u, c)) as [p|] eqn:E.
  - destruct (payment_status_eqb (payment_state p) approved) eqn:S.
    + apply payment_status_eqb_eq in S. split; [eauto | intros _; eauto].
    + split; [intros [? ?]; discriminate |].
      intros (q & [= <-] & Hq). rewrite Hq in S. discriminate.
  - split; [intros [? ?]; discriminate | intros (q & ? & _); discriminate].
Qed.

Lemma is_admin_true r : is_admin r = true ↔ r = admin.
Proof. destruct r; simpl; split; congruence. Qed.

(** For a course the caller may see (published, or the caller is an
    administrator), the decision of checkCourseAccess is the rule of the
    specification. *)
Lemma checkCourseAccess_visible db user courseId course :
  courses db !! courseId = Some course →
  user_role user = admin ∨ course_state course = published →
  ∃ b, checkCourseAccess db user courseId = (Some course, b)
       ∧ (b = true ↔ entitled db user courseId course).
Proof.
  intros Hc Hvis. unfold checkCourseAccess. rewrite Hc.
  assert (negb (is_admin (user_role user)) && negb (is_published (course_state course))
          = false) as ->.
  { destruct Hvis as [-> | ->]; simpl; [done | by rewrite andb_false_r]. }
  unfold entitled.
  destruct (user_role user) eqn:R; simpl.
  - eexists; split; [reflexivity |]. split; [by left | done].
  - destruct (Z.eqb_spec (course_price course) 0) as [P|P]; simpl.
    + eexists; split; [reflexivity |]. split; [right; by left | done].
    + eexists; split; [reflexivity |].
      rewrite bool_decide_eq_true, findOne_approved_is_Some.
      split; [intros H; right; by right | intros [?|[?|?]]; done].
Qed.

(** For a learner (not an administrator) the hasAccess field of the status
    endpoint is the rule of the specification. *)
Lemma getCourseStatus_student_hasAccess db user courseId course :
  courses db !! courseId = Some course →
  user_role user = student →
  course_state course = published →
  ∃ body, getCourseStatus db user courseId = Reply 200 body
          ∧ (cs_hasAccess body = true ↔ entitled db user courseId course).
Proof.
  intros Hc R Hpub. unfold getCourseStatus. rewrite Hc, R, Hpub. simpl.
  eexists. split; [reflexivity |]. simpl. unfold entitled. rewrite R.
  destruct (Z.eqb_spec (course_price course) 0) as [P|P]; simpl.
  - split; [right; by left | done].
  - destruct (Payment_findOne db (user_id user) courseId) as [p|] eqn:E.
    + rewrite payment_status_eqb_eq. split; [intros H; right; right; eauto |].
      intros [?|[?|(q & [= <-] & Hq)]]; done.
    + split; [done | intros [?|[?|(q & ? & _)]]; done].
Qed.

(** C1 (the code departs from the claim).  An administrator asks
    GET /payments/course/:courseId/status for a published course that costs
    500 and for which no payment exists.  The rule of the specification
    grants access, and checkCourseAccess does, but the handler answers
    hasAccess = false: its expression
    [isFree || payment?.status === 'approved' || false] has no clause for
    the role, which the sibling GET /levels/course/:courseId has. *)
Theorem C1_status_endpoint_ignores_admin_role :
  entitled paidOnlyDb anAdmin 10%nat paidCourse
  ∧ checkCourseAccess paidOnlyDb anAdmin 10%nat = (Some paidCourse, true)
  ∧ getCourseLevels paidOnlyDb anAdmin 10%nat
    = Reply 200 {| ll_levels := []; ll_unlockedLevelNumber := MAX_SAFE_INTEGER;
                   ll_hasAccess := true |}
  ∧ getCourseStatus paidOnlyDb anAdmin 10%nat
    = Reply 200 {| cs_status := "unpaid"; cs_hasAccess := false;
                   cs_progress := 0; cs_currentLevel := 0 |}.
Proof.
  split; [by left |]. repeat split; vm_compute; reflexivity.
Qed.

(** C10.  For a published course and a caller without a Payment record the
    status endpoint answers 200 with status 'free' when the price is 0 and
    'unpaid' otherwise; when the caller has no Progress record either,
    progress and currentLevel are both 0. *)
Theorem C10_status_without_payment db user courseId course :
  courses db !! courseId = Some course →
  course_state course = published →
  Payment_findOne db (user_id user) courseId = None →
  ∃ body,
    getCourseStatus db user courseId = Reply 200 body
    ∧ cs_status body = (if course_price course =? 0 then "free" else "unpaid")
    ∧ (Progress_findOne db (user_id user) courseId = None →
       cs_progress body = 0 ∧ cs_currentLevel body = 0).
Proof.
  intros Hc Hpub Hpay. unfold getCourseStatus.
  rewrite Hc, Hpub, Hpay. simpl. rewrite andb_false_r.
  eexists. split; [reflexivity |]. simpl. split; [reflexivity |].
  intros ->. done.
Qed.

Lemma C10_status_without_payment_witness :
  ∃ body,
    getCourseStatus paidOnlyDb aStudent 10%nat = Reply 200 body
    ∧ cs_status body = (if course_price paidCourse =? 0 then "free" else "unpaid")
    ∧ (Progress_findOne paidOnlyDb (user_id aStudent) 10%nat = None →
       cs_progress body = 0 ∧ cs_currentLevel body = 0).
Proof.
  apply (C10_status_without_payment paidOnlyDb aStudent 10%nat paidCourse);
    vm_compute; reflexivity.
Defined.

(* --------------------------------------------------------------------- *)
(* Progress documents: entries and counters                              *)
(* --------------------------------------------------------------------- *)

Section FindIndex.
Context {A : Type} (f : A → bool).

Lemma findIndex_insert (l : list A) i y :
  findIndex f l = Some i → f y = true → findIndex f (<[i := y]> l) = Some i.
Proof.
  revert i. induction l as [|x l IH]; intros i; simpl; [done |].
  destruct (f x) eqn:Fx.
  - intros [= <-] Fy. simpl. by rewrite Fy.
  - destruct (findIndex f l) as [j|] eqn:E; simpl; [| done].
    intros [= <-] Fy. simpl. rewrite Fx. by rewrite (IH j).
Qed.

Lemma findIndex_push (l : list A) y :
  findIndex f l = None → f y = true → findIndex f (l ++ [y]) = Some (length l).
Proof.
  induction l as [|x l IH]; simpl; intros H Fy.
  - by rewrite Fy.
  - destruct (f x); [done |].
    destruct (findIndex f l); [done |]. by rewrite IH.
Qed.

Lemma findIndex_lt (l : list A) i : findIndex f l = Some i → (i < length l)%nat.
Proof.
  revert i. induction l as [|x l IH]; intros i; simpl; [done |].
  destruct (f x); [intros [= <-]; lia |].
  destruct (findIndex f l) as [j|]; simpl; [| done].
  intros [= <-]. specialize (IH j eq_refl). lia.
Qed.
End FindIndex.

Lemma existingEntry_putEntry p levelId e :
  lp_levelId e = levelId → existingEntry (putEntry p levelId e) levelId = Some e.
Proof.
  intros He. unfold existingEntry, putEntry, levelIndex.
  set (f := fun l => Nat.eqb (lp_levelId l) levelId).
  assert (f e = true) as Fe by (unfold f; rewrite He; apply Nat.eqb_refl).
  destruct (findIndex f (completedLevels p)) as [i|] eqn:E; simpl.
  - rewrite (findIndex_insert f _ i e E Fe).
    apply list_lookup_insert_eq. by eapply findIndex_lt.
  - rewrite (findIndex_push f _ e E Fe).
    rewrite lookup_app_r by lia. by rewrite Nat.sub_diag.
Qed.

Lemma currentLevel_putEntry p levelId e :
  currentLevel (putEntry p levelId e) = currentLevel p.
Proof. unfold putEntry. by destruct (levelIndex p levelId). Qed.

Lemma currentLevel_calculateProgress p n :
  currentLevel (calculateProgress p n) = currentLevel p.
Proof. unfold calculateProgress. by destruct (n =? 0). Qed.

Lemma completedLevels_calculateProgress p n :
  completedLevels (calculateProgress p n) = completedLevels p.
Proof. unfold calculateProgress. by destruct (n =? 0). Qed.

Lemma currentLevel_markCourseCompleted p n now :
  currentLevel (markCourseCompleted p n now) = currentLevel p.
Proof. unfold markCourseCompleted. by destruct (currentLevel p >? n). Qed.

Lemma completedLevels_markCourseCompleted p n now :
  completedLevels (markCourseCompleted p n now) = completedLevels p.
Proof. unfold markCourseCompleted. by destruct (currentLevel p >? n). Qed.

(** What the completion block leaves behind when currentLevel exceeds the
    number of levels. *)
Lemma markCourseCompleted_done p n now :
  currentLevel (markCourseCompleted p n now) > n →
  courseCompleted (markCourseCompleted p n now) = true
  ∧ totalProgress (markCourseCompleted p n now) = 100
  ∧ courseCompletedAt (markCourseCompleted p n now) = Some now.
Proof.
  rewrite currentLevel_markCourseCompleted. intros H.
  unfold markCourseCompleted.
  destruct (Z.gtb_spec (currentLevel p) n); [done | lia].
Qed.

Lemma existingEntry_ext p q levelId :
  completedLevels p = completedLevels q → existingEntry p levelId = existingEntry q levelId.
Proof. unfold existingEntry, levelIndex. by intros ->. Qed.

Lemma ensureProgress_levels db u c now :
  levels (snd (ensureProgress db u c now)) = levels db.
Proof. unfold ensureProgress. by destruct (Progress_findOne db u c). Qed.

Lemma ensureProgress_lookup db u c now :
  Progress_findOne (snd (ensureProgress db u c now)) u c
  = Some (fst (ensureProgress db u c now)).
Proof.
  unfold ensureProgress. destruct (Progress_findOne db u c) eqn:E; simpl; [done |].
  unfold Progress_findOne. simpl. apply lookup_insert_eq.
Qed.

Lemma ensureProgress_existing db u c now p :
  Progress_findOne db u c = Some p → ensureProgress db u c now = (p, db).
Proof. unfold ensureProgress. by intros ->. Qed.

(** ensureProgress does not change the stored attempt counters. *)
Lemma ensureProgress_storedAttempts db u c now levelId :
  storedAttempts (snd (ensureProgress db u c now)) u c levelId
  = storedAttempts db u c levelId.
Proof.
  unfold storedAttempts. rewrite ensureProgress_lookup.
  unfold ensureProgress. destruct (Progress_findOne db u c) eqn:E; simpl; done.
Qed.

Lemma storedAttempts_fst_ensureProgress db u c now levelId :
  match existingEntry (fst (ensureProgress db u c now)) levelId with
  | Some e => quizAttempts e
  | None => 0
  end = storedAttempts db u c levelId.
Proof.
  rewrite <- (ensureProgress_storedAttempts db u c now levelId).
  unfold storedAttempts. by rewrite ensureProgress_lookup.
Qed.

(* --------------------------------------------------------------------- *)
(* Sequential progression (C2)                                           *)
(* --------------------------------------------------------------------- *)

(** POST /progress/level-complete enforces the sequence rule: for a caller
    with access whose Progress document exists, a level beyond currentLevel
    is refused with 403 and the database is left as it was. *)
Lemma levelComplete_sequence_violation db user req now level course p :
  Level_findById db (lc_levelId req) = Some level →
  level_courseId level = lc_courseId req →
  checkCourseAccess db user (lc_courseId req) = (Some course, true) →
  Progress_findOne db (user_id user) (lc_courseId req) = Some p →
  1 ≤ currentLevel p →
  levelNumber level > currentLevel p →
  levelComplete db user req now
  = (Fail 403 "Please complete previous levels first", db).
Proof.
  intros Hl Hc Ha Hp H1 Hgt. unfold levelComplete.
  rewrite Hl, Hc, Nat.eqb_refl, Ha. simpl.
  rewrite (ensureProgress_existing _ _ _ _ _ Hp).
  unfold or1. destruct (Z.eqb_spec (currentLevel p) 0); [lia |].
  destruct (Z.gtb_spec (levelNumber level) (currentLevel p)); [done | lia].
Qed.

(** C2 (the code departs from the claim).  The student is at currentLevel 1
    and level 3 carries a quiz.  POST /progress/level-complete for level 3
    is refused with 403 and changes nothing; POST /quizzes/:id/submit for
    the quiz of the same level is answered 200, and the Progress document
    now has an entry for level 3 with one attempt, score 100 and
    quizPassed.  The quiz handler has no sequence check. *)
Theorem C2_quiz_submit_skips_sequence_check :
  (∃ level p,
     Level_findById seqDb 33%nat = Some level
     ∧ Progress_findOne seqDb 2%nat 20%nat = Some p
     ∧ levelNumber level > currentLevel p)
  ∧ levelComplete seqDb aStudent level3Req 1000
    = (Fail 403 "Please complete previous levels first", seqDb)
  ∧ ∃ body db',
      quizSubmit seqDb aStudent 50%nat rightAnswer 1000 = (Reply 200 body, db')
      ∧ Progress_findOne db' 2%nat 20%nat = Some (qo_progress body)
      ∧ Progress_findOne db' 2%nat 20%nat ≠ Progress_findOne seqDb 2%nat 20%nat
      ∧ completedLevels (qo_progress body)
        = [ {| lp_levelId := 33%nat; completed := false; completedAt := None;
               quizScore := 100; quizPassed := true; quizAttempts := 1;
               videoWatchedPercent := 0 |} ].
Proof.
  split.
  { eexists _, _. split; [vm_compute; reflexivity |].
    split; [vm_compute; reflexivity |]. simpl. lia. }
  split; [vm_compute; reflexivity |].
  eexists _, _. split; [vm_compute; reflexivity |].
  split; [vm_compute; reflexivity |].
  split; [| vm_compute; reflexivity].
  vm_compute. discriminate.
Qed.

(* --------------------------------------------------------------------- *)
(* Quiz submission (C6, C7)                                              *)
(* --------------------------------------------------------------------- *)

(** The binary64 step behind C6: 23/40 is not a binary fraction, and the
    product of its nearest binary64 number with 100 lies below 57.5. *)
Lemma product_23_40_below_tie :
  PrimFloat.ltb ((float_of_Z 23 / float_of_Z 40) * 100)%float 57.5%float = true
  ∧ PrimFloat.eqb (float_of_Z 2300 / float_of_Z 40)%float 57.5%float = true.
Proof. split; vm_compute; reflexivity. Qed.

(** The specification's own example: 3 of 4 gives 75. *)
Lemma js_percent_3_of_4 : js_percent 3 4 = 75.
Proof. vm_compute. reflexivity. Qed.

Lemma agree_upto_spec f g n :
  agree_upto f g n = true →
  ∀ c t, (1 ≤ t ≤ n)%nat → (c ≤ t)%nat → f c t = g c t.
Proof.
  unfold agree_upto. intros H c t Ht Hc.
  rewrite forallb_forall in H. specialize (H t).
  rewrite forallb_forall in H.
  apply Z.eqb_eq, H; apply in_seq; lia.
Qed.

(** Up to 39 questions the computed percentage is the exactly rounded one
    (checked on every pair). *)
Lemma js_percent_exact_below_40 (c t : nat) :
  (1 ≤ t ≤ 39)%nat → (c ≤ t)%nat →
  js_percent (Z.of_nat c) (Z.of_nat t)
  = round_half_up_percent (Z.of_nat c) (Z.of_nat t).
Proof.
  apply (agree_upto_spec
           (fun c t => js_percent (Z.of_nat c) (Z.of_nat t))
           (fun c t => round_half_up_percent (Z.of_nat c) (Z.of_nat t)) 39).
  vm_compute. reflexivity.
Qed.

(** What a graded submission answers and stores.  Whenever the handler
    reaches the grading step and the save is accepted:
    - score is Math.round((correctCount / totalQuestions) * 100);
    - passed is score >= passingScore;
    - the attempt counter is the stored one plus one;
    - the level entry is completed exactly when passed and the stored
      videoWatchedPercent is at least 90;
    - currentLevel becomes max(currentLevel || 1, levelNumber + 1) in that
      case and is unchanged otherwise. *)
Lemma quizSubmitGrade_outcome db1 user quiz level progress answers now :
  let before :=
    match existingEntry progress (level_id level) with
    | Some e => quizAttempts e | None => 0 end in
  let watched :=
    match existingEntry progress (level_id level) with
    | Some e => videoWatchedPercent e >=? 90 | None => false end in
  let r := quizSubmitGrade db1 user quiz level progress answers now in
  (r = (Fail 500 "Server error", db1))
  ∨ ∃ body,
      r = (Reply 200 body,
           set_progresses db1
             (<[(user_id user, quiz_courseId quiz) := qo_progress body]> (progresses db1)))
      ∧ qo_correctAnswers body = correctCountOf (buildAnswerMap answers) (questions quiz)
      ∧ qo_totalQuestions body = Z.of_nat (length (questions quiz))
      ∧ qo_score body = js_percent (qo_correctAnswers body) (qo_totalQuestions body)
      ∧ qo_passed body = (qo_score body >=? passingScore quiz)
      ∧ qo_attemptsUsed body = before + 1
      ∧ (∃ e, existingEntry (qo_progress body) (level_id level) = Some e
              ∧ quizAttempts e = before + 1
              ∧ completed e = qo_passed body && watched)
      ∧ currentLevel (qo_progress body)
        = (if qo_passed body && watched
           then Z.max (or1 (currentLevel progress)) (levelNumber level + 1)
           else currentLevel progress)
      ∧ (currentLevel (qo_progress body) > Level_countDocuments db1 (quiz_courseId quiz) →
         courseCompleted (qo_progress body) = true
         ∧ totalProgress (qo_progress body) = 100
         ∧ courseCompletedAt (qo_progress body) = Some now).
Proof.
  intros before watched r. subst r. unfold quizSubmitGrade.
  fold before. fold watched.
  set (score := js_percent _ _).
  set (passed := score >=? passingScore quiz).
  set (entry := Build_LevelProgress _ _ _ _ _ _ _).
  set (p1 := putEntry progress (level_id level) entry).
  set (p2 := if passed && watched then unlockNext p1 (levelNumber level) else p1).
  set (n := Level_countDocuments db1 (quiz_courseId quiz)).
  set (p4 := markCourseCompleted (calculateProgress p2 n) n now).
  assert (existingEntry p4 (level_id level) = Some entry) as Hentry.
  { rewrite (existingEntry_ext p4 p1).
    - by apply existingEntry_putEntry.
    - unfold p4. rewrite completedLevels_markCourseCompleted,
        completedLevels_calculateProgress.
      unfold p2. by destruct (passed && watched). }
  unfold Progress_save. destruct (Progress_valid p4); [right | by left].
  eexists. split; [apply pair_equal_spec; split; [reflexivity | reflexivity] |]. simpl.
  split; [reflexivity |]. split; [reflexivity |]. split; [reflexivity |].
  split; [reflexivity |]. split; [reflexivity |].
  split; [exists entry; split; [exact Hentry | by split] |].
  split; [| apply markCourseCompleted_done].
  fold score passed. unfold p4.
  rewrite currentLevel_markCourseCompleted, currentLevel_calculateProgress.
  unfold p2, p1, unlockNext.
  destruct (passed && watched); cbn [currentLevel with_currentLevel];
    by rewrite currentLevel_putEntry.
Qed.

(** C6 (the code departs from the claim).  Forty questions, 23 answered
    with the correct option, passing score 58, 95% of the video watched.
    100 * 23 / 40 is 57.5 and rounds to 58, so the claim has score 58,
    passed, the level completed and currentLevel advanced to 2.  The handler
    computes (23 / 40) * 100 in binary64, which is 57.49999999999999, and
    answers score 57 and passed = false; the level is not completed and
    currentLevel stays 1. *)
Theorem C6_score_tie_rounds_down :
  round_half_up_percent 23 40 = 58
  ∧ ∃ body db',
      quizSubmit fortyDb aStudent 60%nat answers23 1000 = (Reply 200 body, db')
      ∧ qo_correctAnswers body = 23
      ∧ qo_totalQuestions body = 40
      ∧ qo_passingScore body = 58
      ∧ qo_score body = 57
      ∧ qo_passed body = false
      ∧ currentLevel (qo_progress body) = 1
      ∧ List.map completed (completedLevels (qo_progress body)) = [false]
      ∧ List.map videoWatchedPercent (completedLevels (qo_progress body)) = [95].
Proof.
  split; [vm_compute; reflexivity |].
  eexists _, _. split; [vm_compute; reflexivity |].
  repeat split; vm_compute; reflexivity.
Qed.






(* --------------------------------------------------------------------- *)
(* Course completion (C8)                                                *)
(* --------------------------------------------------------------------- *)

Lemma Level_countDocuments_ensureProgress db u c now courseId :
  Level_countDocuments (snd (ensureProgress db u c now)) courseId
  = Level_countDocuments db courseId.
Proof. unfold Level_countDocuments. by rewrite ensureProgress_levels. Qed.

(** What POST /progress/level-complete stores when it answers 200. *)
Lemma levelComplete_saved db user req now p db' :
  levelComplete db user req now = (Reply 200 p, db') →
  Progress_findOne db' (user_id user) (lc_courseId req) = Some p
  ∧ lastAccessedAt p = now
  ∧ (currentLevel p > Level_countDocuments db (lc_courseId req) →
     courseCompleted p = true ∧ totalProgress p = 100
     ∧ courseCompletedAt p = Some now).
Proof.
  unfold levelComplete.
  destruct (Level_findById db (lc_levelId req)) as [level|]; [| done].
  destruct (negb _); [done |].
  destruct (checkCourseAccess db user (lc_courseId req)) as [[course|] [|]]; try done.
  pose proof (Level_countDocuments_ensureProgress db (user_id user) (lc_courseId req)
                now (lc_courseId req)) as Hn.
  destruct (ensureProgress db (user_id user) (lc_courseId req) now)
    as [progress db1] eqn:E.
  simpl in Hn. rewrite Hn.
  destruct (levelNumber level >? or1 (currentLevel progress)); [done |].
  unfold Progress_save. destruct (Progress_valid _); [| done].
  intros [= <- <-].
  split; [unfold Progress_findOne; simpl; apply lookup_insert_eq |].
  split; [reflexivity |].
  cbn [currentLevel courseCompleted totalProgress courseCompletedAt with_lastAccessedAt].
  apply markCourseCompleted_done.
Qed.

(** What POST /quizzes/:id/submit stores when it answers 200. *)
Lemma quizSubmit_saved db user quizId answers now quiz body db' :
  quizzes db !! quizId = Some quiz →
  quizSubmit db user quizId answers now = (Reply 200 body, db') →
  Progress_findOne db' (user_id user) (quiz_courseId quiz) = Some (qo_progress body)
  ∧ (currentLevel (qo_progress body) > Level_countDocuments db (quiz_courseId quiz) →
     courseCompleted (qo_progress body) = true
     ∧ totalProgress (qo_progress body) = 100
     ∧ courseCompletedAt (qo_progress body) = Some now).
Proof.
  intros Hq. unfold quizSubmit.
  destruct (quizSubmitGuards db user quizId) as [code [[quiz' level] course]|] eqn:G;
    [| done].
  assert (quiz' = quiz) as ->.
  { unfold quizSubmitGuards in G. rewrite Hq in G.
    repeat case_match; congruence. }
  pose proof (Level_countDocuments_ensureProgress db (user_id user) (quiz_courseId quiz)
                now (quiz_courseId quiz)) as Hn.
  destruct (ensureProgress db (user_id user) (quiz_courseId quiz) now)
    as [progress db1] eqn:E.
  simpl in Hn. rewrite <- Hn.
  destruct (negb _ && _); [done |].
  destruct (quizSubmitGrade_outcome db1 user quiz level progress answers now)
    as [-> | (body' & -> & _ & _ & _ & _ & _ & _ & _ & Hdone)]; [done |].
  intros [= <- <-].
  split; [unfold Progress_findOne; simpl; apply lookup_insert_eq | exact Hdone].
Qed.

(** C8, as the code has it.  Whenever one of the two progress mutations
    (POST /progress/level-complete, POST /quizzes/:id/submit) is saved with
    currentLevel above the number of levels of the course, the stored
    Progress document has courseCompleted = true, totalProgress = 100 and
    courseCompletedAt = the time of this mutation: the timestamp is written
    again on every such mutation, whether or not the course was already
    marked completed. *)
Theorem C8_completion_stamps_current_time db user now :
  (∀ req p db',
     levelComplete db user req now = (Reply 200 p, db') →
     currentLevel p > Level_countDocuments db (lc_courseId req) →
     Progress_findOne db' (user_id user) (lc_courseId req) = Some p
     ∧ courseCompleted p = true ∧ totalProgress p = 100
     ∧ courseCompletedAt p = Some now)
  ∧ (∀ quizId quiz answers body db',
       quizzes db !! quizId = Some quiz →
       quizSubmit db user quizId answers now = (Reply 200 body, db') →
       currentLevel (qo_progress body) > Level_countDocuments db (quiz_courseId quiz) →
       Progress_findOne db' (user_id user) (quiz_courseId quiz) = Some (qo_progress body)
       ∧ courseCompleted (qo_progress body) = true
       ∧ totalProgress (qo_progress body) = 100
       ∧ courseCompletedAt (qo_progress body) = Some now).
Proof.
  split.
  - intros req p db' H Hgt.
    destruct (levelComplete_saved _ _ _ _ _ _ H) as (Hs & _ & Hd). auto.
  - intros quizId quiz answers body db' Hq H Hgt.
    destruct (quizSubmit_saved _ _ _ _ _ _ _ _ Hq H) as (Hs & Hd). auto.
Qed.

Lemma C8_completion_stamps_current_time_witness :
  ∃ p db',
    levelComplete doneDb aStudent level1Req 2000 = (Reply 200 p, db')
    ∧ currentLevel p > Level_countDocuments doneDb 20%nat
    ∧ Progress_findOne db' 2%nat 20%nat = Some p
    ∧ courseCompleted p = true ∧ totalProgress p = 100
    ∧ courseCompletedAt p = Some 2000.
Proof.
  eexists _, _.
  assert (∀ (A B : Prop), A → (A → B) → A ∧ B) as both by tauto.
  apply both; [vm_compute; reflexivity |]. intros H.
  apply both; [vm_compute; reflexivity |]. intros Hgt.
  exact (proj1 (C8_completion_stamps_current_time doneDb aStudent 2000)
           level1Req _ _ H Hgt).
Defined.

(** C8 as stated fails: the Progress document is already marked completed
    with courseCompletedAt = 1000; running level-complete again at time 2000
    stores courseCompletedAt = 2000. *)
Lemma C8_completion_timestamp_changes :
  ∃ p p' db',
    Progress_findOne doneDb 2%nat 20%nat = Some p
    ∧ courseCompleted p = true
    ∧ courseCompletedAt p = Some 1000
    ∧ levelComplete doneDb aStudent level1Req 2000 = (Reply 200 p', db')
    ∧ currentLevel p' > Level_countDocuments doneDb 20%nat
    ∧ Progress_findOne db' 2%nat 20%nat = Some p'
    ∧ courseCompletedAt p' = Some 2000
    ∧ courseCompletedAt p' ≠ courseCompletedAt p.
Proof.
  eexists _, _, _.
  split; [vm_compute; reflexivity |].
  split; [reflexivity |]. split; [reflexivity |].
  split; [vm_compute; reflexivity |].
  split; [vm_compute; reflexivity |].
  split; [vm_compute; reflexivity |].
  split; [reflexivity |]. simpl. discriminate.
Qed.

(* --------------------------------------------------------------------- *)
(* Payment submission (C5)                                               *)
(* --------------------------------------------------------------------- *)

(** C5.  Take a POST /payments request that passes the input checks: a proof
    file, a valid course id, a non-empty transaction id, a course the caller
    may see and that is not free, a positive amount, and an upload that is
    stored under a non-empty path.
    - When the (learner, course) pair has a Payment with status rejected,
      the answer is 200 with the resubmitted message, and the record stored
      for the pair is the same record (same id) with transactionId, amount
      and proofImage replaced, status pending, rejectionReason and notes
      empty, verifiedBy and verifiedAt null.
    - When the pair has no Payment, the answer is 201 and a new pending
      record with a fresh id is stored. *)
Theorem C5_resubmission_reuses_record db user req filename courseId course amt proof :
  pr_filename req = Some filename →
  pr_courseId req = CourseIdValid courseId →
  truthy (trim (default "" (pr_transactionId req))) = true →
  courses db !! courseId = Some course →
  user_role user = admin ∨ course_state course = published →
  course_price course ≠ 0 →
  requestedAmount (pr_amount req) (course_price course) = Some amt →
  0 < amt →
  persistUploadedFile (pr_storage req) ("/uploads/payment-proofs/" +:+ filename)
  = Some proof →
  truthy proof = true →
  let txn := trim (default "" (pr_transactionId req)) in
  let r := submitPayment db user req in
  (∀ e, Payment_findOne db (user_id user) courseId = Some e →
        payment_state e = rejected →
        ∃ e',
          fst r = Reply 200 {| sub_payment := e';
                               sub_message := Some "Payment proof resubmitted successfully" |}
          ∧ Payment_findOne (snd r) (user_id user) courseId = Some e'
          ∧ payment_id e' = payment_id e
          ∧ transactionId e' = txn ∧ amount e' = amt ∧ proofImage e' = proof
          ∧ payment_state e' = pending
          ∧ rejectionReason e' = "" ∧ notes e' = ""
          ∧ verifiedBy e' = None ∧ verifiedAt e' = None
          ∧ nextId (snd r) = nextId db)
  ∧ (Payment_findOne db (user_id user) courseId = None →
     ∃ p,
       fst r = Reply 201 {| sub_payment := p; sub_message := None |}
       ∧ Payment_findOne (snd r) (user_id user) courseId = Some p
       ∧ payment_id p = nextId db
       ∧ transactionId p = txn ∧ amount p = amt ∧ proofImage p = proof
       ∧ payment_state p = pending
       ∧ nextId (snd r) = S (nextId db)).
Proof.
  intros Hf Hc Ht Hcourse Hvis Hprice Hamt Hpos Hstore Hproof txn r.
  assert (r = submitPayment db user req) as Hr by reflexivity.
  unfold submitPayment in Hr.
  rewrite Hf, Hc in Hr. fold txn in Hr. fold txn in Ht.
  rewrite Ht, Hcourse in Hr. simpl in Hr.
  assert (negb (is_admin (user_role user)) && negb (is_published (course_state course))
          = false) as Hv.
  { destruct Hvis as [-> | ->]; simpl; [done | by rewrite andb_false_r]. }
  rewrite Hv in Hr.
  destruct (Z.eqb_spec (course_price course) 0) as [| _]; [done |].
  rewrite Hamt in Hr.
  destruct (Z.leb_spec amt 0) as [| _]; [lia |].
  split.
  - intros e He Hrej. rewrite He, Hrej in Hr. simpl in Hr.
    rewrite Hstore, Hproof in Hr. simpl in Hr. rewrite Hr.
    eexists. split; [reflexivity |]. simpl.
    split; [unfold Payment_findOne; simpl; apply lookup_insert_eq |].
    repeat split.
  - intros He. rewrite He in Hr.
    rewrite Hstore, Hproof in Hr. simpl in Hr. rewrite Hr.
    eexists. split; [reflexivity |]. simpl.
    split; [unfold Payment_findOne; simpl; apply lookup_insert_eq |].
    repeat split.
Qed.

Lemma C5_resubmission_reuses_record_witness :
  ∃ e',
    fst (submitPayment rejectedDb aStudent paymentReq)
    = Reply 200 {| sub_payment := e';
                   sub_message := Some "Payment proof resubmitted successfully" |}
    ∧ Payment_findOne (snd (submitPayment rejectedDb aStudent paymentReq)) 2%nat 10%nat
      = Some e'
    ∧ payment_id e' = 80%nat
    ∧ transactionId e' = "TXN-2" ∧ amount e' = 500
    ∧ proofImage e' = "/uploads/payment-proofs/new.png"
    ∧ payment_state e' = pending
    ∧ rejectionReason e' = "" ∧ notes e' = ""
    ∧ verifiedBy e' = None ∧ verifiedAt e' = None
    ∧ nextId (snd (submitPayment rejectedDb aStudent paymentReq)) = 100%nat.
Proof.
  refine (proj1 (C5_resubmission_reuses_record rejectedDb aStudent paymentReq
                   "new.png" 10%nat paidCourse 500 "/uploads/payment-proofs/new.png"
                   _ _ _ _ _ _ _ _ _ _) rejectedPayment _ _);
    try (vm_compute; reflexivity).
  - right. reflexivity.
  - vm_compute. discriminate.
Defined.

(* --------------------------------------------------------------------- *)
(* Streaming: authorization order (C3)                                   *)
(* --------------------------------------------------------------------- *)

Lemma unlockFrontier_ensureProgress db u c now :
  or1 (currentLevel (fst (ensureProgress db u c now))) = unlockFrontier db u c.
Proof.
  unfold unlockFrontier, ensureProgress.
  by destruct (Progress_findOne db u c).
Qed.

(** With the documented invariant (currentLevel is a positive integer) the
    frontier is the stored currentLevel. *)
Lemma unlockFrontier_stored db u c p :
  Progress_findOne db u c = Some p → 1 ≤ currentLevel p →
  unlockFrontier db u c = currentLevel p.
Proof.
  intros Hp H1. unfold unlockFrontier, or1. rewrite Hp.
  destruct (Z.eqb_spec (currentLevel p) 0); [lia | done].
Qed.

Lemma hasAccess_entitled db user courseId course :
  is_admin (user_role user) || (course_price course =? 0)
  || bool_decide (is_Some (Payment_findOne_approved db (user_id user) courseId)) = true
  ↔ entitled db user courseId course.
Proof.
  unfold entitled.
  rewrite !orb_true_iff, is_admin_true, Z.eqb_eq, bool_decide_eq_true,
    findOne_approved_is_Some.
  tauto.
Qed.

(** C3.  The checks of GET /levels/:id/stream, in order.  Each clause
    assumes only that the earlier checks passed and holds whatever the later
    ones would say.
    (1) No level, or a video reference that is unset or 'pending': 404, and
        nothing is written.
    (2) No course, or a course that is not published for a caller who is not
        an administrator: 404 with the same message in both cases, nothing
        written.
    (3) The caller is not entitled: 403, nothing written.
    (4) For a learner, a level number above the unlock frontier: 403, and an
        existing Progress document is not touched.
    On success the level is handed on; for a learner the Progress document
    then stored has lastAccessedAt = now, and this is the database state in
    which the bytes are served (the streaming handler returns it whatever
    the serving step does).  An administrator passes after (3) and nothing
    is written. *)
Theorem C3_stream_authorization_order db user levelId now :
  let r := streamAuthorize db user levelId now in
  ((∀ level, Level_findById db levelId = Some level →
             hasVideoRef (videoPath level) = false) →
   r = (Fail 404 "Video not uploaded yet", db))
  ∧ (∀ level,
       Level_findById db levelId = Some level →
       hasVideoRef (videoPath level) = true →
       let courseId := level_courseId level in
       ((∀ course, courses db !! courseId = Some course →
                   user_role user = student ∧ course_state course ≠ published) →
        r = (Fail 404 "Course not found", db))
       ∧ (∀ course,
            courses db !! courseId = Some course →
            user_role user = admin ∨ course_state course = published →
            (¬ entitled db user courseId course →
             r = (Fail 403 "Course locked until payment is approved", db))
            ∧ (entitled db user courseId course →
               (user_role user = admin → r = (Reply 200 level, db))
               ∧ (user_role user = student →
                  (levelNumber level > unlockFrontier db (user_id user) courseId →
                   fst r = Fail 403 "You must complete previous levels first"
                   ∧ (is_Some (Progress_findOne db (user_id user) courseId) →
                      snd r = db))
                  ∧ (levelNumber level ≤ unlockFrontier db (user_id user) courseId →
                     fst r = Reply 200 level
                     ∧ ∃ p, Progress_findOne (snd r) (user_id user) courseId = Some p
                            ∧ lastAccessedAt p = now
                            ∧ or1 (currentLevel p)
                              = unlockFrontier db (user_id user) courseId)))))
  ∧ (∀ files range,
       snd (streamLevel db files user levelId range now) = snd r
       ∧ ∀ code msg, fst r = Fail code msg →
           fst (streamLevel db files user levelId range now) = StreamFail code msg).
Proof.
  intros r. subst r. split; [| split].
  - intros H. unfold streamAuthorize.
    destruct (Level_findById db levelId) as [level|]; [| done].
    by rewrite (H level eq_refl).
  - intros level Hl Hv courseId. unfold streamAuthorize. rewrite Hl, Hv. simpl.
    fold courseId. split.
    + intros H. destruct (courses db !! courseId) as [course|]; [| done].
      destruct (H course eq_refl) as [-> Hs]. simpl.
      destruct (course_state course); done.
    + intros course Hc Hvis. rewrite Hc.
      assert (negb (is_admin (user_role user))
              && negb (is_published (course_state course)) = false) as ->.
      { destruct Hvis as [-> | ->]; simpl; [done | by rewrite andb_false_r]. }
      pose proof (hasAccess_entitled db user courseId course) as Hacc.
      destruct (is_admin (user_role user) || (course_price course =? 0)
                || bool_decide (is_Some
                     (Payment_findOne_approved db (user_id user) courseId))) eqn:A.
      * split; [intros Hn; exfalso; apply Hn, Hacc; done |].
        intros _. simpl. split; [by intros -> |].
        intros R. rewrite R. simpl.
        pose proof (unlockFrontier_ensureProgress db (user_id user) courseId now) as Hf.
        pose proof (ensureProgress_lookup db (user_id user) courseId now) as Hlook.
        destruct (ensureProgress db (user_id user) courseId now) as [progress db1] eqn:E.
        simpl in Hf, Hlook. rewrite Hf.
        split.
        -- intros Hgt.
           destruct (Z.gtb_spec (levelNumber level)
                       (unlockFrontier db (user_id user) courseId)); [| lia].
           simpl. split; [done |].
           intros [p Hp]. rewrite (ensureProgress_existing _ _ _ _ _ Hp) in E.
           congruence.
        -- intros Hle.
           destruct (Z.gtb_spec (levelNumber level)
                       (unlockFrontier db (user_id user) courseId)); [lia |].
           simpl. split; [done |].
           eexists. split; [unfold Progress_findOne; simpl; apply lookup_insert_eq |].
           split; [done |]. simpl. done.
      * split; [done |]. intros He. apply Hacc in He. done.
  - intros files range. unfold streamLevel.
    destruct (streamAuthorize db user levelId now) as [[code level | code msg] db1].
    + simpl. split; [by destruct (isRemoteUrl _) | done].
    + simpl. split; [done |]. by intros ? ? [= -> ->].
Qed.

Lemma C3_stream_authorization_order_witness :
  fst (streamAuthorize seqDb aStudent 31%nat 5000)
  = Reply 200 (mkLevel 31%nat 20%nat 1 false (Some "/uploads/videos/one.mp4"))
  ∧ ∃ p, Progress_findOne (snd (streamAuthorize seqDb aStudent 31%nat 5000)) 2%nat 20%nat
         = Some p
         ∧ lastAccessedAt p = 5000
         ∧ or1 (currentLevel p) = unlockFrontier seqDb 2%nat 20%nat.
Proof.
  pose proof (C3_stream_authorization_order seqDb aStudent 31%nat 5000) as (_ & H & _).
  specialize (H (mkLevel 31%nat 20%nat 1 false (Some "/uploads/videos/one.mp4"))
                eq_refl eq_refl).
  destruct H as (_ & H).
  specialize (H freeCourse eq_refl (or_intror eq_refl)).
  destruct H as (_ & H).
  assert (entitled seqDb aStudent 20%nat freeCourse) as He by (right; by left).
  destruct (H He) as (_ & Hs).
  destruct (Hs eq_refl) as (_ & Hok).
  apply Hok. vm_compute. discriminate.
Defined.

(* --------------------------------------------------------------------- *)
(* Streaming: ranged requests for a local file (C4)                      *)
(* --------------------------------------------------------------------- *)

Lemma split_head_notDash s :
  ∃ h t, split "-" s = h :: t ∧ string_forallb notDash h = true.
Proof.
  induction s as [|a s (h & t & E & H)]; simpl.
  - by exists EmptyString, [].
  - destruct (Ascii.eqb a "-") eqn:A.
    + by exists EmptyString, (split "-" s).
    + rewrite E. exists (String a h), t. split; [done |].
      simpl. unfold notDash at 1. by rewrite A.
Qed.

Lemma trimStart_forallb P s :
  string_forallb P s = true → string_forallb P (trimStart s) = true.
Proof.
  induction s as [|a s IH]; simpl; [done |].
  intros [Ha Hs]%andb_true_iff.
  destruct (is_space a); [by apply IH |]. simpl. by rewrite Ha.
Qed.

Lemma digit_value_nonneg a : is_digit a = true → 0 ≤ digit_value a.
Proof.
  unfold is_digit, digit_value. intros [H _]%andb_true_iff.
  apply Nat.leb_le in H. lia.
Qed.

Lemma digitsPrefix_nonneg s acc z :
  (∀ a, acc = Some a → 0 ≤ a) → digitsPrefix s acc = Some z → 0 ≤ z.
Proof.
  revert acc. induction s as [|a s IH]; simpl; intros acc Hacc; [by apply Hacc |].
  destruct (is_digit a) eqn:D; [| by apply Hacc].
  apply IH. intros b [= <-].
  pose proof (digit_value_nonneg a D).
  destruct acc as [c|]; simpl; [specialize (Hacc c eq_refl) |]; lia.
Qed.

(** The text before the first '-' cannot carry a sign, so a start that
    parses is never negative. *)
Lemma parseInt_notDash_nonneg s z :
  string_forallb notDash s = true → parseInt s = Some z → 0 ≤ z.
Proof.
  intros H%(trimStart_forallb notDash). unfold parseInt.
  destruct (trimStart s) as [|a r]; [done |].
  simpl in H. apply andb_true_iff in H as [Ha _].
  unfold notDash in Ha. apply negb_true_iff in Ha. rewrite Ha.
  destruct (Ascii.eqb a "+"); apply digitsPrefix_nonneg; done.
Qed.

Lemma rangeStart_nonneg range s : rangeStart range = Some s → 0 ≤ s.
Proof.
  unfold rangeStart, rangeParts.
  destruct (split_head_notDash (removeFirst "bytes=" range)) as (h & t & -> & H).
  by apply parseInt_notDash_nonneg.
Qed.

(** C4, as the code has it.  For a ranged request on a local file of
    [fileSize] bytes:
    - a start that parses is never negative;
    - if the start does not parse or start >= fileSize, the reply is 416
      with Content-Range: bytes */fileSize and no body;
    - the end is fileSize - 1 when the header has nothing after the dash;
    - if the start parses and start <= end < fileSize, the reply is 206 with
      Content-Range: bytes start-end/fileSize, Accept-Ranges: bytes,
      Content-Length = end - start + 1, and the body is exactly the bytes
      start..end of the file. *)
Theorem C4_range_reply file contentType range :
  let fileSize := Z.of_nat (length file) in
  let r := serveRange file contentType range in
  (∀ s, rangeStart range = Some s → 0 ≤ s)
  ∧ ((rangeStart range = None ∨ ∃ s, rangeStart range = Some s ∧ fileSize ≤ s) →
     r = RangeNotSatisfiable ("bytes */" +:+ pretty fileSize))
  ∧ (∀ p0, (rangeParts range = [p0] ∨ ∃ rest, rangeParts range = p0 :: "" :: rest) →
           rangeEnd range fileSize = Some (fileSize - 1))
  ∧ (∀ s e,
       rangeStart range = Some s →
       rangeEnd range fileSize = Some e →
       s ≤ e < fileSize →
       ∃ body,
         r = PartialContent
               ("bytes " +:+ pretty s +:+ "-" +:+ pretty e +:+ "/" +:+ pretty fileSize)
               "bytes" (e - s + 1) contentType body
         ∧ Z.of_nat (length body) = e - s + 1
         ∧ ∀ i : nat, Z.of_nat i < e - s + 1 →
                      body !! i = file !! (Z.to_nat s + i)%nat).
Proof.
  intros fileSize r. subst r. split; [apply rangeStart_nonneg |].
  split; [| split].
  - unfold serveRange. fold fileSize. intros [-> | (s & -> & Hs)]; [done |].
    destruct (Z.geb_spec s fileSize); [done | lia].
  - intros p0 [H | (rest & H)]; unfold rangeEnd; rewrite H; done.
  - intros s e Hs He Hse.
    pose proof (rangeStart_nonneg range s Hs) as H0.
    unfold serveRange. fold fileSize. rewrite Hs, He.
    destruct (Z.geb_spec s fileSize); [lia |].
    unfold createReadStream.
    destruct (Z.ltb_spec s 0); [lia |].
    destruct (Z.ltb_spec e 0); [lia |].
    destruct (Z.ltb_spec e s); [lia |]. simpl.
    eexists. split; [reflexivity |].
    split.
    + rewrite length_take, length_drop. unfold fileSize in Hse. lia.
    + intros i Hi. rewrite lookup_take_lt by lia. by rewrite lookup_drop.
Qed.

Lemma C4_range_reply_witness :
  ∃ body,
    serveRange file1000 "video/mp4" "bytes=100-199"
    = PartialContent
        ("bytes " +:+ pretty 100 +:+ "-" +:+ pretty 199 +:+ "/"
         +:+ pretty (Z.of_nat (length file1000)))
        "bytes" (199 - 100 + 1) "video/mp4" body
    ∧ Z.of_nat (length body) = 199 - 100 + 1
    ∧ ∀ i : nat, Z.of_nat i < 199 - 100 + 1 →
                 body !! i = file1000 !! (Z.to_nat 100 + i)%nat.
Proof.
  apply (proj2 (proj2 (proj2 (C4_range_reply file1000 "video/mp4" "bytes=100-199")))
           100 199).
  - vm_compute. reflexivity.
  - vm_compute. reflexivity.
  - vm_compute. split; [discriminate | reflexivity].
Defined.

(** The example of the specification, evaluated: Range: bytes=100-199 on a
    file of 1000 bytes gives 206, Content-Range: bytes 100-199/1000,
    Content-Length: 100, and the hundred bytes from offset 100. *)
Lemma serveRange_100_199 :
  serveRange file1000 "video/mp4" "bytes=100-199"
  = PartialContent "bytes 100-199/1000" "bytes" 100 "video/mp4"
      (take 100 (drop 100 file1000)).
Proof. vm_compute. reflexivity. Qed.

(** Range: bytes=1000- on the same file: 416 with bytes */1000. *)
Lemma serveRange_start_at_size :
  serveRange file1000 "video/mp4" "bytes=1000-" = RangeNotSatisfiable "bytes */1000".
Proof. vm_compute. reflexivity. Qed.

(** C4 as stated fails when the end is not inside the file.  On a file of
    100 bytes, Range: bytes=0-999 has a valid start below the size; the
    reply is 206 with Content-Range: bytes 0-999/100 and Content-Length
    1000, but the body is the 100 bytes of the file, not a span of 1000
    bytes.  Range: bytes=50-10 also has a valid start below the size; the
    stream cannot be opened with start > end and the reply is 500, not
    206. *)
Lemma C4_range_end_not_checked :
  (rangeStart "bytes=0-999" = Some 0
   ∧ 0 < Z.of_nat (length file100)
   ∧ ∃ body,
       serveRange file100 "video/mp4" "bytes=0-999"
       = PartialContent "bytes 0-999/100" "bytes" 1000 "video/mp4" body
       ∧ Z.of_nat (length body) = 100
       ∧ Z.of_nat (length body) ≠ 999 - 0 + 1)
  ∧ (rangeStart "bytes=50-10" = Some 50
     ∧ 50 < Z.of_nat (length file100)
     ∧ serveRange file100 "video/mp4" "bytes=50-10" = StreamFail 500 "Server error").
Proof.
  split.
  - split; [vm_compute; reflexivity |]. split; [vm_compute; reflexivity |].
    eexists. split; [vm_compute; reflexivity |].
    split; [vm_compute; reflexivity |]. vm_compute. discriminate.
  - split; [vm_compute; reflexivity |]. split; vm_compute; reflexivity.
Qed.

(* --------------------------------------------------------------------- *)
(* Level metadata never carries the video reference (C9)                 *)
(* --------------------------------------------------------------------- *)

Lemma levelView_student_hides_path l :
  levelView student l !! "videoPath" = None
  ∧ levelView student l !! "hasVideo" = Some (JBool (hasVideoRef (videoPath l))).
Proof.
  unfold levelView. simpl is_admin. cbv iota. split.
  - rewrite lookup_insert_ne by discriminate. apply lookup_delete_eq.
  - apply lookup_insert_eq.
Qed.

Lemma levelViewWithLock_student_hides_path n l :
  levelViewWithLock student n l !! "videoPath" = None
  ∧ levelViewWithLock student n l !! "hasVideo"
    = Some (JBool (hasVideoRef (videoPath l))).
Proof.
  unfold levelViewWithLock.
  rewrite !(lookup_insert_ne _ "locked") by discriminate.
  apply levelView_student_hides_path.
Qed.

Lemma levelView_student_eq l1 l2 :
  sameExceptVideo l1 l2 → levelView student l1 = levelView student l2.
Proof.
  destruct l1, l2. unfold sameExceptVideo. simpl.
  intros (-> & -> & -> & -> & -> & -> & -> & -> & -> & -> & Hv).
  unfold levelView. simpl is_admin. cbv iota. simpl videoPath. rewrite Hv.
  (* deleting the property computes on the object's concrete keys and
     leaves the same map on both sides *)
  reflexivity.
Qed.

Lemma levelViewWithLock_student_eq n l1 l2 :
  sameExceptVideo l1 l2 →
  levelViewWithLock student n l1 = levelViewWithLock student n l2.
Proof.
  intros H. unfold levelViewWithLock.
  rewrite (levelView_student_eq l1 l2 H).
  destruct H as (_ & _ & -> & _). done.
Qed.

Section RelatedLevels.
Context (R : Level → Level → Prop).

Lemma Forall2_filter_related (f : Level → bool) ls1 ls2 :
  (∀ x y, R x y → f x = f y) →
  Forall2 R ls1 ls2 → Forall2 R (List.filter f ls1) (List.filter f ls2).
Proof.
  intros Hf. induction 1 as [|x y ls1 ls2 Hxy _ IH]; simpl; [constructor |].
  rewrite (Hf x y Hxy). destruct (f y); [by constructor | done].
Qed.

Lemma Forall2_insertByNumber x y ls1 ls2 :
  (∀ a b, R a b → levelNumber a = levelNumber b) →
  R x y → Forall2 R ls1 ls2 →
  Forall2 R (insertByNumber x ls1) (insertByNumber y ls2).
Proof.
  intros Hn Hxy. induction 1 as [|a b ls1 ls2 Hab Hls IH]; simpl.
  - by repeat constructor.
  - rewrite (Hn x y Hxy), (Hn a b Hab).
    destruct (levelNumber y <? levelNumber b); by repeat constructor.
Qed.

Lemma Forall2_sortByNumber ls1 ls2 :
  (∀ a b, R a b → levelNumber a = levelNumber b) →
  Forall2 R ls1 ls2 → Forall2 R (sortByNumber ls1) (sortByNumber ls2).
Proof.
  intros Hn. induction 1; simpl; [constructor |].
  by apply Forall2_insertByNumber.
Qed.

Lemma find_related (f : Level → bool) ls1 ls2 :
  (∀ x y, R x y → f x = f y) →
  Forall2 R ls1 ls2 →
  match List.find f ls1, List.find f ls2 with
  | Some a, Some b => R a b
  | None, None => True
  | _, _ => False
  end.
Proof.
  intros Hf. induction 1 as [|x y ls1 ls2 Hxy _ IH]; simpl; [done |].
  rewrite (Hf x y Hxy). by destruct (f y).
Qed.
End RelatedLevels.

Lemma map_related {B} (R : Level → Level → Prop) (g : Level → B) ls1 ls2 :
  (∀ x y, R x y → g x = g y) → Forall2 R ls1 ls2 → List.map g ls1 = List.map g ls2.
Proof.
  intros Hg. induction 1 as [|x y ls1 ls2 Hxy _ IH]; simpl; [done |].
  by rewrite (Hg x y Hxy), IH.
Qed.

(** C9.  Two databases that differ only in the video references stored in
    their Level documents, the references of corresponding levels giving the
    same hasVideo, are indistinguishable for a caller who is not an
    administrator: GET /levels/course/:courseId and GET /levels/:id answer
    the same in both.  Every level object in those answers has no videoPath
    property and has the boolean hasVideo. *)
Theorem C9_video_reference_hidden db1 db2 user :
  user_role user = student →
  courses db1 = courses db2 →
  payments db1 = payments db2 →
  progresses db1 = progresses db2 →
  Forall2 sameExceptVideo (levels db1) (levels db2) →
  (∀ courseId,
     getCourseLevels db1 user courseId = getCourseLevels db2 user courseId
     ∧ ∀ body, getCourseLevels db1 user courseId = Reply 200 body →
         Forall (fun o : gmap string jsval =>
                   o !! "videoPath" = None ∧ ∃ b, o !! "hasVideo" = Some (JBool b))
                (ll_levels body))
  ∧ (∀ levelId,
       getLevel db1 user levelId = getLevel db2 user levelId
       ∧ ∀ o : gmap string jsval, getLevel db1 user levelId = Reply 200 o →
           o !! "videoPath" = None ∧ ∃ b, o !! "hasVideo" = Some (JBool b)).
Proof.
  intros R Hc Hp Hg Hl. split.
  - intros courseId. unfold getCourseLevels, Payment_findOne, Progress_findOne.
    rewrite R, <- Hc, <- Hp, <- Hg.
    destruct (courses db1 !! courseId) as [course|]; [| done].
    destruct (negb (is_admin student) && negb (is_published (course_state course)));
      [done |].
    split.
    + f_equal. f_equal. apply (map_related sameExceptVideo).
      * intros x y Hxy. by apply levelViewWithLock_student_eq.
      * unfold Level_find_sorted. apply Forall2_sortByNumber.
        { by intros a b (_ & _ & ? & _). }
        apply Forall2_filter_related; [| done].
        intros x y (_ & Hcid & _). by rewrite Hcid.
    + intros body [= <-]. simpl. apply List.Forall_map, List.Forall_forall.
      intros l _.
      destruct (levelViewWithLock_student_hides_path
                  (if (course_price course =? 0)
                      || match payments db1 !! (user_id user, courseId) with
                         | Some p => payment_status_eqb (payment_state p) approved
                         | None => false
                         end
                   then or1 match progresses db1 !! (user_id user, courseId) with
                            | Some p => currentLevel p
                            | None => 0
                            end
                   else 0) l) as [H1 H2].
      split; [exact H1 | eauto].
  - intros levelId. unfold getLevel, Level_findById. rewrite R, <- Hc.
    pose proof (find_related sameExceptVideo (fun l => Nat.eqb (level_id l) levelId)
                  (levels db1) (levels db2)) as Hf.
    destruct (List.find _ (levels db1)) as [l1|];
      destruct (List.find _ (levels db2)) as [l2|];
      try (exfalso; apply Hf; [by intros x y (-> & _) | done]).
    + assert (sameExceptVideo l1 l2) as H12
        by (apply Hf; [by intros x y (-> & _) | done]).
      destruct H12 as (Hid & Hcid & Hrest). rewrite <- Hcid.
      destruct (negb (is_admin student) && _).
      * split; [done | by intros].
      * split.
        -- f_equal. apply levelView_student_eq. by repeat split; try apply Hrest.
        -- intros o [= <-]. destruct (levelView_student_hides_path l1) as [H1 H2].
           split; [exact H1 | eauto].
    + split; [done | by intros].
Qed.

Lemma C9_video_reference_hidden_witness :
  getCourseLevels seqDb aStudent 20%nat = getCourseLevels seqDbOtherVideos aStudent 20%nat
  ∧ getLevel seqDb aStudent 32%nat = getLevel seqDbOtherVideos aStudent 32%nat.
Proof.
  assert (Forall2 sameExceptVideo (levels seqDb) (levels seqDbOtherVideos)) as Hl.
  { repeat constructor. }
  pose proof (C9_video_reference_hidden seqDb seqDbOtherVideos aStudent
                eq_refl eq_refl eq_refl eq_refl Hl) as [H1 H2].
  split; [apply (H1 20%nat) | apply (H2 32%nat)].
Defined.

(** The same two databases are told apart by an administrator, whose view
    keeps the videoPath property. *)
Lemma admin_view_keeps_path :
  getLevel seqDb anAdmin 32%nat ≠ getLevel seqDbOtherVideos anAdmin 32%nat
  ∧ levelView admin (mkLevel 32%nat 20%nat 2 false (Some "/uploads/videos/two.mp4"))
      !! "videoPath"
    = Some (JStr "/uploads/videos/two.mp4").
Proof.
  split; [| vm_compute; reflexivity].
  intros H. apply (f_equal (fun r => match r with
                                     | Reply _ o => o !! "videoPath"
                                     | Fail _ _ => None
                                     end)) in H.
  vm_compute in H. discriminate.
Qed.

(* ===================================================================== *)
(* Further properties of the handlers                                    *)
(* ===================================================================== *)

(* --------------------------------------------------------------------- *)
(* Entries of a Progress document                                        *)
(* --------------------------------------------------------------------- *)

(* The percentage is a closed binary64 computation; on open terms it stays
   folded. *)
Arguments js_percent : simpl never.
Arguments Math_round : simpl never.

Section FindEntry.
Context {A : Type}.

Lemma findIndex_lookup (f : A → bool) (l : list A) i :
  findIndex f l = Some i → ∃ x, l !! i = Some x ∧ f x = true.
Proof.
  revert i. induction l as [|a l IH]; intros i; simpl; [done |].
  destruct (f a) eqn:Fa.
  - intros [= <-]. eauto.
  - destruct (findIndex f l) as [j|]; simpl; [| done].
    intros [= <-]. by apply IH.
Qed.

Lemma findIndex_find (f : A → bool) (l : list A) :
  match findIndex f l with
  | Some i => l !! i
  | None => None
  end = List.find f l.
Proof.
  induction l as [|a l IH]; simpl; [done |].
  destruct (f a); [done |].
  by destruct (findIndex f l).
Qed.

Lemma find_insert_irrelevant (g : A → bool) (l : list A) i x y :
  l !! i = Some x → g x = false → g y = false →
  List.find g (<[i := y]> l) = List.find g l.
Proof.
  revert i. induction l as [|a l IH]; intros i; [done |].
  destruct i as [|i]; simpl.
  - intros [= ->] Gx Gy. by rewrite Gx, Gy.
  - intros Hi Gx Gy. destruct (g a); [done |]. by apply IH.
Qed.

Lemma find_push_irrelevant (g : A → bool) (l : list A) y :
  g y = false → List.find g (l ++ [y]) = List.find g l.
Proof.
  intros Gy. induction l as [|a l IH]; simpl; [by rewrite Gy |].
  by destruct (g a).
Qed.
End FindEntry.

Lemma existingEntry_find p levelId :
  existingEntry p levelId
  = List.find (fun l => Nat.eqb (lp_levelId l) levelId) (completedLevels p).
Proof. unfold existingEntry, levelIndex. apply findIndex_find. Qed.

(** Writing the entry of one level leaves the entries of the others. *)
Lemma existingEntry_putEntry_ne p levelId other e :
  lp_levelId e = levelId → other ≠ levelId →
  existingEntry (putEntry p levelId e) other = existingEntry p other.
Proof.
  intros He Hne. rewrite !existingEntry_find. unfold putEntry, levelIndex.
  assert (Nat.eqb (lp_levelId e) other = false) as Ge
    by (apply Nat.eqb_neq; congruence).
  destruct (findIndex _ (completedLevels p)) as [i|] eqn:E; simpl.
  - destruct (findIndex_lookup _ _ _ E) as (x & Hx & Fx).
    apply Nat.eqb_eq in Fx.
    apply (find_insert_irrelevant _ _ i x e Hx); [| done].
    apply Nat.eqb_neq. congruence.
  - by apply find_push_irrelevant.
Qed.

Lemma or1_ge x : x ≤ or1 x.
Proof. unfold or1. destruct (Z.eqb_spec x 0); lia. Qed.

Lemma courseCompleted_putEntry p levelId e :
  courseCompleted (putEntry p levelId e) = courseCompleted p.
Proof. unfold putEntry. by destruct (levelIndex p levelId). Qed.

Lemma courseCompleted_calculateProgress p n :
  courseCompleted (calculateProgress p n) = courseCompleted p.
Proof. unfold calculateProgress. by destruct (n =? 0). Qed.

Lemma courseCompleted_markCourseCompleted p n now :
  courseCompleted p = true → courseCompleted (markCourseCompleted p n now) = true.
Proof. unfold markCourseCompleted. by destruct (currentLevel p >? n). Qed.

(** The tail both mutating handlers share: calculateProgress, then the
    completion block.  It keeps the entries and currentLevel, and never
    clears courseCompleted. *)
Lemma finish_keeps p n now :
  let q := markCourseCompleted (calculateProgress p n) n now in
  completedLevels q = completedLevels p
  ∧ currentLevel q = currentLevel p
  ∧ (courseCompleted p = true → courseCompleted q = true).
Proof.
  simpl. rewrite completedLevels_markCourseCompleted, completedLevels_calculateProgress,
    currentLevel_markCourseCompleted, currentLevel_calculateProgress.
  split; [done |]. split; [done |]. intros H.
  apply courseCompleted_markCourseCompleted. by rewrite courseCompleted_calculateProgress.
Qed.

(* --------------------------------------------------------------------- *)
(* progress_kept                                                         *)
(* --------------------------------------------------------------------- *)

Lemma progress_kept_refl db : progress_kept db db.
Proof. intros k p H. exists p. split; [done |]. split; [lia | done]. Qed.

Lemma progress_kept_trans db1 db2 db3 :
  progress_kept db1 db2 → progress_kept db2 db3 → progress_kept db1 db3.
Proof.
  intros H12 H23 k p Hp.
  destruct (H12 k p Hp) as (p2 & Hp2 & Hle2 & Hc2).
  destruct (H23 k p2 Hp2) as (p3 & Hp3 & Hle3 & Hc3).
  exists p3. split; [done |]. split; [lia | auto].
Qed.

Lemma progress_kept_ensureProgress db u c now :
  progress_kept db (snd (ensureProgress db u c now)).
Proof.
  unfold ensureProgress, Progress_findOne.
  destruct (progresses db !! (u, c)) as [p|] eqn:E; simpl; [apply progress_kept_refl |].
  intros k q Hq. exists q. simpl.
  rewrite lookup_insert_ne by congruence.
  split; [done |]. split; [lia | done].
Qed.

Lemma progress_kept_store db u c p p' :
  Progress_findOne db u c = Some p →
  currentLevel p ≤ currentLevel p' →
  (courseCompleted p = true → courseCompleted p' = true) →
  progress_kept db (set_progresses db (<[(u, c) := p']> (progresses db))).
Proof.
  unfold Progress_findOne. intros Hp Hle Hc k q Hq. simpl.
  destruct (decide (k = (u, c))) as [-> | Hk].
  - rewrite lookup_insert_eq. exists p'. rewrite Hp in Hq. injection Hq as <-. done.
  - rewrite lookup_insert_ne by done. exists q. split; [done |]. split; [lia | done].
Qed.

(* --------------------------------------------------------------------- *)
(* The shape of a saved mutation                                         *)
(* --------------------------------------------------------------------- *)

(** A 200 from POST /progress/level-complete, taken apart: the level, the
    Progress document the handler read, the entry it wrote and the document
    it saved. *)
Lemma levelComplete_shape db user req now p' db' :
  levelComplete db user req now = (Reply 200 p', db') →
  ∃ level progress db1 entry,
    Level_findById db (lc_levelId req) = Some level
    ∧ ensureProgress db (user_id user) (lc_courseId req) now = (progress, db1)
    ∧ levelNumber level ≤ or1 (currentLevel progress)
    ∧ lp_levelId entry = lc_levelId req
    ∧ quizAttempts entry
      = match existingEntry progress (lc_levelId req) with
        | Some e => quizAttempts e
        | None => 0
        end
    ∧ videoWatchedPercent entry = Z.min 100 (default 0 (lc_videoWatchedPercent req))
    ∧ completed entry
      = (if quizEnabled level then lc_quizPassed req
         else videoWatchedPercent entry >=? 90)
    ∧ (let p1 := putEntry progress (lc_levelId req) entry in
       let p2 := if negb (quizEnabled level) && (videoWatchedPercent entry >=? 90)
                 then unlockNext p1 (levelNumber level) else p1 in
       let total := Level_countDocuments db (lc_courseId req) in
       p' = with_lastAccessedAt
              (markCourseCompleted (calculateProgress p2 total) total now) now)
    ∧ db' = set_progresses db1
              (<[(user_id user, lc_courseId req) := p']> (progresses db1)).
Proof.
  unfold levelComplete.
  destruct (Level_findById db (lc_levelId req)) as [level|]; [| done].
  destruct (negb _); [done |].
  destruct (checkCourseAccess db user (lc_courseId req)) as [[course|] [|]]; try done.
  pose proof (Level_countDocuments_ensureProgress db (user_id user) (lc_courseId req)
                now (lc_courseId req)) as Hn.
  destruct (ensureProgress db (user_id user) (lc_courseId req) now)
    as [progress db1] eqn:E.
  simpl in Hn. rewrite Hn.
  destruct (Z.gtb_spec (levelNumber level) (or1 (currentLevel progress))); [done |].
  unfold Progress_save. destruct (Progress_valid _); [| done].
  intros [= <- <-].
  match goal with
  | |- context [putEntry progress _ ?e] => exists level, progress, db1, e
  end.
  split; [done |]. split; [done |]. split; [lia |].
  split; [reflexivity |]. split; [reflexivity |]. split; [reflexivity |].
  split; [reflexivity |]. split; reflexivity.
Qed.

(** Any other answer of level-complete leaves the database as it was, or as
    ensureProgress left it. *)
Lemma levelComplete_refused db user req now code msg :
  fst (levelComplete db user req now) = Fail code msg →
  snd (levelComplete db user req now) = db
  ∨ snd (levelComplete db user req now)
    = snd (ensureProgress db (user_id user) (lc_courseId req) now).
Proof.
  unfold levelComplete.
  destruct (Level_findById db (lc_levelId req)) as [level|]; [| by left].
  destruct (negb _); [by left |].
  destruct (checkCourseAccess db user (lc_courseId req)) as [[course|] [|]];
    try by left.
  destruct (ensureProgress db (user_id user) (lc_courseId req) now)
    as [progress db1] eqn:E.
  destruct (_ >? _); [by right |].
  destruct (Progress_save _ _ _ _); [done | by right].
Qed.

(** A 200 from POST /quizzes/:id/submit, taken apart. *)
Lemma quizSubmit_shape db user quizId answers now body db' :
  quizSubmit db user quizId answers now = (Reply 200 body, db') →
  ∃ quiz level course progress db1 entry,
    quizSubmitGuards db user quizId = Reply 200 (quiz, level, course)
    ∧ ensureProgress db (user_id user) (quiz_courseId quiz) now = (progress, db1)
    ∧ lp_levelId entry = level_id level
    ∧ quizAttempts entry
      = match existingEntry progress (level_id level) with
        | Some e => quizAttempts e
        | None => 0
        end + 1
    ∧ quizAttempts entry = qo_attemptsUsed body
    ∧ quizPassed entry = qo_passed body
    ∧ completed entry
      = qo_passed body
        && match existingEntry progress (level_id level) with
           | Some e => videoWatchedPercent e >=? 90
           | None => false
           end
    ∧ (user_role user = student → quizAttempts entry ≤ maxAttempts quiz)
    ∧ qo_maxAttempts body = maxAttempts quiz
    ∧ qo_canRetry body
      = negb (qo_passed body) && (qo_attemptsUsed body <? maxAttempts quiz)
    ∧ (let p1 := putEntry progress (level_id level) entry in
       let p2 := if completed entry then unlockNext p1 (levelNumber level) else p1 in
       let total := Level_countDocuments db (quiz_courseId quiz) in
       qo_progress body = markCourseCompleted (calculateProgress p2 total) total now)
    ∧ db' = set_progresses db1
              (<[(user_id user, quiz_courseId quiz) := qo_progress body]>
                 (progresses db1)).
Proof.
  unfold quizSubmit.
  destruct (quizSubmitGuards db user quizId) as [code [[quiz level] course]|] eqn:G;
    [| done].
  pose proof (Level_countDocuments_ensureProgress db (user_id user) (quiz_courseId quiz)
                now (quiz_courseId quiz)) as Hn.
  destruct (ensureProgress db (user_id user) (quiz_courseId quiz) now)
    as [progress db1] eqn:E.
  simpl in Hn.
  destruct (negb (is_admin (user_role user)) && _) eqn:L; [done |].
  unfold quizSubmitGrade. rewrite Hn.
  generalize (js_percent (correctCountOf (buildAnswerMap answers) (questions quiz))
                (Z.of_nat (length (questions quiz)))).
  intros score.
  unfold Progress_save. destruct (Progress_valid _); [| done].
  intros [= <- <-]. simpl.
  assert (code = 200) as ->.
  { unfold quizSubmitGuards in G. repeat case_match; congruence. }
  match goal with
  | |- context [putEntry progress _ ?e] => exists quiz, level, course, progress, db1, e
  end.
  split; [done |]. split; [done |].
  split; [reflexivity |]. split; [reflexivity |]. split; [reflexivity |].
  split; [reflexivity |]. split; [reflexivity |].
  split; [| split; [reflexivity |]; split; [reflexivity |]; split; reflexivity ].
  intros R. rewrite R in L. simpl in L.
  cbn [quizAttempts].
  destruct (Z.geb_spec
              match existingEntry progress (level_id level) with
              | Some e => quizAttempts e
              | None => 0
              end (maxAttempts quiz)); [done | lia].
Qed.

(** Any other answer of the quiz handler leaves the database as it was, or
    as the lazy creation of the Progress document left it. *)
Lemma quizSubmit_refused db user quizId answers now code msg :
  fst (quizSubmit db user quizId answers now) = Fail code msg →
  snd (quizSubmit db user quizId answers now) = db
  ∨ ∃ quiz level course,
      quizSubmitGuards db user quizId = Reply 200 (quiz, level, course)
      ∧ snd (quizSubmit db user quizId answers now)
        = snd (ensureProgress db (user_id user) (quiz_courseId quiz) now).
Proof.
  unfold quizSubmit.
  destruct (quizSubmitGuards db user quizId) as [code' [[quiz level] course]|] eqn:G;
    [| by left].
  assert (code' = 200) as ->.
  { unfold quizSubmitGuards in G. repeat case_match; congruence. }
  destruct (ensureProgress db (user_id user) (quiz_courseId quiz) now)
    as [progress db1] eqn:E.
  assert (∀ d : Db, d = db1 →
            d = db ∨ ∃ quiz0 level0 course0,
              Reply 200 (quiz, level, course) = Reply 200 (quiz0, level0, course0)
              ∧ d = snd (ensureProgress db (user_id user) (quiz_courseId quiz0) now))
    as Hdb1.
  { intros d ->. right. exists quiz, level, course. by rewrite E. }
  destruct (negb (is_admin (user_role user)) && _); [intros _; by apply Hdb1 |].
  unfold quizSubmitGrade. cbv zeta.
  generalize (js_percent (correctCountOf (buildAnswerMap answers) (questions quiz))
                (Z.of_nat (length (questions quiz)))).
  intros score. unfold Progress_save.
  match goal with
  | |- context [Progress_valid ?p] => destruct (Progress_valid p)
  end; [done |].
  intros _. by apply Hdb1.
Qed.

Lemma levelComplete_code db user req now code p' db' :
  levelComplete db user req now = (Reply code p', db') → code = 200.
Proof.
  unfold levelComplete. repeat case_match; congruence.
Qed.

Lemma quizSubmit_code db user quizId answers now code body db' :
  quizSubmit db user quizId answers now = (Reply code body, db') → code = 200.
Proof.
  unfold quizSubmit.
  destruct (quizSubmitGuards db user quizId) as [c [[quiz level] course]|]; [| done].
  destruct (ensureProgress _ _ _ _) as [progress db1].
  destruct (negb _ && _); [done |].
  unfold quizSubmitGrade. cbv zeta.
  generalize (js_percent (correctCountOf (buildAnswerMap answers) (questions quiz))
                (Z.of_nat (length (questions quiz)))).
  intros score. unfold Progress_save.
  match goal with
  | |- context [Progress_valid ?p] => destruct (Progress_valid p)
  end; congruence.
Qed.

Lemma advance_keeps (b : bool) p1 n :
  let p2 := if b then unlockNext p1 n else p1 in
  currentLevel p1 ≤ currentLevel p2
  ∧ courseCompleted p2 = courseCompleted p1
  ∧ completedLevels p2 = completedLevels p1.
Proof.
  pose proof (or1_ge (currentLevel p1)).
  destruct b; simpl; (split; [lia | done]).
Qed.

(** The document a mutation saves, compared with the one it read: the entry
    of the level is the one written, the other entries are the old ones,
    currentLevel has not decreased, courseCompleted has not been cleared. *)
Lemma saved_document_keeps progress levelId entry (b : bool) n total now :
  lp_levelId entry = levelId →
  let p1 := putEntry progress levelId entry in
  let p2 := if b then unlockNext p1 n else p1 in
  let q := markCourseCompleted (calculateProgress p2 total) total now in
  existingEntry q levelId = Some entry
  ∧ (∀ other, other ≠ levelId → existingEntry q other = existingEntry progress other)
  ∧ currentLevel progress ≤ currentLevel q
  ∧ currentLevel q = (if b then Z.max (or1 (currentLevel progress)) (n + 1)
                      else currentLevel progress)
  ∧ (courseCompleted progress = true → courseCompleted q = true).
Proof.
  intros He p1 p2 q.
  destruct (finish_keeps p2 total now) as (Hl & Hc & Hd). fold q in Hl, Hc, Hd.
  destruct (advance_keeps b p1 n) as (Hle & Hcc & Hll). fold p2 in Hle, Hcc, Hll.
  assert (completedLevels q = completedLevels p1) as Hq by congruence.
  assert (currentLevel p1 = currentLevel progress) as Hp1
    by apply currentLevel_putEntry.
  split; [rewrite (existingEntry_ext q p1 _ Hq); by apply existingEntry_putEntry |].
  split.
  { intros other Hne. rewrite (existingEntry_ext q p1 _ Hq).
    by apply existingEntry_putEntry_ne. }
  split; [lia |].
  split.
  { rewrite Hc. unfold p2. destruct b; simpl; by rewrite Hp1. }
  intros H. apply Hd. rewrite Hcc. unfold p1. by rewrite courseCompleted_putEntry.
Qed.

Lemma existingEntry_with_lastAccessedAt p t levelId :
  existingEntry (with_lastAccessedAt p t) levelId = existingEntry p levelId.
Proof. by apply existingEntry_ext. Qed.

(* --------------------------------------------------------------------- *)
(* Progress is never lost                                                *)
(* --------------------------------------------------------------------- *)

Lemma progress_kept_levelComplete db user req now :
  progress_kept db (snd (levelComplete db user req now)).
Proof.
  destruct (levelComplete db user req now) as [[code p' | code msg] db'] eqn:E.
  - pose proof (levelComplete_code _ _ _ _ _ _ _ E) as ->.
    destruct (levelComplete_shape _ _ _ _ _ _ E)
      as (level & progress & db1 & entry & _ & He & _ & Hid & _ & _ & _ & Hp & ->).
    simpl.
    apply (progress_kept_trans _ db1).
    { replace db1 with (snd (ensureProgress db (user_id user) (lc_courseId req) now))
        by (by rewrite He). apply progress_kept_ensureProgress. }
    pose proof (ensureProgress_lookup db (user_id user) (lc_courseId req) now) as Hl.
    rewrite He in Hl. simpl in Hl.
    destruct (saved_document_keeps progress (lc_levelId req) entry
                (negb (quizEnabled level) && (videoWatchedPercent entry >=? 90))
                (levelNumber level) (Level_countDocuments db (lc_courseId req)) now Hid)
      as (_ & _ & Hle & _ & Hc).
    cbv zeta in Hp.
    apply (progress_kept_store db1 _ _ progress p' Hl); rewrite Hp;
      cbn [currentLevel courseCompleted with_lastAccessedAt]; done.
  - pose proof (levelComplete_refused db user req now code msg) as H.
    rewrite E in H. simpl in *. destruct (H eq_refl) as [-> | ->].
    + apply progress_kept_refl.
    + apply progress_kept_ensureProgress.
Qed.

Lemma progress_kept_quizSubmit db user quizId answers now :
  progress_kept db (snd (quizSubmit db user quizId answers now)).
Proof.
  destruct (quizSubmit db user quizId answers now) as [[code body | code msg] db'] eqn:E.
  - pose proof (quizSubmit_code _ _ _ _ _ _ _ _ E) as ->.
    destruct (quizSubmit_shape _ _ _ _ _ _ _ E)
      as (quiz & level & course & progress & db1 & entry & _ & He & Hid & _ & _ & _
          & _ & _ & _ & _ & Hp & ->).
    simpl.
    apply (progress_kept_trans _ db1).
    { replace db1 with (snd (ensureProgress db (user_id user) (quiz_courseId quiz) now))
        by (by rewrite He). apply progress_kept_ensureProgress. }
    pose proof (ensureProgress_lookup db (user_id user) (quiz_courseId quiz) now) as Hl.
    rewrite He in Hl. simpl in Hl.
    destruct (saved_document_keeps progress (level_id level) entry (completed entry)
                (levelNumber level) (Level_countDocuments db (quiz_courseId quiz)) now Hid)
      as (_ & _ & Hle & _ & Hc).
    cbv zeta in Hp.
    apply (progress_kept_store db1 _ _ progress (qo_progress body) Hl);
      rewrite Hp; done.
  - pose proof (quizSubmit_refused db user quizId answers now code msg) as H.
    rewrite E in H. simpl in *.
    destruct (H eq_refl) as [-> | (quiz & level & course & _ & ->)].
    + apply progress_kept_refl.
    + apply progress_kept_ensureProgress.
Qed.

Lemma progress_kept_streamAuthorize db user levelId now :
  progress_kept db (snd (streamAuthorize db user levelId now)).
Proof.
  unfold streamAuthorize.
  destruct (Level_findById db levelId) as [level|]; [| apply progress_kept_refl].
  destruct (negb (hasVideoRef _)); [apply progress_kept_refl |].
  destruct (courses db !! level_courseId level) as [course|];
    [| apply progress_kept_refl].
  destruct (negb _ && negb _); [apply progress_kept_refl |].
  destruct (negb _); [apply progress_kept_refl |].
  destruct (is_admin (user_role user)); [apply progress_kept_refl |].
  pose proof (progress_kept_ensureProgress db (user_id user) (level_courseId level) now)
    as Hk.
  pose proof (ensureProgress_lookup db (user_id user) (level_courseId level) now) as Hl.
  destruct (ensureProgress db (user_id user) (level_courseId level) now)
    as [progress db1].
  simpl in Hk, Hl.
  destruct (_ >? _); [exact Hk |]. simpl.
  apply (progress_kept_trans _ db1 _ Hk).
  apply (progress_kept_store db1 _ _ progress _ Hl); simpl; [lia | done].
Qed.

(** No handler a learner can call loses progress: after POST
    /progress/level-complete, POST /quizzes/:id/submit, GET
    /levels/:id/stream, GET /progress/course/:courseId and its next-level,
    whatever they answer, every Progress document that was stored is still
    stored, its currentLevel has not decreased and a courseCompleted flag
    that was set is still set. *)
Theorem progress_never_regresses db user now :
  (∀ req, progress_kept db (snd (levelComplete db user req now)))
  ∧ (∀ quizId answers, progress_kept db (snd (quizSubmit db user quizId answers now)))
  ∧ (∀ files levelId range,
       progress_kept db (snd (streamLevel db files user levelId range now)))
  ∧ (∀ courseId,
       progress_kept db (snd (getCourseProgress db user courseId now))
       ∧ progress_kept db (snd (getNextLevel db user courseId now))).
Proof.
  split; [intros; apply progress_kept_levelComplete |].
  split; [intros; apply progress_kept_quizSubmit |].
  split.
  - intros files levelId range. unfold streamLevel.
    pose proof (progress_kept_streamAuthorize db user levelId now) as H.
    destruct (streamAuthorize db user levelId now) as [[code level | code msg] db1];
      simpl in *; [| done].
    by destruct (isRemoteUrl _).
  - intros courseId. unfold getCourseProgress, getNextLevel.
    destruct (checkCourseAccess db user courseId) as [[course|] [|]];
      try (split; apply progress_kept_refl).
    pose proof (progress_kept_ensureProgress db (user_id user) courseId now) as Hk.
    destruct (ensureProgress db (user_id user) courseId now) as [progress db1].
    simpl in Hk. split; [done |].
    by destruct (Level_findOne_number _ _ _).
Qed.

(* --------------------------------------------------------------------- *)
(* POST /progress/level-complete: one step at a time                     *)
(* --------------------------------------------------------------------- *)

(** A saved level-complete moves the frontier by at most one level, and not
    at all for a level with a quiz or a video watched below 90%. *)
Theorem levelComplete_single_step db user req now p' db' :
  levelComplete db user req now = (Reply 200 p', db') →
  ∃ level,
    Level_findById db (lc_levelId req) = Some level
    ∧ levelNumber level ≤ unlockFrontier db (user_id user) (lc_courseId req)
    ∧ currentLevel p' ≤ unlockFrontier db (user_id user) (lc_courseId req) + 1
    ∧ (quizEnabled level = true
       ∨ Z.min 100 (default 0 (lc_videoWatchedPercent req)) < 90 →
       currentLevel p'
       = currentLevel (fst (ensureProgress db (user_id user) (lc_courseId req) now))).
Proof.
  intros E.
  destruct (levelComplete_shape _ _ _ _ _ _ E)
    as (level & progress & db1 & entry & Hl & He & Hn & Hid & _ & Hv & _ & Hp & _).
  pose proof (unlockFrontier_ensureProgress db (user_id user) (lc_courseId req) now)
    as Hf.
  rewrite He in *. simpl in Hf. rewrite <- Hf.
  destruct (saved_document_keeps progress (lc_levelId req) entry
              (negb (quizEnabled level) && (videoWatchedPercent entry >=? 90))
              (levelNumber level) (Level_countDocuments db (lc_courseId req)) now Hid)
    as (_ & _ & _ & Hc & _).
  cbv zeta in Hp.
  assert (currentLevel p'
          = if negb (quizEnabled level) && (videoWatchedPercent entry >=? 90)
            then Z.max (or1 (currentLevel progress)) (levelNumber level + 1)
            else currentLevel progress) as Hcur.
  { rewrite Hp. cbn [currentLevel with_lastAccessedAt]. exact Hc. }
  pose proof (or1_ge (currentLevel progress)).
  exists level. split; [done |]. split; [done |]. split.
  - rewrite Hcur. destruct (negb _ && _); lia.
  - intros Hq. rewrite Hcur. simpl. rewrite Hv.
    destruct Hq as [-> | Hlt]; [done |].
    destruct (Z.geb_spec (Z.min 100 (default 0 (lc_videoWatchedPercent req))) 90);
      [lia |].
    by rewrite andb_false_r.
Qed.

Lemma levelComplete_single_step_witness :
  ∃ level,
    Level_findById seqDb (lc_levelId level1Req) = Some level
    ∧ levelNumber level ≤ unlockFrontier seqDb (user_id aStudent) (lc_courseId level1Req)
    ∧ 2 ≤ unlockFrontier seqDb (user_id aStudent) (lc_courseId level1Req) + 1
    ∧ (quizEnabled level = true
       ∨ Z.min 100 (default 0 (lc_videoWatchedPercent level1Req)) < 90 →
       2 = currentLevel
             (fst (ensureProgress seqDb (user_id aStudent) (lc_courseId level1Req) 3000))).
Proof.
  refine (levelComplete_single_step seqDb aStudent level1Req 3000
            {| progress_id := 90%nat;
               completedLevels :=
                 [ {| lp_levelId := 31%nat; completed := true; completedAt := Some 3000;
                      quizScore := 0; quizPassed := false; quizAttempts := 0;
                      videoWatchedPercent := 100 |} ];
               currentLevel := 2; totalProgress := 33; courseCompleted := false;
               courseCompletedAt := None; lastAccessedAt := 3000 |}
            _ _).
  vm_compute. reflexivity.
Defined.

(** level-complete never changes an attempt counter: whatever it answers,
    the stored quizAttempts of the caller is the same afterwards for every
    level of the course, the level of the request included. *)
Theorem levelComplete_keeps_attempts db user req now levelId :
  storedAttempts (snd (levelComplete db user req now))
    (user_id user) (lc_courseId req) levelId
  = storedAttempts db (user_id user) (lc_courseId req) levelId.
Proof.
  destruct (levelComplete db user req now) as [[code p' | code msg] db'] eqn:E.
  - pose proof (levelComplete_code _ _ _ _ _ _ _ E) as ->.
    destruct (levelComplete_shape _ _ _ _ _ _ E)
      as (level & progress & db1 & entry & _ & He & _ & Hid & Ha & _ & _ & Hp & ->).
    simpl.
    pose proof (storedAttempts_fst_ensureProgress db (user_id user) (lc_courseId req)
                  now) as Hb.
    rewrite He in Hb. simpl in Hb.
    destruct (saved_document_keeps progress (lc_levelId req) entry
                (negb (quizEnabled level) && (videoWatchedPercent entry >=? 90))
                (levelNumber level) (Level_countDocuments db (lc_courseId req)) now Hid)
      as (Hsame & Hother & _).
    cbv zeta in Hp.
    unfold storedAttempts at 1. unfold Progress_findOne. simpl.
    rewrite lookup_insert_eq. rewrite Hp, existingEntry_with_lastAccessedAt.
    destruct (decide (levelId = lc_levelId req)) as [-> | Hne].
    + rewrite Hsame, Ha. apply Hb.
    + rewrite (Hother levelId Hne). apply Hb.
  - pose proof (levelComplete_refused db user req now code msg) as H.
    rewrite E in H. simpl in *. destruct (H eq_refl) as [-> | ->]; [done |].
    apply ensureProgress_storedAttempts.
Qed.

(* --------------------------------------------------------------------- *)
(* What a learner's request cannot touch                                 *)
(* --------------------------------------------------------------------- *)

(** [db'] differs from [db] at most in the Progress documents of [userId]
    (and the id counter). *)
Lemma only_own_progress_refl db userId :
  only_progress_changed db db
  ∧ ∀ k, fst k ≠ userId → progresses db !! k = progresses db !! k.
Proof. by repeat split. Qed.

Lemma ensureProgress_frame db u c now :
  only_progress_changed db (snd (ensureProgress db u c now))
  ∧ ∀ k, fst k ≠ u →
         progresses (snd (ensureProgress db u c now)) !! k = progresses db !! k.
Proof.
  unfold ensureProgress. destruct (Progress_findOne db u c); simpl.
  - by repeat split.
  - split; [by repeat split |]. intros k Hk.
    apply lookup_insert_ne. intros <-. done.
Qed.

Lemma store_frame db db1 u c p :
  (only_progress_changed db db1 ∧ ∀ k, fst k ≠ u → progresses db1 !! k = progresses db !! k) →
  only_progress_changed db (set_progresses db1 (<[(u, c) := p]> (progresses db1)))
  ∧ ∀ k, fst k ≠ u →
         progresses (set_progresses db1 (<[(u, c) := p]> (progresses db1))) !! k
         = progresses db !! k.
Proof.
  intros [H1 H2]. split; [exact H1 |]. intros k Hk. simpl.
  rewrite lookup_insert_ne by (intros <-; done). by apply H2.
Qed.

(** A learner-facing request changes nothing but Progress documents of the
    caller: the courses, levels, payments and quizzes are the same
    afterwards, and so is every Progress document of every other user. *)
Theorem learner_requests_touch_own_progress_only db user now :
  let untouched db' :=
    only_progress_changed db db'
    ∧ ∀ k, fst k ≠ user_id user → progresses db' !! k = progresses db !! k in
  (∀ req, untouched (snd (levelComplete db user req now)))
  ∧ (∀ quizId answers, untouched (snd (quizSubmit db user quizId answers now)))
  ∧ (∀ files levelId range,
       untouched (snd (streamLevel db files user levelId range now)))
  ∧ (∀ courseId,
       untouched (snd (getCourseProgress db user courseId now))
       ∧ untouched (snd (getNextLevel db user courseId now))).
Proof.
  intros untouched. subst untouched. cbv beta.
  split; [| split; [| split]].
  - intros req.
    destruct (levelComplete db user req now) as [[code p' | code msg] db'] eqn:E.
    + pose proof (levelComplete_code _ _ _ _ _ _ _ E) as ->.
      destruct (levelComplete_shape _ _ _ _ _ _ E)
        as (level & progress & db1 & entry & _ & He & _ & _ & _ & _ & _ & _ & ->).
      simpl. apply store_frame.
      replace db1 with (snd (ensureProgress db (user_id user) (lc_courseId req) now))
        by (by rewrite He). apply ensureProgress_frame.
    + pose proof (levelComplete_refused db user req now code msg) as H.
      rewrite E in H. simpl in *. destruct (H eq_refl) as [-> | ->].
      * apply only_own_progress_refl.
      * apply ensureProgress_frame.
  - intros quizId answers.
    destruct (quizSubmit db user quizId answers now) as [[code body | code msg] db'] eqn:E.
    + pose proof (quizSubmit_code _ _ _ _ _ _ _ _ E) as ->.
      destruct (quizSubmit_shape _ _ _ _ _ _ _ E)
        as (quiz & level & course & progress & db1 & entry & _ & He & _ & _ & _ & _
            & _ & _ & _ & _ & _ & ->).
      simpl. apply store_frame.
      replace db1 with (snd (ensureProgress db (user_id user) (quiz_courseId quiz) now))
        by (by rewrite He). apply ensureProgress_frame.
    + pose proof (quizSubmit_refused db user quizId answers now code msg) as H.
      rewrite E in H. simpl in *.
      destruct (H eq_refl) as [-> | (quiz & level & course & _ & ->)].
      * apply only_own_progress_refl.
      * apply ensureProgress_frame.
  - intros files levelId range.
    assert (snd (streamLevel db files user levelId range now)
            = snd (streamAuthorize db user levelId now)) as ->.
    { unfold streamLevel.
      destruct (streamAuthorize db user levelId now) as [[code level | code msg] db1];
        simpl; [by destruct (isRemoteUrl _) | done]. }
    unfold streamAuthorize.
    destruct (Level_findById db levelId) as [level|];
      [| apply only_own_progress_refl].
    destruct (negb (hasVideoRef _)); [apply only_own_progress_refl |].
    destruct (courses db !! level_courseId level) as [course|];
      [| apply only_own_progress_refl].
    destruct (negb _ && negb _); [apply only_own_progress_refl |].
    destruct (negb _); [apply only_own_progress_refl |].
    destruct (is_admin (user_role user)); [apply only_own_progress_refl |].
    pose proof (ensureProgress_frame db (user_id user) (level_courseId level) now) as Hf.
    destruct (ensureProgress db (user_id user) (level_courseId level) now)
      as [progress db1].
    simpl in Hf. destruct (_ >? _); [exact Hf |]. simpl.
    by apply store_frame.
  - intros courseId. unfold getCourseProgress, getNextLevel.
    destruct (checkCourseAccess db user courseId) as [[course|] [|]];
      try (split; apply only_own_progress_refl).
    pose proof (ensureProgress_frame db (user_id user) courseId now) as Hf.
    destruct (ensureProgress db (user_id user) courseId now) as [progress db1].
    simpl in Hf. split; [done |].
    by destruct (Level_findOne_number _ _ _).
Qed.

(* --------------------------------------------------------------------- *)
(* Quiz attempts: what canRetry promises                                 *)
(* --------------------------------------------------------------------- *)

Lemma quizSubmitGuards_ext db db' user quizId :
  only_progress_changed db db' →
  quizSubmitGuards db' user quizId = quizSubmitGuards db user quizId.
Proof.
  intros (Hc & Hl & Hp & Hq).
  unfold quizSubmitGuards, Level_findById, Payment_findOne_approved.
  by rewrite Hc, Hl, Hp, Hq.
Qed.

(** After a saved submission by a learner, the next submission for the same
    quiz is refused for the attempt limit exactly when the counter the reply
    showed has reached maxAttempts; in particular it is not refused when the
    reply said canRetry, and it is refused (and nothing is written) once
    attemptsUsed = maxAttempts. *)
Theorem quizSubmit_next_attempt db user quizId answers now body db' :
  user_role user = student →
  quizSubmit db user quizId answers now = (Reply 200 body, db') →
  ∀ answers' now',
    let next := quizSubmit db' user quizId answers' now' in
    (qo_attemptsUsed body < qo_maxAttempts body →
     fst next ≠ Fail 400 "Maximum attempts reached for this quiz")
    ∧ (qo_canRetry body = true → qo_attemptsUsed body < qo_maxAttempts body)
    ∧ (qo_maxAttempts body ≤ qo_attemptsUsed body →
       next = (Fail 400 "Maximum attempts reached for this quiz", db')).
Proof.
  intros R E answers' now' next. subst next.
  destruct (quizSubmit_shape _ _ _ _ _ _ _ E)
    as (quiz & level & course & progress & db1 & entry & Hg & He & Hid & _ & Hused & _
        & _ & _ & Hmax & Hretry & Hp & Hdb).
  destruct (saved_document_keeps progress (level_id level) entry (completed entry)
              (levelNumber level) (Level_countDocuments db (quiz_courseId quiz)) now Hid)
    as (Hentry & _).
  cbv zeta in Hp. rewrite <- Hp in Hentry.
  assert (only_progress_changed db db') as Hframe.
  { rewrite Hdb.
    apply (store_frame db db1 (user_id user) (quiz_courseId quiz) (qo_progress body)).
    replace db1 with (snd (ensureProgress db (user_id user) (quiz_courseId quiz) now))
      by (by rewrite He). apply ensureProgress_frame. }
  assert (ensureProgress db' (user_id user) (quiz_courseId quiz) now'
          = (qo_progress body, db')) as He'.
  { apply ensureProgress_existing. rewrite Hdb. unfold Progress_findOne. simpl.
    apply lookup_insert_eq. }
  rewrite Hmax.
  split; [| split].
  - intros Hlt. unfold quizSubmit.
    rewrite (quizSubmitGuards_ext db db' user quizId Hframe), Hg, He', Hentry, Hused, R.
    simpl. destruct (Z.geb_spec (qo_attemptsUsed body) (maxAttempts quiz)); [lia |].
    destruct (quizSubmitGrade_outcome db' user quiz level (qo_progress body) answers' now')
      as [-> | (b & -> & _)]; simpl; discriminate.
  - rewrite Hretry. intros [_ H]%andb_true_iff. by apply Z.ltb_lt.
  - intros Hge. unfold quizSubmit.
    rewrite (quizSubmitGuards_ext db db' user quizId Hframe), Hg, He', Hentry, Hused, R.
    simpl. destruct (Z.geb_spec (qo_attemptsUsed body) (maxAttempts quiz)); [done | lia].
Qed.

Lemma quizSubmit_next_attempt_witness :
  ∃ body db',
    quizSubmit seqDb aStudent 50%nat rightAnswer 1000 = (Reply 200 body, db')
    ∧ (qo_attemptsUsed body < qo_maxAttempts body →
       fst (quizSubmit db' aStudent 50%nat [] 2000)
       ≠ Fail 400 "Maximum attempts reached for this quiz").
Proof.
  eexists _, _.
  assert (∀ (A B : Prop), A → (A → B) → A ∧ B) as both by tauto.
  apply both; [vm_compute; reflexivity |]. intros E.
  exact (proj1 (quizSubmit_next_attempt seqDb aStudent 50%nat rightAnswer 1000 _ _
                  eq_refl E [] 2000)).
Defined.

(* --------------------------------------------------------------------- *)
(* Grading reads the last answer given to each question                  *)
(* --------------------------------------------------------------------- *)

Lemma buildAnswerMap_snoc answers item :
  buildAnswerMap (answers ++ [item])
  = match ans_questionId item with
    | None => buildAnswerMap answers
    | Some q => <[q := default (-1) (ans_selected item)]> (buildAnswerMap answers)
    end.
Proof. unfold buildAnswerMap. by rewrite fold_left_app. Qed.

Lemma lastAnswerFor_snoc q answers item :
  lastAnswerFor q (answers ++ [item])
  = if match ans_questionId item with
       | Some q' => Nat.eqb q' q
       | None => false
       end
    then Some item else lastAnswerFor q answers.
Proof. unfold lastAnswerFor. by rewrite rev_app_distr. Qed.

Lemma buildAnswerMap_lookup answers q :
  buildAnswerMap answers !! q
  = (fun item => default (-1) (ans_selected item)) <$> lastAnswerFor q answers.
Proof.
  induction answers as [|item answers IH] using rev_ind; [done |].
  rewrite buildAnswerMap_snoc, lastAnswerFor_snoc.
  destruct (ans_questionId item) as [q'|]; [| done].
  destruct (Nat.eqb_spec q' q) as [-> | Hne].
  - by rewrite lookup_insert_eq.
  - by rewrite lookup_insert_ne.
Qed.

Lemma isCorrect_answeredCorrectly answers q :
  isCorrect (buildAnswerMap answers) q = answeredCorrectly answers q.
Proof.
  unfold isCorrect, selectedAnswerOf, answeredCorrectly.
  rewrite buildAnswerMap_lookup.
  destruct (lastAnswerFor (question_id q) answers) as [item|]; simpl; [| done].
  destruct (ans_selected item) as [a|]; simpl; [| done].
  by destruct (0 <=? a).
Qed.

Lemma quizSubmit_results db user quizId answers now quiz body db' :
  quizzes db !! quizId = Some quiz →
  quizSubmit db user quizId answers now = (Reply 200 body, db') →
  qo_results body = List.map (gradeQuestion (buildAnswerMap answers)) (questions quiz)
  ∧ qo_correctAnswers body = correctCountOf (buildAnswerMap answers) (questions quiz)
  ∧ qo_totalQuestions body = Z.of_nat (length (questions quiz))
  ∧ questions quiz ≠ [].
Proof.
  intros Hq. unfold quizSubmit.
  destruct (quizSubmitGuards db user quizId) as [code [[quiz' level] course]|] eqn:G;
    [| done].
  assert (quiz' = quiz ∧ questions quiz ≠ []) as [-> Hne].
  { unfold quizSubmitGuards in G. rewrite Hq in G.
    destruct (negb _ && negb _); [done |].
    destruct (questions quiz) eqn:Q; [done |].
    split; [repeat case_match; congruence | done]. }
  destruct (ensureProgress _ _ _ _) as [progress db1].
  destruct (negb _ && _); [done |].
  unfold quizSubmitGrade. cbv zeta.
  generalize (js_percent (correctCountOf (buildAnswerMap answers) (questions quiz))
                (Z.of_nat (length (questions quiz)))).
  intros score. unfold Progress_save.
  match goal with
  | |- context [Progress_valid ?p] => destruct (Progress_valid p)
  end; [| done].
  intros [= <- <-]. simpl. done.
Qed.

(** What a graded submission counts.  For each question only the last item
    of the request that names it matters; it is correct when that item
    selects a non-negative integer equal to the stored correct option, and
    incorrect when the question is not named, or the selection is not an
    integer or is negative.  correctAnswers is the number of such questions,
    between 0 and totalQuestions, totalQuestions is at least 1, and the
    reply has one result per question, in order, with that verdict. *)
Theorem quizSubmit_counts_last_answers db user quizId answers now quiz body db' :
  quizzes db !! quizId = Some quiz →
  quizSubmit db user quizId answers now = (Reply 200 body, db') →
  qo_correctAnswers body
  = Z.of_nat (length (List.filter (answeredCorrectly answers) (questions quiz)))
  ∧ 0 ≤ qo_correctAnswers body ≤ qo_totalQuestions body
  ∧ 1 ≤ qo_totalQuestions body
  ∧ qo_totalQuestions body = Z.of_nat (length (questions quiz))
  ∧ List.map (fun r => (qr_questionId r, qr_isCorrect r)) (qo_results body)
    = List.map (fun q => (question_id q, answeredCorrectly answers q)) (questions quiz).
Proof.
  intros Hq E.
  destruct (quizSubmit_results _ _ _ _ _ _ _ _ Hq E) as (Hr & Hc & Ht & Hne).
  assert (List.filter (isCorrect (buildAnswerMap answers)) (questions quiz)
          = List.filter (answeredCorrectly answers) (questions quiz)) as Hf.
  { apply List.filter_ext. intros q. apply isCorrect_answeredCorrectly. }
  unfold correctCountOf in Hc. rewrite Hf in Hc.
  pose proof (List.filter_length_le (answeredCorrectly answers) (questions quiz)) as Hle.
  split; [done |]. split; [lia |]. split.
  { rewrite Ht. destruct (questions quiz); [done | simpl; lia]. }
  split; [done |].
  rewrite Hr, List.map_map. apply List.map_ext. intros q. simpl.
  by rewrite isCorrect_answeredCorrectly.
Qed.

Lemma quizSubmit_counts_last_answers_witness :
  ∃ body db',
    quizSubmit fortyDb aStudent 60%nat answers23 1000 = (Reply 200 body, db')
    ∧ qo_correctAnswers body
      = Z.of_nat (length (List.filter (answeredCorrectly answers23) (questions fortyQuiz)))
    ∧ 0 ≤ qo_correctAnswers body ≤ qo_totalQuestions body.
Proof.
  eexists _, _.
  assert (∀ (A B : Prop), A → (A → B) → A ∧ B) as both by tauto.
  apply both; [vm_compute; reflexivity |]. intros E.
  pose proof (quizSubmit_counts_last_answers fortyDb aStudent 60%nat answers23 1000
                fortyQuiz _ _ eq_refl E) as (H1 & H2 & _).
  split; [exact H1 | exact H2].
Defined.

(* --------------------------------------------------------------------- *)
(* The verifier's decision (PUT /payments/:id/status)                    *)
(* --------------------------------------------------------------------- *)

Lemma Payment_findById_lookup db id k p :
  Payment_findById db id = Some (k, p) →
  payments db !! k = Some p ∧ payment_id p = id.
Proof.
  unfold Payment_findById. intros [Hin Hid]%List.find_some. simpl in Hid.
  split; [| by apply Nat.eqb_eq].
  by apply elem_of_map_to_list, list_elem_of_In.
Qed.

Lemma parseStatus_name st : parseStatus (payment_status_name st) = Some st.
Proof. by destruct st. Qed.

(** A 200 from the status update, taken apart. *)
Lemma updatePaymentStatus_shape db user paymentId req now payment' db' :
  updatePaymentStatus db user paymentId req now = (Reply 200 payment', db') →
  ∃ userId courseId payment st,
    user_role user = admin
    ∧ parseStatus (sr_status req) = Some st
    ∧ Payment_findById db paymentId = Some ((userId, courseId), payment)
    ∧ payment' = applyStatus payment st (user_id user) req now
    ∧ (let db1 := match st with
                  | approved => snd (ensureProgress db userId courseId now)
                  | _ => db
                  end in
       db' = set_payments db1 (<[(userId, courseId) := payment']> (payments db1))).
Proof.
  unfold updatePaymentStatus.
  destruct (user_role user); simpl; [| done].
  destruct (parseStatus (sr_status req)) as [st|]; [| done].
  destruct (Payment_findById db paymentId) as [[[userId courseId] payment]|]; [| done].
  destruct (statusFields_valid _); [| done].
  intros [= <- <-]. by exists userId, courseId, payment, st.
Qed.

(** A saved status update writes the decision into the record it found and
    into nothing else of it: same id, transaction, proof and amount; the new
    status, the verifier and the time.  On approval a Progress document for
    the learner and course exists afterwards: the one that was there, or a
    new one with currentLevel 1, totalProgress 0 and no entries. *)
Theorem updatePaymentStatus_records_decision db user paymentId req now payment' db' :
  updatePaymentStatus db user paymentId req now = (Reply 200 payment', db') →
  ∃ userId courseId payment,
    payments db !! (userId, courseId) = Some payment
    ∧ payment_id payment = paymentId
    ∧ Payment_findOne db' userId courseId = Some payment'
    ∧ payment_id payment' = paymentId
    ∧ transactionId payment' = transactionId payment
    ∧ proofImage payment' = proofImage payment
    ∧ amount payment' = amount payment
    ∧ parseStatus (sr_status req) = Some (payment_state payment')
    ∧ verifiedBy payment' = Some (user_id user)
    ∧ verifiedAt payment' = Some now
    ∧ (payment_state payment' = approved →
       match Progress_findOne db userId courseId with
       | Some old => Progress_findOne db' userId courseId = Some old
       | None =>
           ∃ p, Progress_findOne db' userId courseId = Some p
                ∧ currentLevel p = 1 ∧ totalProgress p = 0
                ∧ completedLevels p = [] ∧ courseCompleted p = false
       end)
    ∧ (payment_state payment' ≠ approved → progresses db' = progresses db).
Proof.
  intros E.
  destruct (updatePaymentStatus_shape _ _ _ _ _ _ _ E)
    as (userId & courseId & payment & st & _ & Hst & Hf & -> & ->).
  destruct (Payment_findById_lookup _ _ _ _ Hf) as [Hl Hid].
  exists userId, courseId, payment.
  split; [done |]. split; [done |].
  split; [unfold Payment_findOne; simpl; apply lookup_insert_eq |].
  split; [done |]. split; [done |]. split; [done |]. split; [done |].
  split; [done |]. split; [done |]. split; [done |]. simpl.
  split.
  - intros ->. simpl. unfold ensureProgress, Progress_findOne.
    destruct (progresses db !! (userId, courseId)) as [old|] eqn:P; simpl; [done |].
    eexists. split; [apply lookup_insert_eq |]. done.
  - intros Hne. destruct st; done.
Qed.

Lemma updatePaymentStatus_records_decision_witness :
  ∃ payment' db',
    updatePaymentStatus rejectedDb anAdmin 80%nat
      {| sr_status := "approved"; sr_rejectionReason := None; sr_notes := None |} 5000
    = (Reply 200 payment', db')
    ∧ Payment_findOne db' 2%nat 10%nat = Some payment'
    ∧ payment_state payment' = approved
    ∧ ∃ p, Progress_findOne db' 2%nat 10%nat = Some p ∧ currentLevel p = 1.
Proof.
  eexists _, _.
  assert (∀ (A B : Prop), A → (A → B) → A ∧ B) as both by tauto.
  apply both; [vm_compute; reflexivity |]. intros E.
  destruct (updatePaymentStatus_records_decision _ _ _ _ _ _ _ E)
    as (u & c & pay & _ & _ & _ & _ & _ & _ & _ & _ & _ & _ & _ & _).
  split; [vm_compute; reflexivity |]. split; [reflexivity |].
  eexists. split; [vm_compute; reflexivity | reflexivity].
Defined.

(** Access follows the latest decision at once.  After a saved status
    update, the learner the payment belongs to has access to the (published,
    not free) course exactly when the status written is approved: approval
    grants it, and a change back to rejected or pending withdraws it. *)
Theorem access_follows_decision db user paymentId req now payment' db'
    learner courseId course :
  updatePaymentStatus db user paymentId req now = (Reply 200 payment', db') →
  Payment_findOne db' (user_id learner) courseId = Some payment' →
  user_role learner = student →
  courses db !! courseId = Some course →
  course_state course = published →
  course_price course ≠ 0 →
  (checkCourseAccess db' learner courseId = (Some course, true)
   ↔ sr_status req = "approved")
  ∧ (sr_status req ≠ "approved" →
     checkCourseAccess db' learner courseId = (Some course, false)
     ∧ ∀ levelId level t,
         Level_findById db' levelId = Some level →
         level_courseId level = courseId →
         hasVideoRef (videoPath level) = true →
         streamAuthorize db' learner levelId t
         = (Fail 403 "Course locked until payment is approved", db')).
Proof.
  intros E Hpay R Hc Hpub Hprice.
  destruct (updatePaymentStatus_shape _ _ _ _ _ _ _ E)
    as (userId & cid & payment & st & _ & Hst & _ & Hp' & Hdb).
  assert (courses db' = courses db) as Hcs.
  { rewrite Hdb. simpl. destruct st; try done. apply ensureProgress_frame. }
  assert (payment_state payment' = st) as Hstate by (by rewrite Hp').
  assert (sr_status req = "approved" ↔ st = approved) as Happ.
  { unfold parseStatus in Hst. split.
    - intros Heq. rewrite Heq in Hst. simpl in Hst. congruence.
    - intros ->. destruct (String.eqb_spec (sr_status req) "approved"); [done |].
      repeat case_match; congruence. }
  assert (bool_decide (is_Some (Payment_findOne_approved db' (user_id learner) courseId))
          = payment_status_eqb st approved) as Hfind.
  { unfold Payment_findOne_approved. unfold Payment_findOne in Hpay.
    rewrite Hpay, Hstate. by destruct st. }
  assert (checkCourseAccess db' learner courseId
          = (Some course, payment_status_eqb st approved)) as Hacc.
  { unfold checkCourseAccess. rewrite Hcs, Hc, R, Hpub. simpl.
    destruct (Z.eqb_spec (course_price course) 0); [done |]. by rewrite Hfind. }
  split.
  - rewrite Hacc, Happ. destruct st; simpl; split; congruence.
  - intros Hne.
    assert (payment_status_eqb st approved = false) as Hno.
    { destruct st; try done. exfalso. by apply Hne, Happ. }
    split; [by rewrite Hacc, Hno |].
    intros levelId level t Hl Hlc Hv. unfold streamAuthorize.
    rewrite Hl, Hv, Hlc, Hcs, Hc, R, Hpub. simpl.
    destruct (Z.eqb_spec (course_price course) 0); [done |].
    by rewrite Hfind, Hno.
Qed.

Lemma access_follows_decision_witness :
  checkCourseAccess
    (snd (updatePaymentStatus rejectedDb anAdmin 80%nat
            {| sr_status := "approved"; sr_rejectionReason := None; sr_notes := None |}
            5000))
    aStudent 10%nat
  = (Some paidCourse, true)
  ↔ "approved" = "approved".
Proof.
  refine (proj1 (access_follows_decision rejectedDb anAdmin 80%nat
                   {| sr_status := "approved"; sr_rejectionReason := None;
                      sr_notes := None |} 5000
                   (applyStatus rejectedPayment approved 1%nat
                      {| sr_status := "approved"; sr_rejectionReason := None;
                         sr_notes := None |} 5000)
                   _ aStudent 10%nat paidCourse _ _ _ _ _ _));
    try (vm_compute; reflexivity).
  vm_compute. discriminate.
Defined.

(* --------------------------------------------------------------------- *)
(* POST /payments: what a submission cannot do                           *)
(* --------------------------------------------------------------------- *)

(** A submission that is refused writes nothing; one that is accepted
    changes the Payment collection at the caller's own (user, course) pair
    only, and no other collection.  A record that is pending or approved is
    never overwritten: the request is refused and the database stays as it
    was. *)
Theorem submitPayment_protects_records db user req :
  let r := submitPayment db user req in
  (∀ code msg, fst r = Fail code msg → snd r = db)
  ∧ (courses (snd r) = courses db ∧ levels (snd r) = levels db
     ∧ progresses (snd r) = progresses db ∧ quizzes (snd r) = quizzes db)
  ∧ (∀ k, (∀ c, pr_courseId req = CourseIdValid c → k ≠ (user_id user, c)) →
          payments (snd r) !! k = payments db !! k)
  ∧ (∀ c e,
       pr_courseId req = CourseIdValid c →
       Payment_findOne db (user_id user) c = Some e →
       payment_state e ≠ rejected →
       snd r = db ∧ ∃ code msg, fst r = Fail code msg ∧ (code = 400 ∨ code = 404)).
Proof.
  intros r. subst r. unfold submitPayment.
  assert (∀ code msg,
            (∀ c e, pr_courseId req = CourseIdValid c →
                    Payment_findOne db (user_id user) c = Some e →
                    payment_state e ≠ rejected → code = 400 ∨ code = 404) →
            let r := (Fail code msg : reply PaymentSubmitted, db) in
            (∀ code msg, fst r = Fail code msg → snd r = db)
            ∧ (courses (snd r) = courses db ∧ levels (snd r) = levels db
               ∧ progresses (snd r) = progresses db ∧ quizzes (snd r) = quizzes db)
            ∧ (∀ k, (∀ c, pr_courseId req = CourseIdValid c → k ≠ (user_id user, c)) →
                    payments (snd r) !! k = payments db !! k)
            ∧ (∀ c e,
                 pr_courseId req = CourseIdValid c →
                 Payment_findOne db (user_id user) c = Some e →
                 payment_state e ≠ rejected →
                 snd r = db
                 ∧ ∃ code msg, fst r = Fail code msg ∧ (code = 400 ∨ code = 404)))
    as refused.
  { intros code msg Hcode. simpl.
    split; [done |]. split; [done |]. split; [done |].
    intros c e H1 H2 H3. split; [done |]. exists code, msg. split; [done |]. eauto. }
  destruct (pr_filename req) as [filename|]; [| apply refused; auto].
  destruct (pr_courseId req) as [| | courseId] eqn:Hcid; try (apply refused; auto).
  destruct (negb (truthy _)); [apply refused; auto |].
  destruct (courses db !! courseId) as [course|]; [| apply refused; auto].
  destruct (negb _ && negb _); [apply refused; auto |].
  destruct (course_price course =? 0); [apply refused; auto |].
  destruct (requestedAmount _ _) as [amt|]; [| apply refused; auto].
  destruct (amt <=? 0); [apply refused; auto |].
  destruct (Payment_findOne db (user_id user) courseId) as [existing|] eqn:Hex.
  - destruct (payment_status_eqb (payment_state existing) approved
              || payment_status_eqb (payment_state existing) pending) eqn:Hst;
      [apply refused; auto |].
    assert (payment_state existing = rejected) as Hrej
      by (destruct (payment_state existing); done).
    destruct (persistUploadedFile _ _) as [proof|];
      [| apply refused; intros c e [= <-] He1 He2; congruence ].
    destruct (negb (truthy proof)); [apply refused; auto |].
    rewrite Hrej. simpl.
    split; [done |]. split; [done |]. split.
    + intros k Hk. apply lookup_insert_ne. intros <-. by apply (Hk courseId).
    + intros c e [= <-] He1 He2. congruence.
  - destruct (persistUploadedFile _ _) as [proof|];
      [| apply refused; intros c e [= <-] He1 He2; congruence ].
    destruct (negb (truthy proof)); [apply refused; auto |].
    simpl. split; [done |]. split; [done |]. split.
    + intros k Hk. apply lookup_insert_ne. intros <-. by apply (Hk courseId).
    + intros c e [= <-] He1 He2. congruence.
Qed.

(* --------------------------------------------------------------------- *)
(* A course that is not published is hidden from learners                *)
(* --------------------------------------------------------------------- *)

Section HiddenCourse.
Context (db : Db) (user : User) (hidden : oid) (course : Course).
Context (Hrole : user_role user = student).
Context (Hcourse : courses db !! hidden = Some course).
Context (Hstate : course_state course ≠ published).

Let db0 := without_course db hidden.

Lemma hidden_not_published : is_published (course_state course) = false.
Proof using Hstate. by destruct (course_state course). Qed.

Lemma hidden_ensureProgress u k now :
  ensureProgress db0 u k now
  = (fst (ensureProgress db u k now), without_course (snd (ensureProgress db u k now)) hidden).
Proof.
  unfold ensureProgress, Progress_findOne, db0. simpl.
  by destruct (progresses db !! (u, k)).
Qed.

Lemma hidden_checkCourseAccess k :
  checkCourseAccess db0 user k = checkCourseAccess db user k.
Proof using Hrole Hcourse Hstate.
  unfold checkCourseAccess. rewrite Hrole.
  change (courses db0) with (delete hidden (courses db)).
  destruct (decide (k = hidden)) as [-> | Hne].
  - by rewrite lookup_delete_eq, Hcourse, hidden_not_published.
  - rewrite lookup_delete_ne by done. by destruct (courses db !! k).
Qed.

Lemma hidden_getCourseStatus k : getCourseStatus db0 user k = getCourseStatus db user k.
Proof using Hrole Hcourse Hstate.
  unfold getCourseStatus. rewrite Hrole.
  change (courses db0) with (delete hidden (courses db)).
  destruct (decide (k = hidden)) as [-> | Hne].
  - by rewrite lookup_delete_eq, Hcourse, hidden_not_published.
  - rewrite lookup_delete_ne by done. by destruct (courses db !! k).
Qed.

Lemma hidden_getCourseLevels k : getCourseLevels db0 user k = getCourseLevels db user k.
Proof using Hrole Hcourse Hstate.
  unfold getCourseLevels. rewrite Hrole.
  change (courses db0) with (delete hidden (courses db)).
  destruct (decide (k = hidden)) as [-> | Hne].
  - by rewrite lookup_delete_eq, Hcourse, hidden_not_published.
  - rewrite lookup_delete_ne by done. by destruct (courses db !! k).
Qed.

Lemma hidden_getLevel levelId : getLevel db0 user levelId = getLevel db user levelId.
Proof using Hrole Hcourse Hstate.
  unfold getLevel, Level_findById. rewrite Hrole.
  change (levels db0) with (levels db).
  change (courses db0) with (delete hidden (courses db)).
  destruct (List.find _ (levels db)) as [level|]; [| done].
  destruct (decide (level_courseId level = hidden)) as [-> | Hne].
  - by rewrite lookup_delete_eq, Hcourse, hidden_not_published.
  - by rewrite lookup_delete_ne.
Qed.

Lemma hidden_streamAuthorize levelId now :
  fst (streamAuthorize db0 user levelId now) = fst (streamAuthorize db user levelId now).
Proof using Hrole Hcourse Hstate.
  unfold streamAuthorize, Level_findById. rewrite Hrole.
  change (levels db0) with (levels db).
  change (courses db0) with (delete hidden (courses db)).
  destruct (List.find _ (levels db)) as [level|]; [| done].
  destruct (negb (hasVideoRef _)); [done |].
  destruct (decide (level_courseId level = hidden)) as [-> | Hne].
  - by rewrite lookup_delete_eq, Hcourse, hidden_not_published.
  - rewrite lookup_delete_ne by done.
    destruct (courses db !! level_courseId level) as [co|]; [| done].
    destruct (negb _ && negb _); [done |].
    change (Payment_findOne_approved db0) with (Payment_findOne_approved db).
    destruct (negb _); [done |]. simpl.
    rewrite hidden_ensureProgress.
    destruct (ensureProgress db (user_id user) (level_courseId level) now)
      as [progress db1]. simpl.
    by destruct (_ >? _).
Qed.

Lemma hidden_levelComplete req now :
  fst (levelComplete db0 user req now) = fst (levelComplete db user req now).
Proof using Hrole Hcourse Hstate.
  unfold levelComplete, Level_findById.
  change (levels db0) with (levels db).
  destruct (List.find _ (levels db)) as [level|]; [| done].
  destruct (negb _); [done |].
  rewrite hidden_checkCourseAccess.
  destruct (checkCourseAccess db user (lc_courseId req)) as [[co|] [|]]; try done.
  rewrite hidden_ensureProgress.
  destruct (ensureProgress db (user_id user) (lc_courseId req) now)
    as [progress db1]. simpl.
  destruct (_ >? _); [done |].
  change (Level_countDocuments (without_course db1 hidden))
    with (Level_countDocuments db1).
  unfold Progress_save. by destruct (Progress_valid _).
Qed.

Lemma hidden_quizSubmit quizId answers now :
  fst (quizSubmit db0 user quizId answers now) = fst (quizSubmit db user quizId answers now).
Proof using Hrole Hcourse Hstate.
  unfold quizSubmit.
  assert (quizSubmitGuards db0 user quizId = quizSubmitGuards db user quizId) as ->.
  { unfold quizSubmitGuards, Level_findById. rewrite Hrole.
    change (quizzes db0) with (quizzes db). change (levels db0) with (levels db).
    change (courses db0) with (delete hidden (courses db)).
    change (Payment_findOne_approved db0) with (Payment_findOne_approved db).
    destruct (quizzes db !! quizId) as [quiz|]; [| done].
    destruct (negb _ && negb _); [done |].
    destruct (_ =? _)%nat; [done |].
    destruct (List.find _ (levels db)) as [level|]; [| done].
    destruct (decide (quiz_courseId quiz = hidden)) as [-> | Hne].
    - by rewrite lookup_delete_eq, Hcourse, hidden_not_published.
    - by rewrite lookup_delete_ne. }
  destruct (quizSubmitGuards db user quizId) as [code [[quiz level] co]|]; [| done].
  rewrite hidden_ensureProgress.
  destruct (ensureProgress db (user_id user) (quiz_courseId quiz) now)
    as [progress db1]. simpl.
  destruct (negb _ && _); [done |].
  unfold quizSubmitGrade. cbv zeta.
  change (Level_countDocuments (without_course db1 hidden))
    with (Level_countDocuments db1).
  generalize (js_percent (correctCountOf (buildAnswerMap answers) (questions quiz))
                (Z.of_nat (length (questions quiz)))).
  intros score. unfold Progress_save.
  match goal with
  | |- context [Progress_valid ?p] => destruct (Progress_valid p)
  end; done.
Qed.

Lemma hidden_submitPayment req :
  fst (submitPayment db0 user req) = fst (submitPayment db user req).
Proof using Hrole Hcourse Hstate.
  unfold submitPayment. rewrite Hrole.
  change (courses db0) with (delete hidden (courses db)).
  change (Payment_findOne db0) with (Payment_findOne db).
  change (nextId db0) with (nextId db).
  destruct (pr_filename req) as [filename|]; [| done].
  destruct (pr_courseId req) as [| | courseId]; try done.
  destruct (negb (truthy _)); [done |].
  destruct (decide (courseId = hidden)) as [-> | Hne].
  - by rewrite lookup_delete_eq, Hcourse, hidden_not_published.
  - rewrite lookup_delete_ne by done.
    destruct (courses db !! courseId) as [co|]; [| done].
    repeat case_match; done.
Qed.
End HiddenCourse.

(** A learner cannot tell a course that is not published from one that does
    not exist.  Take the Course document of a draft or archived course out
    of the database: every reply a learner can get is the same as before,
    for that course and for every other: the status and the level list, a
    level by id, a payment submission, level-complete, a quiz submission,
    the stream, the progress and the next level. *)
Theorem unpublished_course_is_hidden db user hidden course now :
  user_role user = student →
  courses db !! hidden = Some course →
  course_state course ≠ published →
  let db0 := without_course db hidden in
  (∀ k, getCourseStatus db0 user k = getCourseStatus db user k
        ∧ getCourseLevels db0 user k = getCourseLevels db user k
        ∧ fst (getCourseProgress db0 user k now) = fst (getCourseProgress db user k now)
        ∧ fst (getNextLevel db0 user k now) = fst (getNextLevel db user k now))
  ∧ (∀ levelId, getLevel db0 user levelId = getLevel db user levelId)
  ∧ (∀ req, fst (submitPayment db0 user req) = fst (submitPayment db user req))
  ∧ (∀ req, fst (levelComplete db0 user req now) = fst (levelComplete db user req now))
  ∧ (∀ quizId answers,
       fst (quizSubmit db0 user quizId answers now)
       = fst (quizSubmit db user quizId answers now))
  ∧ (∀ files levelId range,
       fst (streamLevel db0 files user levelId range now)
       = fst (streamLevel db files user levelId range now)).
Proof.
  intros R Hc Hs db0. subst db0.
  split; [| split; [| split; [| split; [| split]]]].
  - intros k.
    split; [by apply (hidden_getCourseStatus db user hidden course) |].
    split; [by apply (hidden_getCourseLevels db user hidden course) |].
    unfold getCourseProgress, getNextLevel.
    rewrite (hidden_checkCourseAccess db user hidden course R Hc Hs).
    destruct (checkCourseAccess db user k) as [[co|] [|]]; try done.
    rewrite hidden_ensureProgress.
    destruct (ensureProgress db (user_id user) k now) as [progress db1]. simpl.
    split; [done |].
    change (Level_findOne_number (without_course db1 hidden))
      with (Level_findOne_number db1).
    by destruct (Level_findOne_number _ _ _).
  - intros levelId. by apply (hidden_getLevel db user hidden course).
  - intros req. by apply (hidden_submitPayment db user hidden course).
  - intros req. by apply (hidden_levelComplete db user hidden course).
  - intros quizId answers. by apply (hidden_quizSubmit db user hidden course).
  - intros files levelId range. unfold streamLevel.
    pose proof (hidden_streamAuthorize db user hidden course R Hc Hs levelId now) as H.
    destruct (streamAuthorize (without_course db hidden) user levelId now) as [r0 d0],
      (streamAuthorize db user levelId now) as [r1 d1].
    simpl in H. subst r1. destruct r0 as [code level | code msg]; simpl; [| done].
    by destruct (isRemoteUrl _).
Qed.

Lemma unpublished_course_is_hidden_witness :
  getCourseStatus (without_course draftDb 30%nat) aStudent 30%nat
  = getCourseStatus draftDb aStudent 30%nat
  ∧ fst (streamLevel (without_course draftDb 30%nat) ∅ aStudent 35%nat None 7000)
    = fst (streamLevel draftDb ∅ aStudent 35%nat None 7000).
Proof.
  pose proof (unpublished_course_is_hidden draftDb aStudent 30%nat
                {| course_price := 0; course_state := draft |} 7000
                eq_refl eq_refl) as H.
  destruct H as (H1 & _ & _ & _ & _ & H6); [discriminate |].
  split; [apply (H1 30%nat) | apply H6].
Defined.

(* --------------------------------------------------------------------- *)
(* The level list, the next level and the stream agree                   *)
(* --------------------------------------------------------------------- *)

Lemma In_insertByNumber x l ls : In x (insertByNumber l ls) ↔ x = l ∨ In x ls.
Proof.
  induction ls as [|a ls IH]; simpl; [intuition congruence |].
  destruct (levelNumber l <? levelNumber a); simpl; [intuition congruence |].
  rewrite IH. intuition congruence.
Qed.

Lemma In_sortByNumber x ls : In x (sortByNumber ls) ↔ In x ls.
Proof.
  induction ls as [|a ls IH]; simpl; [done |].
  rewrite In_insertByNumber, IH. intuition congruence.
Qed.

Lemma checkCourseAccess_granted db user courseId course :
  checkCourseAccess db user courseId = (Some course, true) →
  user_role user = student →
  courses db !! courseId = Some course
  ∧ is_published (course_state course) = true
  ∧ (course_price course =? 0)
    || bool_decide (is_Some (Payment_findOne_approved db (user_id user) courseId)) = true.
Proof.
  unfold checkCourseAccess. intros H R. rewrite R in H. simpl in H.
  destruct (courses db !! courseId) as [co|]; [| done].
  destruct (is_published (course_state co)) eqn:P; simpl in H; [| done].
  destruct (course_price co =? 0) eqn:Z0; simpl in H.
  - injection H as <-. by rewrite P, Z0.
  - injection H as <- Hb. by rewrite P, Z0, Hb.
Qed.

(** What the level list shows a learner is what the stream enforces.  For a
    level with a video in a published course, GET /levels/course/:courseId
    lists the level, and GET /levels/:id/stream passes its checks exactly
    when the list says hasAccess and shows the level as not locked. *)
Theorem level_list_agrees_with_stream db user courseId course level now :
  user_role user = student →
  courses db !! courseId = Some course →
  course_state course = published →
  Level_findById db (level_id level) = Some level →
  level_courseId level = courseId →
  hasVideoRef (videoPath level) = true →
  ∃ body,
    getCourseLevels db user courseId = Reply 200 body
    ∧ In (levelViewWithLock student (ll_unlockedLevelNumber body) level) (ll_levels body)
    ∧ levelViewWithLock student (ll_unlockedLevelNumber body) level !! "locked"
      = Some (JBool (levelNumber level >? ll_unlockedLevelNumber body))
    ∧ (fst (streamAuthorize db user (level_id level) now) = Reply 200 level
       ↔ ll_hasAccess body = true
         ∧ (levelNumber level >? ll_unlockedLevelNumber body) = false).
Proof.
  intros R Hc Hpub Hl Hlc Hv.
  unfold getCourseLevels. rewrite Hc, R, Hpub. simpl.
  eexists. split; [reflexivity |]. simpl.
  split.
  { apply in_map. unfold Level_find_sorted. apply In_sortByNumber.
    apply filter_In. split.
    - unfold Level_findById in Hl. by apply List.find_some in Hl as [? _].
    - rewrite Hlc. apply Nat.eqb_refl. }
  split; [unfold levelViewWithLock; apply lookup_insert_eq |].
  unfold streamAuthorize. rewrite Hl, Hv, Hlc, Hc, R, Hpub. simpl.
  assert (bool_decide (is_Some (Payment_findOne_approved db (user_id user) courseId))
          = match Payment_findOne db (user_id user) courseId with
            | Some p => payment_status_eqb (payment_state p) approved
            | None => false
            end) as ->.
  { unfold Payment_findOne_approved, Payment_findOne.
    destruct (payments db !! (user_id user, courseId)) as [p|]; [| done].
    by destruct (payment_status_eqb (payment_state p) approved). }
  destruct ((course_price course =? 0) || _) eqn:A; simpl.
  - unfold ensureProgress, Progress_findOne.
    destruct (progresses db !! (user_id user, courseId)) as [p|]; simpl.
    + destruct (levelNumber level >? or1 (currentLevel p)); simpl;
        split; try done; by intros [_ ?].
    + change (or1 0) with 1. change (or1 1) with 1.
      destruct (levelNumber level >? 1); simpl;
        split; try done; by intros [_ ?].
  - split; [done | by intros [? _]].
Qed.

Lemma level_list_agrees_with_stream_witness :
  ∃ body,
    getCourseLevels seqDb aStudent 20%nat = Reply 200 body
    ∧ In (levelViewWithLock student (ll_unlockedLevelNumber body)
            (mkLevel 32%nat 20%nat 2 false (Some "/uploads/videos/two.mp4")))
         (ll_levels body)
    ∧ levelViewWithLock student (ll_unlockedLevelNumber body)
        (mkLevel 32%nat 20%nat 2 false (Some "/uploads/videos/two.mp4")) !! "locked"
      = Some (JBool (2 >? ll_unlockedLevelNumber body))
    ∧ (fst (streamAuthorize seqDb aStudent 32%nat 7000)
       = Reply 200 (mkLevel 32%nat 20%nat 2 false (Some "/uploads/videos/two.mp4"))
       ↔ ll_hasAccess body = true ∧ (2 >? ll_unlockedLevelNumber body) = false).
Proof.
  exact (level_list_agrees_with_stream seqDb aStudent 20%nat freeCourse
           (mkLevel 32%nat 20%nat 2 false (Some "/uploads/videos/two.mp4")) 7000
           eq_refl eq_refl eq_refl eq_refl eq_refl eq_refl).
Defined.

(** The level GET /progress/course/:courseId/next-level returns to a
    learner is the one at the unlock frontier of that course, and the
    stream of that level (when it has a video) passes its checks. *)
Theorem next_level_can_be_streamed db user courseId now level db1 :
  user_role user = student →
  getNextLevel db user courseId now = (Reply 200 level, db1) →
  level_courseId level = courseId
  ∧ levelNumber level = unlockFrontier db (user_id user) courseId
  ∧ (Level_findById db (level_id level) = Some level →
     hasVideoRef (videoPath level) = true →
     ∀ t, fst (streamAuthorize db1 user (level_id level) t) = Reply 200 level).
Proof.
  intros R. unfold getNextLevel.
  destruct (checkCourseAccess db user courseId) as [[course|] [|]] eqn:A; try done.
  destruct (checkCourseAccess_granted _ _ _ _ A R) as (Hc & Hpub & Hacc).
  pose proof (unlockFrontier_ensureProgress db (user_id user) courseId now) as Hf.
  pose proof (ensureProgress_lookup db (user_id user) courseId now) as Hlook.
  pose proof (ensureProgress_frame db (user_id user) courseId now)
    as [(Hcs & Hls & Hps & _) _].
  destruct (ensureProgress db (user_id user) courseId now) as [progress d1].
  simpl in Hf, Hlook, Hcs, Hls, Hps.
  destruct (Level_findOne_number d1 courseId (or1 (currentLevel progress)))
    as [l|] eqn:F; [| done].
  intros [= -> ->].
  unfold Level_findOne_number in F. apply List.find_some in F as [_ F].
  apply andb_true_iff in F as [Fc Fn].
  apply Nat.eqb_eq in Fc. apply Z.eqb_eq in Fn.
  split; [done |]. split; [congruence |].
  intros Hl Hv t. unfold streamAuthorize, Level_findById.
  unfold Level_findById in Hl. rewrite Hls, Hl, Hv, Fc, Hcs, Hc, R. simpl.
  rewrite Hpub. simpl.
  unfold Payment_findOne_approved in *. rewrite Hps, Hacc. simpl.
  rewrite (ensureProgress_existing _ _ _ _ _ Hlook).
  rewrite Fn. by rewrite Z.gtb_ltb, Z.ltb_irrefl.
Qed.

Lemma next_level_can_be_streamed_witness :
  level_courseId (mkLevel 31%nat 20%nat 1 false (Some "/uploads/videos/one.mp4")) = 20%nat
  ∧ levelNumber (mkLevel 31%nat 20%nat 1 false (Some "/uploads/videos/one.mp4"))
    = unlockFrontier seqDb (user_id aStudent) 20%nat
  ∧ (Level_findById seqDb 31%nat
     = Some (mkLevel 31%nat 20%nat 1 false (Some "/uploads/videos/one.mp4")) →
     hasVideoRef (Some "/uploads/videos/one.mp4") = true →
     ∀ t, fst (streamAuthorize seqDb aStudent 31%nat t)
          = Reply 200 (mkLevel 31%nat 20%nat 1 false (Some "/uploads/videos/one.mp4"))).
Proof.
  apply (next_level_can_be_streamed seqDb aStudent 20%nat 7000
           (mkLevel 31%nat 20%nat 1 false (Some "/uploads/videos/one.mp4")) seqDb
           eq_refl).
  vm_compute. reflexivity.
Defined.

(* --------------------------------------------------------------------- *)
(* Ranged requests: every answer, and well-formed headers                *)
(* --------------------------------------------------------------------- *)

(** Every 206 of the range branch: the start parsed, it lies inside the
    file, the end is not before it, Content-Length is end - start + 1, and
    the body is the bytes of the file from start through end or the end of
    the file, whichever comes first; so the body is never empty and never
    longer than Content-Length. *)
Theorem serveRange_partial_content file contentType range cr ar cl ct body :
  serveRange file contentType range = PartialContent cr ar cl ct body →
  let fileSize := Z.of_nat (length file) in
  ∃ s e,
    rangeStart range = Some s ∧ rangeEnd range fileSize = Some e
    ∧ 0 ≤ s < fileSize ∧ s ≤ e
    ∧ cr = "bytes " +:+ pretty s +:+ "-" +:+ pretty e +:+ "/" +:+ pretty fileSize
    ∧ ar = "bytes" ∧ ct = contentType
    ∧ cl = e - s + 1
    ∧ body = take (Z.to_nat (e - s + 1)) (drop (Z.to_nat s) file)
    ∧ Z.of_nat (length body) = Z.min e (fileSize - 1) - s + 1
    ∧ 1 ≤ Z.of_nat (length body) ≤ cl.
Proof.
  intros H fileSize. unfold serveRange in H. fold fileSize in H.
  destruct (rangeStart range) as [s|] eqn:Hs; [| done].
  pose proof (rangeStart_nonneg range s Hs) as H0.
  destruct (Z.geb_spec s fileSize); [done |].
  destruct (rangeEnd range fileSize) as [e|] eqn:He; [| done].
  unfold createReadStream in H.
  destruct (Z.ltb_spec s 0); [lia |].
  destruct (Z.ltb_spec e 0); [done |].
  destruct (Z.ltb_spec e s); [done |]. simpl in H.
  injection H as <- <- <- <- <-.
  exists s, e. repeat (split; [done || lia |]).
  rewrite length_take, length_drop. unfold fileSize in *. lia.
Qed.

Lemma serveRange_partial_content_witness :
  ∃ s e,
    rangeStart "bytes=0-999" = Some s
    ∧ rangeEnd "bytes=0-999" (Z.of_nat (length file100)) = Some e
    ∧ 0 ≤ s < Z.of_nat (length file100) ∧ s ≤ e
    ∧ "bytes 0-999/100"
      = "bytes " +:+ pretty s +:+ "-" +:+ pretty e +:+ "/"
        +:+ pretty (Z.of_nat (length file100))
    ∧ "bytes" = "bytes" ∧ "video/mp4" = "video/mp4"
    ∧ 1000 = e - s + 1
    ∧ file100 = take (Z.to_nat (e - s + 1)) (drop (Z.to_nat s) file100)
    ∧ Z.of_nat (length file100) = Z.min e (Z.of_nat (length file100) - 1) - s + 1
    ∧ 1 ≤ Z.of_nat (length file100) ≤ 1000.
Proof.
  apply (serveRange_partial_content file100 "video/mp4" "bytes=0-999"
           "bytes 0-999/100" "bytes" 1000 "video/mp4" file100).
  vm_compute. reflexivity.
Defined.

Lemma string_app_assoc (a b c : string) : (a +:+ b) +:+ c = a +:+ (b +:+ c).
Proof.
  induction a as [|x a IH]; [done |].
  change (String x ((a +:+ b) +:+ c) = String x (a +:+ (b +:+ c))).
  by rewrite IH.
Qed.

Lemma string_forallb_app P (a b : string) :
  string_forallb P (a +:+ b) = string_forallb P a && string_forallb P b.
Proof.
  induction a as [|x a IH]; [done |].
  change (P x && string_forallb P (a +:+ b)
          = P x && string_forallb P a && string_forallb P b).
  by rewrite IH, andb_assoc.
Qed.

Lemma pretty_N_char_digit m :
  (m < 10)%N →
  is_digit (pretty_N_char m) = true ∧ digit_value (pretty_N_char m) = Z.of_N m.
Proof.
  intros Hm.
  assert (m = 0 ∨ m = 1 ∨ m = 2 ∨ m = 3 ∨ m = 4 ∨ m = 5 ∨ m = 6 ∨ m = 7
          ∨ m = 8 ∨ m = 9)%N as H by lia.
  repeat (destruct H as [-> | H]; [by vm_compute |]). subst m. by vm_compute.
Qed.

(** The decimal digits of [x] are put in front of [s]. *)
Lemma pretty_N_go_app x s : pretty_N_go x s = pretty_N_go x "" +:+ s.
Proof.
  revert s. induction (N.lt_wf_0 x) as [x _ IH]. intros s.
  destruct (decide (x = 0)%N) as [-> | Hx]; [by rewrite !pretty_N_go_0 |].
  rewrite (pretty_N_go_step x s), (pretty_N_go_step x "") by lia.
  assert (x `div` 10 < x)%N as Hlt by (apply N.div_lt; lia).
  rewrite (IH _ Hlt (String _ s)), (IH _ Hlt (String _ "")).
  by rewrite string_app_assoc.
Qed.

Lemma pretty_N_go_digits x s :
  string_forallb is_digit s = true → string_forallb is_digit (pretty_N_go x s) = true.
Proof.
  revert s. induction (N.lt_wf_0 x) as [x _ IH]. intros s Hs.
  destruct (decide (x = 0)%N) as [-> | Hx]; [by rewrite pretty_N_go_0 |].
  rewrite pretty_N_go_step by lia.
  apply IH; [apply N.div_lt; lia |]. simpl.
  destruct (pretty_N_char_digit (x `mod` 10)) as [-> _]; [| done].
  by apply N.mod_lt.
Qed.

Lemma digitsPrefix_pretty_N_go x s acc :
  (0 < x)%N → default 0 acc = 0 →
  digitsPrefix (pretty_N_go x s) acc = digitsPrefix s (Some (Z.of_N x)).
Proof.
  revert s acc. induction (N.lt_wf_0 x) as [x _ IH]. intros s acc Hx Hacc.
  rewrite pretty_N_go_step by done.
  destruct (pretty_N_char_digit (x `mod` 10)) as [Hd Hv]; [by apply N.mod_lt |].
  pose proof (N.div_mod x 10 ltac:(done)) as Hdm.
  destruct (decide (x `div` 10 = 0)%N) as [H0 | Hn].
  - rewrite H0, pretty_N_go_0. simpl. rewrite Hd, Hv, Hacc. f_equal. f_equal. lia.
  - assert (x `div` 10 < x)%N as Hlt by (apply N.div_lt; lia).
    assert (0 < x `div` 10)%N as Hpos by (by apply N.neq_0_lt_0).
    rewrite (IH (x `div` 10)%N Hlt _ acc Hpos Hacc).
    simpl. rewrite Hd, Hv. f_equal. f_equal. lia.
Qed.

(** The decimal text of a non-negative integer: only digits, not empty. *)
Lemma pretty_Z_digits z :
  0 ≤ z →
  string_forallb is_digit (pretty z) = true
  ∧ ∃ a r, pretty z = String a r ∧ is_digit a = true.
Proof.
  intros Hz.
  assert (∀ x, (0 < x)%N → ∀ s, ∃ a r, pretty_N_go x s = String a r ∧ is_digit a = true)
    as Hhead.
  { intros x. induction (N.lt_wf_0 x) as [x _ IH]. intros Hx s.
    rewrite pretty_N_go_step by done.
    destruct (decide (x `div` 10 = 0)%N) as [H0 | Hn].
    - rewrite H0, pretty_N_go_0. eexists _, _. split; [done |].
      apply pretty_N_char_digit. by apply N.mod_lt.
    - apply IH; [apply N.div_lt; lia | by apply N.neq_0_lt_0]. }
  destruct z as [|p|p]; [by vm_compute; eauto | | lia].
  unfold pretty, pretty_Z, pretty, pretty_positive, pretty, pretty_N.
  rewrite decide_False by done.
  split; [by apply pretty_N_go_digits | by apply Hhead].
Qed.

Lemma is_digit_plain a :
  is_digit a = true →
  is_space a = false ∧ Ascii.eqb a "-" = false ∧ Ascii.eqb a "+" = false.
Proof.
  unfold is_digit, is_space. intros [H1 H2]%andb_true_iff.
  apply Nat.leb_le in H1. apply Nat.leb_le in H2.
  split; [| split].
  - apply orb_false_iff. split.
    + apply andb_false_iff. right. apply Nat.leb_gt. lia.
    + apply Nat.eqb_neq. lia.
  - destruct (Ascii.eqb_spec a "-") as [-> |]; [vm_compute in H1; lia | done].
  - destruct (Ascii.eqb_spec a "+") as [-> |]; [vm_compute in H1; lia | done].
Qed.

Lemma parseInt_digit_head a r :
  is_digit a = true → parseInt (String a r) = digitsPrefix (String a r) None.
Proof.
  intros Hd. destruct (is_digit_plain a Hd) as (Hs & Hm & Hp).
  unfold parseInt, trimStart. by rewrite Hs, Hm, Hp.
Qed.

(** parseInt reads the decimal text of a non-negative integer back, whatever
    follows it, as long as that is not another digit. *)
Lemma parseInt_pretty z rest :
  0 ≤ z →
  match rest with String a _ => is_digit a = false | EmptyString => True end →
  parseInt (pretty z +:+ rest) = Some z.
Proof.
  intros Hz Hrest.
  destruct (pretty_Z_digits z Hz) as (_ & a & r & Ha & Hd).
  assert (pretty z +:+ rest = String a (r +:+ rest)) as Hcons
    by (by rewrite Ha).
  rewrite Hcons, (parseInt_digit_head _ _ Hd), <- Hcons.
  assert (digitsPrefix rest (Some z) = Some z) as Hend
    by (destruct rest; simpl; [done | by rewrite Hrest]).
  destruct z as [|p|p]; [exact Hend | | lia].
  unfold pretty, pretty_Z, pretty, pretty_positive, pretty, pretty_N.
  rewrite decide_False by done.
  rewrite <- pretty_N_go_app.
  rewrite (digitsPrefix_pretty_N_go (N.pos p) rest None) by done.
  exact Hend.
Qed.

Lemma string_app_empty_r (a : string) : a +:+ "" = a.
Proof.
  induction a as [|x a IH]; [done |].
  change (String x (a +:+ "") = String x a). by rewrite IH.
Qed.

Lemma stripPrefix_app p x : stripPrefix p (p +:+ x) = Some x.
Proof.
  induction p as [|a p IH]; [done |].
  change (stripPrefix (String a p) (String a (p +:+ x)) = Some x).
  simpl. by rewrite Ascii.eqb_refl.
Qed.

Lemma removeFirst_app p x : removeFirst p (p +:+ x) = x.
Proof.
  pose proof (stripPrefix_app p x) as H.
  destruct (p +:+ x); simpl; by rewrite H.
Qed.

Lemma split_dash a b :
  string_forallb notDash a = true →
  split "-" (a +:+ String "-" b) = a :: split "-" b.
Proof.
  induction a as [|x a IH]; [done |].
  intros [Hx Ha]%andb_true_iff.
  change (split "-" (String x (a +:+ String "-" b)) = String x a :: split "-" b).
  simpl. unfold notDash in Hx. apply negb_true_iff in Hx.
  by rewrite Hx, (IH Ha).
Qed.

Lemma split_no_dash a : string_forallb notDash a = true → split "-" a = [a].
Proof.
  induction a as [|x a IH]; [done |].
  intros [Hx Ha]%andb_true_iff. simpl.
  unfold notDash in Hx. apply negb_true_iff in Hx.
  by rewrite Hx, (IH Ha).
Qed.

Lemma digits_no_dash s :
  string_forallb is_digit s = true → string_forallb notDash s = true.
Proof.
  induction s as [|x s IH]; [done |].
  intros [Hx Hs]%andb_true_iff. simpl.
  destruct (is_digit_plain x Hx) as (_ & Hm & _).
  rewrite (IH Hs). unfold notDash. by rewrite Hm.
Qed.

(** The parts of a well-formed header "bytes=<s>-<e>" and of the open-ended
    "bytes=<s>-". *)
Lemma rangeParts_closed s e :
  0 ≤ s → 0 ≤ e →
  rangeParts ("bytes=" +:+ pretty s +:+ "-" +:+ pretty e) = [pretty s; pretty e].
Proof.
  intros Hs He. unfold rangeParts. rewrite removeFirst_app.
  destruct (pretty_Z_digits s Hs) as [Ds _], (pretty_Z_digits e He) as [De _].
  change ("-" +:+ pretty e) with (String "-" (pretty e)).
  rewrite split_dash by by apply digits_no_dash.
  by rewrite split_no_dash by by apply digits_no_dash.
Qed.

Lemma rangeParts_open s :
  0 ≤ s → rangeParts ("bytes=" +:+ pretty s +:+ "-") = [pretty s; ""].
Proof.
  intros Hs. unfold rangeParts. rewrite removeFirst_app.
  destruct (pretty_Z_digits s Hs) as [Ds _].
  by rewrite split_dash by by apply digits_no_dash.
Qed.

Lemma parseInt_pretty_alone z : 0 ≤ z → parseInt (pretty z) = Some z.
Proof.
  intros Hz. rewrite <- (string_app_empty_r (pretty z)).
  by apply parseInt_pretty.
Qed.

(** A well-formed Range header is read back exactly, for offsets that
    JavaScript numbers hold exactly: a file of at most 2^53 bytes and an end
    up to Number.MAX_SAFE_INTEGER (a larger end is refused by
    fs.createReadStream, and parseInt rounds beyond 2^53).  For
    "bytes=<s>-<e>" with decimal s and e: 416 when s is at or past the end
    of the file, 500 when e < s, and otherwise a 206 for s..e whose body is
    the bytes of the file from s through e (or through the end of the
    file).  For the open-ended "bytes=<s>-": 416 when s is at or past the
    end of the file, otherwise a 206 for s..size-1 with the whole rest of
    the file. *)
Theorem serveRange_decimal_header file contentType s e :
  0 ≤ s → 0 ≤ e ≤ MAX_SAFE_INTEGER →
  Z.of_nat (length file) ≤ MAX_SAFE_INTEGER + 1 →
  let fileSize := Z.of_nat (length file) in
  serveRange file contentType ("bytes=" +:+ pretty s +:+ "-" +:+ pretty e)
  = (if s >=? fileSize then RangeNotSatisfiable ("bytes */" +:+ pretty fileSize)
     else if e <? s then StreamFail 500 "Server error"
     else PartialContent
            ("bytes " +:+ pretty s +:+ "-" +:+ pretty e +:+ "/" +:+ pretty fileSize)
            "bytes" (e - s + 1) contentType
            (take (Z.to_nat (e - s + 1)) (drop (Z.to_nat s) file)))
  ∧ serveRange file contentType ("bytes=" +:+ pretty s +:+ "-")
    = (if s >=? fileSize then RangeNotSatisfiable ("bytes */" +:+ pretty fileSize)
       else PartialContent
              ("bytes " +:+ pretty s +:+ "-" +:+ pretty (fileSize - 1) +:+ "/"
               +:+ pretty fileSize)
              "bytes" (fileSize - s) contentType (drop (Z.to_nat s) file)).
Proof.
  intros Hs [He _] _ fileSize. unfold serveRange, rangeStart, rangeEnd. fold fileSize.
  rewrite rangeParts_closed, rangeParts_open by done.
  rewrite (parseInt_pretty_alone s Hs).
  destruct (pretty_Z_digits e He) as (_ & a & r & Ha & _).
  replace (truthy (pretty e)) with true by by rewrite Ha.
  rewrite (parseInt_pretty_alone e He). cbn [truthy].
  destruct (Z.geb_spec s fileSize) as [Hge | Hlt]; [done |].
  unfold createReadStream.
  destruct (Z.ltb_spec s 0); [lia |].
  destruct (Z.ltb_spec e 0); [lia |].
  destruct (Z.ltb_spec (fileSize - 1) 0); [lia |].
  destruct (Z.ltb_spec (fileSize - 1) s); [lia |].
  split.
  - by destruct (Z.ltb_spec e s).
  - cbn [orb]. replace (fileSize - 1 - s + 1) with (fileSize - s) by lia.
    rewrite take_ge; [done |]. rewrite length_drop. unfold fileSize. lia.
Qed.

Lemma serveRange_decimal_header_witness :
  serveRange file100 "video/mp4" "bytes=10-19"
  = PartialContent "bytes 10-19/100" "bytes" 10 "video/mp4"
      (take 10 (drop 10 file100))
  ∧ serveRange file100 "video/mp4" "bytes=10-"
    = PartialContent "bytes 10-99/100" "bytes" 90 "video/mp4" (drop 10 file100).
Proof.
  apply (serveRange_decimal_header file100 "video/mp4" 10 19).
  - lia.
  - split; [lia | by vm_compute].
  - by vm_compute.
Defined.

(* --------------------------------------------------------------------- *)
(* Stored uploads and the proxy                                          *)
(* --------------------------------------------------------------------- *)

Lemma isLocalUploadPath_not_remote v :
  isLocalUploadPath v = true → isRemoteUrl v = false.
Proof.
  unfold isLocalUploadPath, isRemoteUrl, startsWith.
  destruct (trim v) as [|a r]; [done |].
  destruct (Ascii.eqb_spec "/" a) as [<- | Hne]; [intros _; reflexivity |].
  cbn [stripPrefix]. apply Ascii.eqb_neq in Hne. by rewrite Hne.
Qed.

Lemma streamAuthorize_reply_level db user levelId now c l :
  fst (streamAuthorize db user levelId now) = Reply c l →
  Level_findById db levelId = Some l.
Proof.
  unfold streamAuthorize.
  destruct (Level_findById db levelId) as [level|]; [| done].
  destruct (negb (hasVideoRef (videoPath level))); [done |].
  destruct (courses db !! level_courseId level) as [course|]; [| done].
  destruct (negb (is_admin (user_role user)) && negb (is_published (course_state course)));
    [done |].
  cbv zeta.
  destruct (negb _); [done |].
  destruct (is_admin (user_role user)); [by intros [= _ ->] |].
  destruct (ensureProgress db (user_id user) (level_courseId level) now) as [p db1].
  destruct (levelNumber level >? or1 (currentLevel p)); [done |].
  by intros [= _ ->].
Qed.

(** A level whose stored video reference is a local upload (after trimming
    it starts with /uploads/) is never handed to the proxy for remote
    videos: the stream route answers with one of its refusals or serves the
    file from disk under that very reference. *)
Theorem stored_upload_never_proxied db files user levelId range now level v :
  Level_findById db levelId = Some level →
  videoPath level = Some v →
  isLocalUploadPath v = true →
  let r := fst (streamLevel db files user levelId range now) in
  (∀ url rg, r ≠ StreamRemote url rg)
  ∧ ((∃ code msg, fst (streamAuthorize db user levelId now) = Fail code msg
                  ∧ r = StreamFail code msg)
     ∨ ((∃ code, fst (streamAuthorize db user levelId now) = Reply code level)
        ∧ r = serveLocal files v range)).
Proof.
  intros Hl Hv Hlocal r.
  pose proof (isLocalUploadPath_not_remote v Hlocal) as Hremote.
  assert ((∃ code msg, fst (streamAuthorize db user levelId now) = Fail code msg
                       ∧ r = StreamFail code msg)
          ∨ ((∃ code, fst (streamAuthorize db user levelId now) = Reply code level)
             ∧ r = serveLocal files v range)) as Hcases.
  { subst r. unfold streamLevel.
    pose proof (streamAuthorize_reply_level db user levelId now) as Hlev.
    destruct (streamAuthorize db user levelId now) as [[code l | code msg] db1].
    - right. specialize (Hlev code l eq_refl). rewrite Hl in Hlev.
      injection Hlev as <-. rewrite Hv. simpl. rewrite Hremote. eauto.
    - left. eauto. }
  split; [| exact Hcases].
  intros url rg Hr.
  destruct Hcases as [(code & msg & _ & Hf) | [_ Hs]]; [congruence |].
  rewrite Hs in Hr. unfold serveLocal in Hr.
  destruct (files !! _); [| done].
  destruct range as [rs|]; [| done].
  destruct (truthy rs); [| done].
  unfold serveRange in Hr.
  destruct (rangeStart rs); [| done].
  destruct (_ >=? _); [done |].
  repeat match type of Hr with
         | context [match ?x with _ => _ end] => destruct x
         end; done.
Qed.

Lemma stored_upload_never_proxied_witness :
  let r := fst (streamLevel seqDbOtherVideos ∅ aStudent 31%nat None 5000) in
  (∀ url rg, r ≠ StreamRemote url rg)
  ∧ ((∃ code msg,
        fst (streamAuthorize seqDbOtherVideos aStudent 31%nat 5000) = Fail code msg
        ∧ r = StreamFail code msg)
     ∨ ((∃ code,
           fst (streamAuthorize seqDbOtherVideos aStudent 31%nat 5000)
           = Reply code (mkLevel 31%nat 20%nat 1 false (Some "/uploads/videos/other.webm")))
        ∧ r = serveLocal ∅ "/uploads/videos/other.webm" None)).
Proof.
  apply (stored_upload_never_proxied seqDbOtherVideos ∅ aStudent 31%nat None 5000
           (mkLevel 31%nat 20%nat 1 false (Some "/uploads/videos/other.webm"))
           "/uploads/videos/other.webm");
    vm_compute; reflexivity.
Defined.

(* --------------------------------------------------------------------- *)
(* GET /quizzes/level/:levelId                                           *)
(* --------------------------------------------------------------------- *)

Lemma find_map_commute {A B} (f : A → B) (p : B → bool) (l : list A) :
  List.find p (List.map f l) = f <$> List.find (fun a => p (f a)) l.
Proof.
  induction l as [|a l IH]; simpl; [done |]. by destruct (p (f a)).
Qed.

Lemma buildStudentQuizView_overwrite g quiz text :
  buildStudentQuizView (overwriteAnswers g quiz) text = buildStudentQuizView quiz text.
Proof.
  unfold buildStudentQuizView, overwriteAnswers. cbn. f_equal.
  by rewrite List.map_map.
Qed.

Lemma Quiz_findOne_levelId_overwrite db g levelId :
  Quiz_findOne_levelId (set_quizzes db (overwriteAnswers g <$> quizzes db)) levelId
  = overwriteAnswers g <$> Quiz_findOne_levelId db levelId.
Proof.
  unfold Quiz_findOne_levelId. cbn [quizzes set_quizzes].
  rewrite map_to_list_fmap.
  change (prod_map id (overwriteAnswers g) <$> map_to_list (quizzes db))
    with (List.map (prod_map id (overwriteAnswers g)) (map_to_list (quizzes db))).
  rewrite find_map_commute.
  destruct (List.find _ (map_to_list (quizzes db))) as [[k q]|]; reflexivity.
Qed.

(** What a learner reads of a quiz does not depend on the stored correct
    options and explanations: replacing them in every Quiz document by
    anything else leaves the answer of GET /quizzes/level/:levelId to a
    learner the same. *)
Theorem quiz_answers_hidden_from_learners db texts user levelId g :
  user_role user = student →
  getQuizForLevel (set_quizzes db (overwriteAnswers g <$> quizzes db)) texts user levelId
  = getQuizForLevel db texts user levelId.
Proof.
  intros R. unfold getQuizForLevel.
  rewrite (Quiz_findOne_levelId_overwrite db g levelId), R.
  destruct (Quiz_findOne_levelId db levelId) as [quiz|]; [| done].
  cbn. by rewrite buildStudentQuizView_overwrite.
Qed.

Lemma quiz_answers_hidden_from_learners_witness :
  getQuizForLevel
    (set_quizzes seqDb (overwriteAnswers (fun _ => (1, "because")) <$> quizzes seqDb))
    plainText aStudent 33%nat
  = getQuizForLevel seqDb plainText aStudent 33%nat.
Proof.
  apply (quiz_answers_hidden_from_learners seqDb plainText aStudent 33%nat
           (fun _ => (1, "because"))).
  reflexivity.
Defined.

(** A learner is given the quiz of a level exactly when there is one, it is
    active, and checkCourseAccess (the decision of the progress routes)
    grants its course; the body is then the student view of that quiz. *)
Theorem learner_reads_quiz_iff_access db texts user levelId :
  user_role user = student →
  (∀ body, getQuizForLevel db texts user levelId = Reply 200 body →
     ∃ quiz, Quiz_findOne_levelId db levelId = Some quiz
             ∧ is_active (quiz_state quiz) = true
             ∧ snd (checkCourseAccess db user (quiz_courseId quiz)) = true
             ∧ body = QuizForStudent (buildStudentQuizView quiz (texts (quiz_id quiz))))
  ∧ (∀ quiz, Quiz_findOne_levelId db levelId = Some quiz →
       is_active (quiz_state quiz) = true →
       snd (checkCourseAccess db user (quiz_courseId quiz)) = true →
       getQuizForLevel db texts user levelId
       = Reply 200 (QuizForStudent (buildStudentQuizView quiz (texts (quiz_id quiz))))).
Proof.
  intros R. unfold getQuizForLevel, checkCourseAccess. rewrite R.
  cbn [is_admin negb andb orb].
  split.
  - intros body.
    destruct (Quiz_findOne_levelId db levelId) as [quiz|]; [| done].
    destruct (is_active (quiz_state quiz)) eqn:Ha; [| done]. cbn [negb].
    destruct (courses db !! quiz_courseId quiz) as [course|] eqn:Hc; [| done].
    destruct (is_published (course_state course)) eqn:Hp; [| done]. cbn [negb].
    destruct (course_price course =? 0) eqn:Hz; cbn [negb andb].
    + intros [= <-]. exists quiz. by rewrite Hc, Hp, Hz.
    + destruct (bool_decide _) eqn:Hb; [| done]. intros [= <-]. exists quiz.
      by rewrite Hc, Hp, Hz, Hb.
  - intros quiz -> ->. cbn [negb].
    destruct (courses db !! quiz_courseId quiz) as [course|]; [| done].
    destruct (is_published (course_state course)); [| done]. cbn [negb].
    destruct (course_price course =? 0); cbn [negb andb snd]; [done |].
    by intros ->.
Qed.

Lemma learner_reads_quiz_iff_access_witness :
  (∀ body, getQuizForLevel seqDb plainText aStudent 33%nat = Reply 200 body →
     ∃ quiz, Quiz_findOne_levelId seqDb 33%nat = Some quiz
             ∧ is_active (quiz_state quiz) = true
             ∧ snd (checkCourseAccess seqDb aStudent (quiz_courseId quiz)) = true
             ∧ body = QuizForStudent (buildStudentQuizView quiz (plainText (quiz_id quiz))))
  ∧ (∀ quiz, Quiz_findOne_levelId seqDb 33%nat = Some quiz →
       is_active (quiz_state quiz) = true →
       snd (checkCourseAccess seqDb aStudent (quiz_courseId quiz)) = true →
       getQuizForLevel seqDb plainText aStudent 33%nat
       = Reply 200 (QuizForStudent (buildStudentQuizView quiz (plainText (quiz_id quiz))))).
Proof.
  apply (learner_reads_quiz_iff_access seqDb plainText aStudent 33%nat).
  reflexivity.
Defined.

(* --------------------------------------------------------------------- *)
(* External video hosts                                                  *)
(* --------------------------------------------------------------------- *)

Lemma toLowerAscii_idemp a : toLowerAscii (toLowerAscii a) = toLowerAscii a.
Proof. destruct a as [[] [] [] [] [] [] [] []]; reflexivity. Qed.

Lemma toLowerCase_idemp s : toLowerCase (toLowerCase s) = toLowerCase s.
Proof. induction s as [|a s IH]; simpl; [done |]. by rewrite toLowerAscii_idemp, IH. Qed.

Lemma toLowerCase_app a b : toLowerCase (a +:+ b) = toLowerCase a +:+ toLowerCase b.
Proof.
  induction a as [|x a IH]; [done |].
  change (String (toLowerAscii x) (toLowerCase (a +:+ b))
          = String (toLowerAscii x) (toLowerCase a +:+ toLowerCase b)).
  by rewrite IH.
Qed.

Lemma string_rev_onto_app s acc : string_rev_onto s acc = string_rev s +:+ acc.
Proof.
  unfold string_rev. revert acc. induction s as [|a s IH]; intros acc; simpl; [done |].
  rewrite (IH (String a acc)), (IH (String a "")), string_app_assoc. done.
Qed.

Lemma string_rev_app a b : string_rev (a +:+ b) = string_rev b +:+ string_rev a.
Proof.
  induction a as [|x a IH].
  - by rewrite string_app_empty_r.
  - change (string_rev_onto (a +:+ b) (String x "") = string_rev b +:+ string_rev_onto a (String x "")).
    rewrite !string_rev_onto_app, IH, string_app_assoc. done.
Qed.

Lemma endsWith_app a b : endsWith (a +:+ b) b = true.
Proof. unfold endsWith, startsWith. by rewrite string_rev_app, stripPrefix_app. Qed.

Lemma stripPrefix_length p s r :
  stripPrefix p s = Some r → String.length s = (String.length p + String.length r)%nat.
Proof.
  revert s. induction p as [|a p IH]; intros s; simpl; [by intros [= ->] |].
  destruct s as [|b s]; [done |]. destruct (Ascii.eqb a b); [| done].
  intros H. simpl. by rewrite (IH _ H).
Qed.

Lemma string_rev_onto_length s acc :
  String.length (string_rev_onto s acc) = (String.length s + String.length acc)%nat.
Proof.
  revert acc. induction s as [|a s IH]; intros acc; simpl; [done |].
  rewrite IH. simpl. lia.
Qed.

Lemma endsWith_length s p : endsWith s p = true → (String.length p ≤ String.length s)%nat.
Proof.
  unfold endsWith, startsWith.
  destruct (stripPrefix _ _) as [r|] eqn:E; [| done]. intros _.
  apply stripPrefix_length in E. unfold string_rev in E.
  rewrite !string_rev_onto_length in E. simpl in E. lia.
Qed.

Lemma toLowerCase_length s : String.length (toLowerCase s) = String.length s.
Proof. induction s as [|a s IH]; simpl; [done | by rewrite IH]. Qed.

Lemma string_app_length a b :
  String.length (a +:+ b) = (String.length a + String.length b)%nat.
Proof.
  induction a as [|x a IH]; [done |].
  change (S (String.length (a +:+ b)) = S (String.length a + String.length b)).
  by rewrite IH.
Qed.

Lemma existsb_app_r {A} (p : A → bool) l x :
  In x l → p x = true → existsb p l = true.
Proof. intros Hin Hp. apply existsb_exists. eauto. Qed.

(** The allow-list for external video hosts.  The check does not depend on
    the case of the host name; the empty name is never allowed; every name
    that ends in .googleusercontent.com is allowed whatever the
    configuration; a configured entry *.d admits every name sub.d; and such
    an entry adds nothing for the bare name d itself. *)
Theorem external_host_rules extra :
  (∀ h, isAllowedExternalVideoHost extra (toLowerCase h)
        = isAllowedExternalVideoHost extra h)
  ∧ isAllowedExternalVideoHost extra "" = false
  ∧ (∀ sub, isAllowedExternalVideoHost extra (sub +:+ ".googleusercontent.com") = true)
  ∧ (∀ d sub, In ("*." +:+ toLowerCase d) extra →
              isAllowedExternalVideoHost extra (sub +:+ "." +:+ d) = true)
  ∧ (∀ d, isAllowedExternalVideoHost ["*." +:+ d] d
          = isAllowedExternalVideoHost [] d).
Proof.
  split; [| split; [| split; [| split]]].
  - intros h. unfold isAllowedExternalVideoHost. by rewrite toLowerCase_idemp.
  - reflexivity.
  - intros sub. unfold isAllowedExternalVideoHost.
    rewrite toLowerCase_app.
    change (toLowerCase ".googleusercontent.com") with ".googleusercontent.com".
    rewrite endsWith_app.
    assert (truthy (toLowerCase sub +:+ ".googleusercontent.com") = true) as ->
      by (by destruct (toLowerCase sub)).
    reflexivity.
  - intros d sub Hin. unfold isAllowedExternalVideoHost.
    rewrite !toLowerCase_app.
    change (toLowerCase ".") with ".".
    assert (truthy (toLowerCase sub +:+ "." +:+ toLowerCase d) = true) as ->
      by (by destruct (toLowerCase sub)).
    cbn [negb].
    destruct (endsWith _ ".googleusercontent.com"); [done |].
    destruct (existsb _ (builtinVideoHosts ++ extra)); [done |].
    apply (existsb_app_r _ _ ("*." +:+ toLowerCase d) Hin).
    unfold matchesExtraHost.
    change (truthy ("*." +:+ toLowerCase d)) with true.
    change (startsWith ("*." +:+ toLowerCase d) "*.") with true.
    change (slice1 ("*." +:+ toLowerCase d)) with ("." +:+ toLowerCase d).
    cbn [negb]. apply endsWith_app.
  - intros d. unfold isAllowedExternalVideoHost.
    destruct (negb (truthy (toLowerCase d))); [done |].
    destruct (endsWith (toLowerCase d) ".googleusercontent.com"); [done |].
    assert (String.eqb (toLowerCase d) ("*." +:+ d) = false) as Hne.
    { apply String.eqb_neq. intros E.
      apply (f_equal String.length) in E.
      rewrite toLowerCase_length in E.
      change ("*." +:+ d) with (String "*" (String "." d)) in E. simpl in E. lia. }
    assert (endsWith (toLowerCase d) ("." +:+ d) = false) as Hend.
    { destruct (endsWith _ _) eqn:E; [| done].
      apply endsWith_length in E. rewrite toLowerCase_length in E.
      change ("." +:+ d) with (String "." d) in E. simpl in E. lia. }
    rewrite existsb_app. cbn [existsb app].
    rewrite Hne, !orb_false_r, (app_nil_r builtinVideoHosts).
    destruct (existsb _ builtinVideoHosts); [done |].
    unfold matchesExtraHost.
    change (truthy ("*." +:+ d)) with true.
    change (startsWith ("*." +:+ d) "*.") with true.
    change (slice1 ("*." +:+ d)) with ("." +:+ d).
    cbn [negb]. by rewrite Hend.
Qed.

Lemma external_host_rules_witness :
  isAllowedExternalVideoHost (extraAllowedHosts " *.Example.COM ,") "CDN.example.com"
  = true.
Proof.
  apply (proj1 (proj2 (proj2 (proj2
           (external_host_rules (extraAllowedHosts " *.Example.COM ,")))))
           "example.com" "CDN").
  vm_compute. left. reflexivity.
Defined.
